(** * NVML fan manager: the control core of [nvidia_fan_manager.py]

    A shallow embedding of the fan curve, the hysteresis gate, the
    per-profile hardware session, the manager's cycle, reload and
    shutdown, and of [normalize_config], followed by the properties
    proved about them.

    Numbers.  Python floats are embedded as rationals ([Q]) and Python's
    [int] is [Z].  The code compares, clamps, subtracts and rounds
    floats and converts ints to floats.  Comparing and clamping are
    exact on a machine too.  What a machine rounds is given by
    [round_double]: [float] of an int beyond [2 ^ 53] rounds, and raises
    [OverflowError] beyond the range of a double ([float_of_int]); the
    subtraction of the hysteresis gate rounds ([float_sub],
    [should_apply_float]), and [FanManager.should_apply] is its
    unrounded form, the same whenever the difference is a double.  NaN
    and the infinities are outside the embedding: a JSON document that
    holds one of them ([NaN], [Infinity], [1e999]), or a string that
    [float] reads as one, has no value here, and every statement below
    is about finite numbers. *)

From Stdlib Require Import QArith Qabs Qround Qminmax Qpower ZArith List String Bool.
From Stdlib Require Import Lia Lqa.
From Stdlib Require Import Permutation Sorted.
Import ListNotations.
Local Open Scope Q_scope.
Set Warnings "-register-all".

(** ** Python runtime pieces the code relies on *)

(** The exception classes that the modelled functions raise or catch. *)
Inductive exn : Type :=
| ValueError
| TypeError
| KeyError
| AttributeError
| IndexError
| OSError
| OverflowError
| NvmlError.

Definition exn_eqb (a b : exn) : bool :=
  match a, b with
  | ValueError, ValueError | TypeError, TypeError | KeyError, KeyError
  | AttributeError, AttributeError | IndexError, IndexError
  | OSError, OSError | OverflowError, OverflowError
  | NvmlError, NvmlError => true
  | _, _ => false
  end.

(** The outcome of a call: a value, or an exception on its way up. *)
Inductive result (A : Type) : Type :=
| Ok (a : A)
| Raise (e : exn).
Arguments Ok {A} a.
Arguments Raise {A} e.

(** [max(a, b)] and [min(a, b)] of two arguments: Python returns the
    first argument unless the second is strictly larger (smaller). *)
Definition Qlt_bool (a b : Q) : bool := negb (Qle_bool b a).
Definition py_max (a b : Q) : Q := if Qlt_bool a b then b else a.
Definition py_min (a b : Q) : Q := if Qlt_bool b a then b else a.

(** [round(x)] on a float: to the nearest integer, ties to the even one. *)
Definition py_round (x : Q) : Z :=
  let f := Qfloor x in
  let r := x - inject_Z f in
  if Qlt_bool r (1#2) then f
  else if Qlt_bool (1#2) r then (f + 1)%Z
  else if Z.even f then f else (f + 1)%Z.

(** [2 ^ k] for an integer [k] of either sign. *)
Definition pow2 (k : Z) : Q := 2 ^ k.

(** The binade of the positive rational [n / d]: the [e] with
    [2 ^ e <= n / d < 2 ^ (e + 1)]. *)
Definition binade (n d : positive) : Z :=
  let e := (Z.log2 (Zpos n) - Z.log2 (Zpos d))%Z in
  if Qle_bool (pow2 e) (Zpos n # d) then e else (e - 1)%Z.

(** The double that a float operation returns for the exact result [q]
    (IEEE 754 binary64, round to nearest, ties to the even mantissa):
    53 bits from the binade of [q] down, and never below [2 ^ -1074],
    the spacing of the subnormals.  The exponent has no upper end here:
    an operation that overflows to an infinity is outside the
    embedding. *)
Definition round_double (q : Q) : Q :=
  match Qnum q with
  | Z0 => 0
  | Zpos n | Zneg n =>
      let k := Z.max (binade n (Qden q) - 52) (-1074) in
      inject_Z (py_round (q * pow2 (- k))) * pow2 k
  end.

(** The rationals that are doubles. *)
Definition is_double (q : Q) : Prop := round_double q == q.

(** [a - b] on floats. *)
Definition float_sub (a b : Q) : Q := round_double (a - b).

(** [sorted(xs, key=k)] and [xs.sort(key=k)]: the stable sort by key.
    Every stable sort returns the same list; this one inserts from the
    right, putting an element before the first one whose key is not
    smaller, so equal keys keep their input order. *)
Section Sorting.
Context {A : Type} (key : A -> Q).

Fixpoint insert_sorted (x : A) (l : list A) : list A :=
  match l with
  | [] => [x]
  | y :: r => if Qle_bool (key x) (key y) then x :: y :: r
              else y :: insert_sorted x r
  end.

Definition sorted (l : list A) : list A := fold_right insert_sorted [] l.

Definition key_le (a b : A) : Prop := key a <= key b.
End Sorting.

(** The last element of a list, when there is one. *)
Fixpoint last_error {A : Type} (l : list A) : option A :=
  match l with
  | [] => None
  | [x] => Some x
  | _ :: r => last_error r
  end.

(** ** CurvePoint and FanCurve *)

Record CurvePoint : Type := mkCurvePoint {
  temperature : Q;
  speed : Q
}.

Module FanCurve.

Record t : Type := mk { _points : list CurvePoint }.

(** [FanCurve.__init__] *)
Definition init (points : list CurvePoint) : result t :=
  match points with
  | [] => Raise ValueError
  | _ => Ok (mk (sorted temperature points))
  end.

(** The [for] loop of [FanCurve.value], with [chosen] as accumulator. *)
Fixpoint value_loop (points : list CurvePoint) (temp chosen : Q) : Q :=
  match points with
  | [] => chosen
  | point :: rest =>
      if Qle_bool (temperature point) temp
      then value_loop rest temp (speed point)
      else chosen
  end.

(** [FanCurve.value]; [self._points[0]] raises on an empty list. *)
Definition value (self : t) (temp : Q) : result Q :=
  match _points self with
  | [] => Raise IndexError
  | p0 :: _ => Ok (value_loop (_points self) temp (speed p0))
  end.

End FanCurve.

(** ** Configuration snapshots: JSON values as Python sees them *)

Local Open Scope string_scope.
Local Open Scope list_scope.

(** What [json.load] produces.  A dict is kept as its items in insertion
    order; [dict_lookup] takes the first item with the key, so a list
    without repeated keys stands for the dict itself.  A [JFloat] is a
    finite float: the [NaN] and [Infinity] that [json.load] accepts as
    well have no value here. *)
Inductive json : Type :=
| JNull
| JBool (b : bool)
| JInt (z : Z)
| JFloat (q : Q)
| JStr (s : string)
| JList (l : list json)
| JDict (d : list (string * json)).

Fixpoint dict_lookup (k : string) (d : list (string * json)) : option json :=
  match d with
  | [] => None
  | (k', v) :: r => if String.eqb k k' then Some v else dict_lookup k r
  end.

(** [float(str)] and [int(str)] are Python's own parsers; the code is
    verified for any behaviour of them on the strings they read as a
    finite number or refuse ([None] is [ValueError]). *)
Class PyBuiltins : Type := {
  float_of_str : string -> option Q;
  int_of_str : string -> option Z
}.

(** [o.get(k, default)]: only dicts have the method. *)
Definition py_get (o : json) (k : string) (default : json) : result json :=
  match o with
  | JDict d => Ok (match dict_lookup k d with Some v => v | None => default end)
  | _ => Raise AttributeError
  end.

(** [o[k]] with a string key. *)
Definition py_getitem (o : json) (k : string) : result json :=
  match o with
  | JDict d => match dict_lookup k d with Some v => Ok v | None => Raise KeyError end
  | _ => Raise TypeError
  end.

(** [float(z)] of an int: [z] itself up to [2 ^ 53], where every int is
    a double; the nearest double beyond that; [OverflowError] from
    [2 ^ 1024 - 2 ^ 970] on, where the nearest double would be
    [2 ^ 1024]. *)
Definition float_of_int (z : Z) : result Q :=
  if (2 ^ 1024 - 2 ^ 970 <=? Z.abs z)%Z then Raise OverflowError
  else if (Z.abs z <=? 2 ^ 53)%Z then Ok (inject_Z z)
  else Ok (round_double (inject_Z z)).

(** [float(v)] *)
Definition py_float `{PyBuiltins} (v : json) : result Q :=
  match v with
  | JBool b => Ok (if b then 1 else 0)
  | JInt z => float_of_int z
  | JFloat q => Ok q
  | JStr s => match float_of_str s with Some q => Ok q | None => Raise ValueError end
  | JNull | JList _ | JDict _ => Raise TypeError
  end.

(** [int(v)]; a float, which is finite here, is truncated towards
    zero. *)
Definition py_int `{PyBuiltins} (v : json) : result Z :=
  match v with
  | JBool b => Ok (if b then 1%Z else 0%Z)
  | JInt z => Ok z
  | JFloat q => Ok (Z.quot (Qnum q) (Zpos (Qden q)))
  | JStr s => match int_of_str s with Some z => Ok z | None => Raise ValueError end
  | JNull | JList _ | JDict _ => Raise TypeError
  end.

(** Truth value of an object, as [not x] and [x or y] test it. *)
Definition truthy (v : json) : bool :=
  match v with
  | JNull => false
  | JBool b => b
  | JInt z => negb (Z.eqb z 0)
  | JFloat q => negb (Qeq_bool q 0)
  | JStr s => negb (String.eqb s "")
  | JList l => match l with [] => false | _ => true end
  | JDict d => match d with [] => false | _ => true end
  end.

Fixpoint chars (s : string) : list json :=
  match s with
  | EmptyString => []
  | String c r => JStr (String c EmptyString) :: chars r
  end.

(** [for x in v]: the elements of a list, the keys of a dict, the
    characters of a string; anything else is not iterable. *)
Definition py_iter (v : json) : result (list json) :=
  match v with
  | JList l => Ok l
  | JDict d => Ok (map (fun kv => JStr (fst kv)) d)
  | JStr s => Ok (chars s)
  | JNull | JBool _ | JInt _ | JFloat _ => Raise TypeError
  end.

(** The value of a number (a bool is an int in Python). *)
Definition num_value (v : json) : option Q :=
  match v with
  | JBool b => Some (if b then 1 else 0)
  | JInt z => Some (inject_Z z)
  | JFloat q => Some q
  | _ => None
  end.

(** Python's [==] on these values: numbers by value across int, float
    and bool; lists element by element; dicts by key, whatever the order. *)
Fixpoint json_eq (a b : json) : bool :=
  match a, b with
  | JNull, JNull => true
  | JStr s, JStr s' => String.eqb s s'
  | JList la, JList lb =>
      (fix list_eq (xs ys : list json) : bool :=
         match xs, ys with
         | [], [] => true
         | x :: xs', y :: ys' => json_eq x y && list_eq xs' ys'
         | _, _ => false
         end) la lb
  | JDict da, JDict db =>
      Nat.eqb (List.length da) (List.length db) &&
      (fix items_eq (xs : list (string * json)) : bool :=
         match xs with
         | [] => true
         | (k, v) :: xs' =>
             match dict_lookup k db with
             | Some v' => json_eq v v'
             | None => false
             end && items_eq xs'
         end) da
  | (JBool _ | JInt _ | JFloat _), (JBool _ | JInt _ | JFloat _) =>
      match num_value a, num_value b with
      | Some x, Some y => Qeq_bool x y
      | _, _ => false
      end
  | _, _ => false
  end.

(** [try: c  except (classes): h] on a pure computation. *)
Definition try_except {A : Type} (c : result A) (caught : list exn) (h : result A)
  : result A :=
  match c with
  | Ok a => Ok a
  | Raise e => if existsb (exn_eqb e) caught then h else Raise e
  end.

Definition rbind {A B : Type} (c : result A) (k : A -> result B) : result B :=
  match c with
  | Ok a => k a
  | Raise e => Raise e
  end.

Declare Scope result_scope.
Delimit Scope result_scope with result.
Notation "x <- c ;; k" := (rbind c (fun x => k))
  (at level 61, c at next level, right associativity) : result_scope.

(** ** Module constants *)

Definition curve_point (temp spd : json) : json :=
  JDict [("temperature", temp); ("speed", spd)].

Definition DEFAULT_CURVE : json :=
  JList [ curve_point (JInt 30) (JInt 25);
          curve_point (JInt 40) (JInt 35);
          curve_point (JInt 50) (JInt 45);
          curve_point (JInt 60) (JInt 60);
          curve_point (JInt 70) (JInt 75);
          curve_point (JInt 80) (JInt 90) ].

Definition profile_dict (gpu fan curve hysteresis : json) : json :=
  JDict [("gpu_index", gpu); ("fan_index", fan);
         ("curve", curve); ("hysteresis", hysteresis)].

Definition DEFAULT_PROFILE : json :=
  profile_dict (JInt 0) (JInt 0) DEFAULT_CURVE (JFloat 2.0).

Definition config_dict (poll_interval profiles : json) : json :=
  JDict [("poll_interval", poll_interval); ("profiles", profiles)].

Definition DEFAULT_CONFIG : json :=
  config_dict (JFloat 2.0) (JList [DEFAULT_PROFILE]).

(** The defaults the code reads out of the constants by key. *)
Definition DEFAULT_poll_interval : json := JFloat 2.0.
Definition DEFAULT_gpu_index : json := JInt 0.
Definition DEFAULT_fan_index : json := JInt 0.
Definition DEFAULT_hysteresis : json := JFloat 2.0.

(** [deep_copy_config]: a round trip through JSON text, which gives back
    an equal value that shares nothing with its argument. *)
Definition deep_copy_config (cfg : json) : json := cfg.

(** ** normalize_config *)

Section Normalize.
Context `{PyBuiltins}.
Local Open Scope result_scope.

(** One pass of the inner loop over [curve_raw]: [Some] of the dict
    appended to [curve], or [None] where the body hits [continue]. *)
Definition normalize_point (point : json) : result (option json) :=
  try_except
    (t0 <- py_getitem point "temperature" ;;
     temp <- py_float t0 ;;
     s0 <- py_getitem point "speed" ;;
     spd <- py_float s0 ;;
     Ok (Some (curve_point (JFloat temp)
                           (JFloat (py_max 0.0 (py_min 100.0 spd))))))
    [KeyError; TypeError; ValueError]
    (Ok None).

(** A [for] loop that appends to a list, stops at the first exception
    that escapes its body, and skips the items whose body continues. *)
Fixpoint collect {A : Type} (body : json -> result (option A)) (items : list json)
  : result (list A) :=
  match items with
  | [] => Ok []
  | x :: rest =>
      r <- body x ;;
      rs <- collect body rest ;;
      Ok (match r with Some y => y :: rs | None => rs end)
  end.

(** The sort key [item["temperature"]] of [curve.sort]; every item of
    [curve] was built by [normalize_point] or comes from
    [DEFAULT_CURVE], so its temperature is a number. *)
Definition temperature_key (item : json) : Q :=
  match py_getitem item "temperature" with
  | Ok v => match num_value v with Some q => q | None => 0 end
  | Raise _ => 0
  end.

Definition json_items (v : json) : list json :=
  match v with JList l => l | _ => [] end.

(** The first [try] of the loop over [profiles_input]: the two
    indices, or [None] where the handler hits [continue]. *)
Definition entry_indices (entry : json) : result (option (Z * Z)) :=
  try_except
    (g0 <- py_get entry "gpu_index" DEFAULT_gpu_index ;;
     gpu_idx <- py_int g0 ;;
     f0 <- py_get entry "fan_index" DEFAULT_fan_index ;;
     fan_idx <- py_int f0 ;;
     Ok (Some (gpu_idx, fan_idx)))
    [TypeError; ValueError]
    (Ok None).

(** One pass of the loop over [profiles_input]. *)
Definition normalize_entry (cfg entry : json) : result (option json) :=
  ids <- entry_indices entry ;;
  match ids with
  | None => Ok None
  | Some (gpu_idx, fan_idx) =>
      c0 <- py_get entry "curve" JNull ;;
      let curve_raw := if truthy c0 then c0 else DEFAULT_CURVE in
      points <- py_iter curve_raw ;;
      curve <- collect normalize_point points ;;
      let curve := match curve with
                   | [] => json_items (deep_copy_config DEFAULT_CURVE)
                   | _ => curve
                   end in
      let curve := sorted temperature_key curve in
      h_cfg <- py_get cfg "hysteresis" DEFAULT_hysteresis ;;
      hysteresis_raw <- py_get entry "hysteresis" h_cfg ;;
      hysteresis <- try_except (py_float hysteresis_raw)
                      [TypeError; ValueError] (Ok 2.0) ;;
      Ok (Some (profile_dict (JInt gpu_idx) (JInt fan_idx)
                             (JList curve) (JFloat hysteresis)))
  end.

Definition normalize_config (raw_cfg : json) : result json :=
  let cfg := deep_copy_config raw_cfg in
  p0 <- py_get cfg "poll_interval" DEFAULT_poll_interval ;;
  poll_interval <- try_except (py_float p0)
                     [TypeError; ValueError] (Ok 2.0) ;;
  profiles_input <- py_get cfg "profiles" JNull ;;
  profiles_input <-
    match profiles_input with
    | JList ((_ :: _) as l) => Ok l
    | _ =>
        g <- py_get cfg "gpu_index" DEFAULT_gpu_index ;;
        f <- py_get cfg "fan_index" DEFAULT_fan_index ;;
        c <- py_get cfg "curve" DEFAULT_CURVE ;;
        h <- py_get cfg "hysteresis" DEFAULT_hysteresis ;;
        Ok [profile_dict g f c h]
    end ;;
  normalized_profiles <- collect (normalize_entry cfg) profiles_input ;;
  let normalized_profiles :=
    match normalized_profiles with
    | [] => [deep_copy_config DEFAULT_PROFILE]
    | _ => normalized_profiles
    end in
  Ok (config_dict (JFloat (py_max 0.5 poll_interval))
                  (JList normalized_profiles)).

End Normalize.

(** ** The world outside the process *)

(** What the process does to the NVML library and to the configuration
    file, newest event first.  A controller is named by the length of
    the log at the moment it was constructed.  [EvOpen] is the
    [nvmlInit_v2] of a constructor, which [EvShutdown], the
    [nvmlShutdown] of the same controller, undoes; [EvOpenFailed] is a
    constructor that raised. *)
Inductive Event : Type :=
| EvOpen (device : nat) (gpu fan : Z)
| EvOpenFailed (gpu fan : Z)
| EvGetTemperature (device : nat)
| EvSetFanSpeed (device : nat) (spd : Q) (speed_int : Z)
| EvRestoreAuto (device : nat)
| EvShutdown (device : nat)
| EvReadConfig (path : string).

Definition World : Type := list Event.

(** The driver and the file system answer as they please: each answer
    is a function of everything that has happened so far. *)
Class Environment : Type := {
  (** does [load_nvml] find the library and [nvmlInit_v2] return
      [NVML_SUCCESS]? *)
  nvml_init : World -> bool;
  (** do [_get_device_handle] and [_validate_fan_index] come back
      without [NvmlError]? *)
  nvml_open : World -> Z -> Z -> bool;
  (** the [c_uint] that [nvmlDeviceGetTemperature] fills in, or failure *)
  nvml_temperature : World -> nat -> option Z;
  (** does [nvmlDeviceSetFanSpeed_v2] return [NVML_SUCCESS]? *)
  nvml_set_fan_speed : World -> nat -> Z -> bool;
  (** does [nvmlDeviceSetDefaultFanSpeed_v2] return [NVML_SUCCESS]? *)
  nvml_restore_auto : World -> nat -> bool;
  (** the file at a path: absent, unreadable, or parsed by [json.load] *)
  read_json : World -> string -> option (result json)
}.

(** Code that changes state [S] and may raise; the state survives the
    exception, as the objects of a Python program do. *)
Definition M (S A : Type) : Type := S -> result A * S.

Definition sret {S A : Type} (a : A) : M S A := fun s => (Ok a, s).
Definition sraise {S A : Type} (e : exn) : M S A := fun s => (Raise e, s).
Definition sbind {S A B : Type} (c : M S A) (k : A -> M S B) : M S B :=
  fun s => match c s with
           | (Ok a, s') => k a s'
           | (Raise e, s') => (Raise e, s')
           end.
Definition lift_result {S A : Type} (r : result A) : M S A := fun s => (r, s).

Declare Scope state_scope.
Delimit Scope state_scope with state.
Notation "x <- c ;; k" := (sbind c (fun x => k))
  (at level 61, c at next level, right associativity) : state_scope.
Notation "c ;;; k" := (sbind c (fun _ => k))
  (at level 61, right associativity) : state_scope.

(** [try: c  except (classes): h] *)
Definition s_try_except {S A : Type} (c : M S A) (caught : exn -> bool)
    (h : M S A) : M S A :=
  fun s => match c s with
           | (Ok a, s') => (Ok a, s')
           | (Raise e, s') => if caught e then h s' else (Raise e, s')
           end.

(** [try: c  finally: f] *)
Definition try_finally {S A : Type} (c : M S A) (f : M S unit) : M S A :=
  fun s => match c s with
           | (r, s') => match f s' with
                        | (Ok _, s'') => (r, s'')
                        | (Raise e, s'') => (Raise e, s'')
                        end
           end.

(** Run code that works on the world alone inside a larger state. *)
Definition in_world {X A : Type} (c : M World A) : M (X * World) A :=
  fun s => match c (snd s) with (r, w) => (r, (fst s, w)) end.

(** [for x in xs: body] over a list of mutable objects: each object is
    the state of its own pass; when a pass raises, the loop stops, with
    the objects visited so far as they have become and the rest
    untouched. *)
Fixpoint for_each {X : Type} (body : M (X * World) unit) (xs : list X) (w : World)
  : result unit * (list X * World) :=
  match xs with
  | [] => (Ok tt, ([], w))
  | x :: rest =>
      match body (x, w) with
      | (Ok _, (x', w')) =>
          match for_each body rest w' with
          | (r, (rest', w'')) => (r, (x' :: rest', w''))
          end
      | (Raise e, (x', w')) => (Raise e, (x' :: rest, w'))
      end
  end.

Definition get_obj {X : Type} : M (X * World) X := fun s => (Ok (fst s), s).
Definition modify_obj {X : Type} (f : X -> X) : M (X * World) unit :=
  fun s => (Ok tt, (f (fst s), snd s)).

(** [ctypes.c_uint(n)] keeps the low 32 bits. *)
Definition c_uint (n : Z) : Z := (n mod 2 ^ 32)%Z.

(** ** NvmlController: one session with the driver *)

Module NvmlController.

Record t : Type := mk { gpu_index : Z; fan_index : Z; device : nat }.

Section Methods.
Context `{Environment}.

(** [__init__]: load the library and [nvmlInit_v2], then the device
    handle and the fan count; any of them failing raises [NvmlError].
    When the handle or the fan count fails, the library has been
    initialised, and nothing in [__init__] shuts it down. *)
Definition init (gpu fan : Z) : M World t :=
  fun w =>
    if nvml_init w
    then let w1 := EvOpen (List.length w) gpu fan :: w in
         if nvml_open w1 gpu fan
         then (Ok (mk gpu fan (List.length w)), w1)
         else (Raise NvmlError, EvOpenFailed gpu fan :: w1)
    else (Raise NvmlError, EvOpenFailed gpu fan :: w).

(** [nvmlShutdown]; its return code is ignored. *)
Definition shutdown (self : t) : M World unit :=
  fun w => (Ok tt, EvShutdown (device self) :: w).

Definition get_temperature (self : t) : M World Q :=
  fun w =>
    (match nvml_temperature w (device self) with
     | Some v => Ok (inject_Z v)
     | None => Raise NvmlError
     end, EvGetTemperature (device self) :: w).

Definition set_fan_speed (self : t) (spd : Q) : M World unit :=
  fun w =>
    let speed_int := c_uint (py_round spd) in
    (if nvml_set_fan_speed w (device self) speed_int
     then Ok tt else Raise NvmlError,
     EvSetFanSpeed (device self) spd speed_int :: w).

Definition restore_auto (self : t) : M World unit :=
  fun w =>
    (if nvml_restore_auto w (device self) then Ok tt else Raise NvmlError,
     EvRestoreAuto (device self) :: w).
End Methods.

End NvmlController.

(** ** ManagedProfile *)

Module ManagedProfile.

Record t : Type := mk {
  gpu_index : Z;
  fan_index : Z;
  curve : FanCurve.t;
  hysteresis : Q;
  controller : NvmlController.t;
  last_speed : option Q;
  last_temp : option Q
}.

Definition set_last (spd temp : Q) (p : t) : t :=
  mk (gpu_index p) (fan_index p) (curve p) (hysteresis p) (controller p)
     (Some spd) (Some temp).

Section Methods.
Context `{Environment}.
Local Open Scope state_scope.

(** [close]: a failed restore is reported and does not stop the
    shutdown of the session. *)
Definition close (restore_auto : bool) : M (t * World) unit :=
  self <- get_obj ;;
  (if restore_auto
   then s_try_except (in_world (NvmlController.restore_auto (controller self)))
                     (exn_eqb NvmlError) (sret tt)
   else sret tt) ;;;
  in_world (NvmlController.shutdown (controller self)).
End Methods.

End ManagedProfile.

(** ** Building the profile set from a snapshot *)

Section Build.
Context `{PyBuiltins} `{Environment}.

(** One item of the loop of [FanCurve.from_dicts]. *)
Definition point_from_dict (item : json) : result (option CurvePoint) :=
  (t0 <- py_getitem item "temperature" ;;
   temp <- py_float t0 ;;
   s0 <- py_getitem item "speed" ;;
   spd <- py_float s0 ;;
   Ok (Some (mkCurvePoint temp spd)))%result.

(** [FanCurve.from_dicts] *)
Definition FanCurve_from_dicts (items : json) : result FanCurve.t :=
  (l <- py_iter items ;;
   pts <- collect point_from_dict l ;;
   FanCurve.init pts)%result.

(** [load_config] *)
Definition load_config (path : string) : M World json :=
  fun w =>
    (match read_json w path with
     | None => Ok (deep_copy_config DEFAULT_CONFIG)
     | Some (Raise e) => Raise e
     | Some (Ok cfg) => normalize_config cfg
     end, EvReadConfig path :: w).

Local Open Scope state_scope.

(** The body of the loop of [build_managed_profiles], up to the new
    profile. *)
Definition build_profile (entry : json) : M World ManagedProfile.t :=
  g0 <- lift_result (py_get entry "gpu_index" DEFAULT_gpu_index) ;;
  gpu_index <- lift_result (py_int g0) ;;
  f0 <- lift_result (py_get entry "fan_index" DEFAULT_fan_index) ;;
  fan_index <- lift_result (py_int f0) ;;
  c0 <- lift_result (py_get entry "curve" DEFAULT_CURVE) ;;
  curve <- lift_result (FanCurve_from_dicts c0) ;;
  h0 <- lift_result (py_get entry "hysteresis" DEFAULT_hysteresis) ;;
  hysteresis <- lift_result (py_float h0) ;;
  controller <- NvmlController.init gpu_index fan_index ;;
  sret (ManagedProfile.mk gpu_index fan_index curve hysteresis controller
                          None None).

(** The loop of [build_managed_profiles]; [profiles] is the local list
    it appends to, which the handler reads after an exception. *)
Fixpoint build_loop (entries : list json) (profiles : list ManagedProfile.t)
    (w : World) : result unit * (list ManagedProfile.t * World) :=
  match entries with
  | [] => (Ok tt, (profiles, w))
  | entry :: rest =>
      match build_profile entry w with
      | (Ok profile, w') => build_loop rest (profiles ++ [profile]) w'
      | (Raise e, w') => (Raise e, (profiles, w'))
      end
  end.

(** [build_managed_profiles]: on any exception the profiles built so
    far are closed without restore and the exception is raised again. *)
Definition build_managed_profiles (cfg : json) : M World (list ManagedProfile.t) :=
  fun w =>
    match (e0 <- py_get cfg "profiles" (JList []) ;; py_iter e0)%result with
    | Raise e => (Raise e, w)
    | Ok entries =>
        match build_loop entries [] w with
        | (Ok _, (profiles, w')) => (Ok profiles, w')
        | (Raise e, (profiles, w')) =>
            match for_each (ManagedProfile.close false) profiles w' with
            | (Ok _, (_, w'')) => (Raise e, w'')
            | (Raise e', (_, w'')) => (Raise e', w'')
            end
        end
    end.
End Build.

(** ** FanManager *)

Module FanManager.

Record t : Type := mk {
  profiles : list ManagedProfile.t;
  poll_interval : Q;
  restore_on_exit : bool;
  config_path : string;
  _running : bool;
  _reload_requested : bool
}.

Definition with_profiles (ps : list ManagedProfile.t) (m : t) : t :=
  mk ps (poll_interval m) (restore_on_exit m) (config_path m)
     (_running m) (_reload_requested m).

Definition with_poll_interval (q : Q) (m : t) : t :=
  mk (profiles m) q (restore_on_exit m) (config_path m)
     (_running m) (_reload_requested m).

(** [should_apply], with the difference of the two speeds taken as it
    is; [should_apply_float], after this module, rounds it as a machine
    does. *)
Definition should_apply (profile : ManagedProfile.t) (target_speed : Q) : bool :=
  match ManagedProfile.last_speed profile with
  | None => true
  | Some last =>
      let threshold := py_max 0.5 (ManagedProfile.hysteresis profile) in
      Qle_bool threshold (Qabs (target_speed - last))
  end.

Section Methods.
Context `{PyBuiltins} `{Environment}.
Local Open Scope state_scope.

(** [__init__]; the signal handlers it installs only flip the two
    flags. *)
Definition init (profiles : list ManagedProfile.t) (poll_interval : json)
    (restore_on_exit : bool) (config_path : string) : result t :=
  rbind (py_float poll_interval) (fun p =>
  Ok (mk profiles (py_max 0.5 p) restore_on_exit config_path true false)).

(** [_close_profiles] *)
Definition _close_profiles (profiles : list ManagedProfile.t) (restore : bool)
  : M World unit :=
  fun w => match for_each (ManagedProfile.close restore) profiles w with
           | (r, (_, w')) => (r, w')
           end.

(** [set_profiles] *)
Definition set_profiles (profiles : list ManagedProfile.t) : M (t * World) unit :=
  self <- get_obj ;;
  in_world (_close_profiles (FanManager.profiles self) (restore_on_exit self)) ;;;
  modify_obj (with_profiles profiles).

(** [apply_speed] *)
Definition apply_speed (target_speed temp : Q) : M (ManagedProfile.t * World) unit :=
  let target_speed := py_max 10.0 (py_min 100.0 target_speed) in
  profile <- get_obj ;;
  in_world (NvmlController.set_fan_speed (ManagedProfile.controller profile)
                                         target_speed) ;;;
  modify_obj (ManagedProfile.set_last target_speed temp).

(** The body of the loop of [loop_once] from the curve lookup on,
    for a temperature that has been read. *)
Definition regulate (temp : Q) : M (ManagedProfile.t * World) unit :=
  profile <- get_obj ;;
  target <- lift_result (FanCurve.value (ManagedProfile.curve profile) temp) ;;
  if should_apply profile target
  then apply_speed target temp
  else sret tt.

(** One pass of the loop of [loop_once], with its [except NvmlError]. *)
Definition loop_body : M (ManagedProfile.t * World) unit :=
  s_try_except
    (profile <- get_obj ;;
     temp <- in_world (NvmlController.get_temperature
                         (ManagedProfile.controller profile)) ;;
     regulate temp)
    (exn_eqb NvmlError)
    (sret tt).

(** [loop_once]; without profiles it only sleeps, which changes
    nothing that is modelled. *)
Definition loop_once : M (t * World) unit :=
  fun s =>
    let self := fst s in
    match profiles self with
    | [] => (Ok tt, s)
    | ps => match for_each loop_body ps (snd s) with
            | (r, (ps', w')) => (r, (with_profiles ps' self, w'))
            end
    end.

(** [reload_config].  When [build_managed_profiles] raises,
    [new_profiles] was never bound, so the loop of the handler runs
    over the empty list. *)
Definition reload_config : M (t * World) unit :=
  fun s =>
    let self := fst s in
    match load_config (config_path self) (snd s) with
    | (Raise _, w1) => (Ok tt, (self, w1))
    | (Ok cfg, w1) =>
        match build_managed_profiles cfg w1 with
        | (Raise _, w2) => (Ok tt, (self, w2))
        | (Ok new_profiles, w2) =>
            (p0 <- lift_result (py_get cfg "poll_interval"
                                       (JFloat (poll_interval self))) ;;
             p <- lift_result (py_float p0) ;;
             modify_obj (with_poll_interval (py_max 0.5 p)) ;;;
             set_profiles new_profiles) (self, w2)
        end
    end.

(** [stop] and [trigger_reload], the signal handlers. *)
Definition stop (m : t) : t :=
  mk (profiles m) (poll_interval m) (restore_on_exit m) (config_path m)
     false (_reload_requested m).
Definition trigger_reload (m : t) : t :=
  mk (profiles m) (poll_interval m) (restore_on_exit m) (config_path m)
     (_running m) true.
End Methods.

End FanManager.

(** [should_apply] with the subtraction as a machine does it: the
    difference of the two floats is rounded to the nearest double.
    [FanManager.should_apply] is the same test on the unrounded
    difference. *)
Definition should_apply_float (profile : ManagedProfile.t) (target_speed : Q) : bool :=
  match ManagedProfile.last_speed profile with
  | None => true
  | Some last =>
      let threshold := py_max 0.5 (ManagedProfile.hysteresis profile) in
      Qle_bool threshold (Qabs (float_sub target_speed last))
  end.

(** ** The [--once] path of [main] *)

Section Main.
Context `{PyBuiltins} `{Environment}.

(** [main] from [if args.once or args.daemon:] on, taken with
    [args.once]: [config] is the loaded snapshot, [config_path] is
    [args.config] and [no_restore_on_exit] the flag of that name. *)
Definition main_once (config : json) (config_path : string)
    (no_restore_on_exit : bool) : M World unit :=
  fun w =>
    match build_managed_profiles config w with
    | (Raise e, w1) => (Raise e, w1)
    | (Ok managed_profiles, w1) =>
        match (p0 <- py_get config "poll_interval" DEFAULT_poll_interval ;;
               FanManager.init managed_profiles p0
                               (negb no_restore_on_exit) config_path)%result with
        | Raise e => (Raise e, w1)
        | Ok manager =>
            match try_finally FanManager.loop_once (FanManager.set_profiles [])
                              (manager, w1) with
            | (r, (_, w2)) => (r, w2)
            end
        end
    end.
End Main.

(** ** The rest of the curve and profile helpers *)

(** [FanCurve.to_dicts] *)
Definition FanCurve_to_dicts (self : FanCurve.t) : json :=
  JList (map (fun p => curve_point (JFloat (temperature p)) (JFloat (speed p)))
             (FanCurve._points self)).

(** The test of [find_profile] and [remove_profile]:
    [profile.get("gpu_index") == gpu_index and
     profile.get("fan_index") == fan_index]. *)
Definition profile_matches (profile : json) (gpu_index fan_index : Z) : result bool :=
  (g <- py_get profile "gpu_index" JNull ;;
   if json_eq g (JInt gpu_index)
   then (f <- py_get profile "fan_index" JNull ;;
         Ok (json_eq f (JInt fan_index)))
   else Ok false)%result.

(** [find_profile] *)
Fixpoint find_profile (profiles : list json) (gpu_index fan_index : Z)
  : result (option json) :=
  match profiles with
  | [] => Ok None
  | profile :: rest =>
      (b <- profile_matches profile gpu_index fan_index ;;
       if b then Ok (Some profile) else find_profile rest gpu_index fan_index)%result
  end.

(** [ensure_profile]: the list it returns is [profiles] after the call
    (the code appends in place), next to the value returned. *)
Definition ensure_profile (profiles : list json) (gpu_index fan_index : Z)
    (create : bool) : result (list json * option json) :=
  (found <- find_profile profiles gpu_index fan_index ;;
   match found with
   | Some profile => Ok (profiles, Some profile)
   | None =>
       if create
       then let profile := profile_dict (JInt gpu_index) (JInt fan_index)
                             (deep_copy_config DEFAULT_CURVE) DEFAULT_hysteresis in
            Ok (profiles ++ [profile], Some profile)
       else Ok (profiles, None)
   end)%result.

(** [remove_profile]: the list after the call, and the value returned. *)
Fixpoint remove_profile (profiles : list json) (gpu_index fan_index : Z)
  : result (list json * bool) :=
  match profiles with
  | [] => Ok ([], false)
  | profile :: rest =>
      (b <- profile_matches profile gpu_index fan_index ;;
       if b then Ok (rest, true)
       else r <- remove_profile rest gpu_index fan_index ;;
            Ok (profile :: fst r, snd r))%result
  end.

(** ** Parsing the command line values *)

From Stdlib Require Import Ascii.

(** [s.split(sep)] for a one-character separator. *)
Fixpoint split_on (sep : Ascii.ascii) (s : string) : list string :=
  match s with
  | EmptyString => [EmptyString]
  | String c r =>
      if Ascii.eqb c sep then EmptyString :: split_on sep r
      else match split_on sep r with
           | h :: t => String c h :: t
           | [] => [String c EmptyString]
           end
  end.

(** [s.split(sep, 1)] when [sep] occurs in [s]: what is before the first
    occurrence and what is after it; [None] when it does not occur. *)
Fixpoint split_once (sep : Ascii.ascii) (s : string) : option (string * string) :=
  match s with
  | EmptyString => None
  | String c r =>
      if Ascii.eqb c sep then Some (EmptyString, r)
      else match split_once sep r with
           | Some (a, b) => Some (String c a, b)
           | None => None
           end
  end.

(** [str.strip()] is Python's own; the code is verified for any
    behaviour of it. *)
Class PyStrings : Type := {
  str_strip : string -> string
}.

Section Parsing.
Context `{PyBuiltins} `{PyStrings}.

(** One pass of the loop of [parse_curve_string]: [None] where the body
    continues.  The two range tests are those of finite numbers: a
    string that [float] reads as [nan], which Python lets through
    [temp < 0], is outside the embedding, as is one that it reads as an
    infinity. *)
Definition parse_curve_entry (entry : string) : result (option json) :=
  let entry := str_strip entry in
  if String.eqb entry "" then Ok None
  else match split_once ":"%char entry with
       | None => Raise ValueError
       | Some (temp_str, speed_str) =>
           match float_of_str temp_str with
           | None => Raise ValueError
           | Some temp =>
               match float_of_str speed_str with
               | None => Raise ValueError
               | Some spd =>
                   if Qlt_bool temp 0 then Raise ValueError
                   else if negb (Qle_bool 0 spd && Qle_bool spd 100)
                        then Raise ValueError
                        else Ok (Some (curve_point (JFloat temp) (JFloat spd)))
               end
           end
       end.

Fixpoint parse_curve_entries (entries : list string) : result (list json) :=
  match entries with
  | [] => Ok []
  | entry :: rest =>
      (r <- parse_curve_entry entry ;;
       rs <- parse_curve_entries rest ;;
       Ok (match r with Some point => point :: rs | None => rs end))%result
  end.

(** [parse_curve_string] *)
Definition parse_curve_string (curve_str : string) : result (list json) :=
  if String.eqb curve_str "" then Raise ValueError
  else (points <- parse_curve_entries (split_on ","%char curve_str) ;;
        match points with
        | [] => Raise ValueError
        | _ => Ok (sorted temperature_key points)
        end)%result.

(** [parse_profile_token]; [None] is the token [None]. *)
Definition parse_profile_token (token : option string) : result (Z * Z) :=
  match token with
  | None => Raise ValueError
  | Some token =>
      match split_once ":"%char token with
      | None => Raise ValueError
      | Some (gpu_str, fan_str) =>
          match int_of_str gpu_str with
          | None => Raise ValueError
          | Some gpu_idx =>
              match int_of_str fan_str with
              | None => Raise ValueError
              | Some fan_idx =>
                  if (gpu_idx <? 0)%Z || (fan_idx <? 0)%Z then Raise ValueError
                  else Ok (gpu_idx, fan_idx)
              end
          end
      end
  end.
End Parsing.

(** The options of the command line that select a profile. *)
Record Args : Type := mkArgs {
  args_profile : option string;
  args_gpu_index : option Z;
  args_fan_index : option Z
}.

(** [x[0]]: the first element of a list, the first character of a
    string; a dict from JSON has no key [0], and nothing else can be
    indexed. *)
Definition py_first (x : json) : result json :=
  match x with
  | JList (y :: _) => Ok y
  | JList [] => Raise IndexError
  | JStr (String c _) => Ok (JStr (String c EmptyString))
  | JStr EmptyString => Raise IndexError
  | JDict _ => Raise KeyError
  | JNull | JBool _ | JInt _ | JFloat _ => Raise TypeError
  end.

Section Resolve.
Context `{PyBuiltins}.

(** [resolve_profile_tuple] *)
Definition resolve_profile_tuple (args : Args) (config : json) : result (Z * Z) :=
  match args_profile args with
  | Some (String c r) => parse_profile_token (Some (String c r))
  | _ =>
      (profiles <- py_get config "profiles" (JList []) ;;
       base <- (if truthy profiles then py_first profiles else Ok DEFAULT_PROFILE) ;;
       gpu <- match args_gpu_index args with
              | Some g => Ok g
              | None => g0 <- py_get base "gpu_index" (JInt 0) ;; py_int g0
              end ;;
       fan <- match args_fan_index args with
              | Some f => Ok f
              | None => f0 <- py_get base "fan_index" (JInt 0) ;; py_int f0
              end ;;
       if (gpu <? 0)%Z || (fan <? 0)%Z then Raise ValueError else Ok (gpu, fan))%result
  end.
End Resolve.

(** * Vocabulary of the properties *)

(** The points a sample has reached. *)
Definition at_or_below (temp : Q) (p : CurvePoint) : bool :=
  Qle_bool (temperature p) temp.

(** A driver and a file system that never refuse: every session opens,
    every command succeeds, the sensor reads 40 degrees, and there is no
    configuration file. *)
Definition obliging : Environment := {|
  nvml_init := fun _ => true;
  nvml_open := fun _ _ _ => true;
  nvml_temperature := fun _ _ => Some 40%Z;
  nvml_set_fan_speed := fun _ _ _ => true;
  nvml_restore_auto := fun _ _ => true;
  read_json := fun _ _ => None
|}.

(** A Python whose [float(str)] and [int(str)] accept no string. *)
Definition no_numeric_strings : PyBuiltins := {|
  float_of_str := fun _ => None;
  int_of_str := fun _ => None
|}.

(** The cycles of one profile for a given sequence of readings: the
    body of the loop of [loop_once] from the curve lookup on, inside its
    [except NvmlError], once per reading. *)
Fixpoint run_cycles `{Environment} (temps : list Q)
  : M (ManagedProfile.t * World) unit :=
  match temps with
  | [] => sret tt
  | temp :: rest =>
      sbind (s_try_except (FanManager.regulate temp) (exn_eqb NvmlError) (sret tt))
            (fun _ => run_cycles rest)
  end.

(** What one more cycle keeps when the target stays below the floor. *)
Definition at_floor (p q : ManagedProfile.t) : Prop :=
  ManagedProfile.last_speed q = Some 10.0 /\
  ManagedProfile.curve q = ManagedProfile.curve p /\
  ManagedProfile.hysteresis q = ManagedProfile.hysteresis p /\
  ManagedProfile.controller q = ManagedProfile.controller p.

(** The curve and the profile of the three-reading scenario. *)
Definition scenario_points : list CurvePoint :=
  [mkCurvePoint 30 25; mkCurvePoint 50 45; mkCurvePoint 70 75].

Definition scenario_profile (c : FanCurve.t) : ManagedProfile.t :=
  ManagedProfile.mk 0 0 c 2 (NvmlController.mk 0 0 0%nat) None None.

(** What closing one session adds to the log (newest first): the
    restore, when asked for, then the shutdown. *)
Definition close_events (restore : bool) (ctl : NvmlController.t) : list Event :=
  EvShutdown (NvmlController.device ctl) ::
  (if restore then [EvRestoreAuto (NvmlController.device ctl)] else []).

(** The log after closing the sessions of a list, in its order. *)
Definition closing_world (restore : bool) (ctls : list NvmlController.t) (w : World)
  : World :=
  fold_left (fun w' ctl => close_events restore ctl ++ w') ctls w.

(** The sessions that are open after a log: opened and not shut down
    since. *)
Fixpoint remove_first (d : nat) (l : list nat) : list nat :=
  match l with
  | [] => []
  | x :: r => if Nat.eqb d x then r else x :: remove_first d r
  end.

Fixpoint open_sessions (w : World) : list nat :=
  match w with
  | [] => []
  | EvOpen d _ _ :: r => d :: open_sessions r
  | EvShutdown d :: r => remove_first d (open_sessions r)
  | _ :: r => open_sessions r
  end.

(** Session names handed out one after the other, none below [n]. *)
Fixpoint increasing_from (n : nat) (ds : list nat) : Prop :=
  match ds with
  | [] => True
  | d :: r => (n <= d)%nat /\ increasing_from (S d) r
  end.

(** The value of a float, or of an int that [float] takes as it is. *)
Definition number_value (v : json) : option Q :=
  match v with
  | JInt z => if (Z.abs z <=? 2 ^ 53)%Z then Some (inject_Z z) else None
  | JFloat q => Some q
  | _ => None
  end.

(** A point, a profile and a snapshot as [normalize_config] leaves
    them: numbers where numbers belong, speeds in [[0, 100]], curves
    non-empty and sorted by temperature, profiles non-empty, the poll
    interval at least 0.5. *)
Definition normalized_point (pt : json) : Prop :=
  exists tv sv t s,
    pt = curve_point tv sv /\
    number_value tv = Some t /\ number_value sv = Some s /\ 0 <= s <= 100.

Definition normalized_profile (e : json) : Prop :=
  exists g f pts h,
    e = profile_dict (JInt g) (JInt f) (JList pts) (JFloat h) /\
    pts <> [] /\
    Forall normalized_point pts /\
    Sorted (key_le temperature_key) pts.

Definition normalized_config (cfg : json) : Prop :=
  exists p ps,
    cfg = config_dict (JFloat p) (JList ps) /\
    0.5 <= p /\ ps <> [] /\ Forall normalized_profile ps.

(** *** What [normalize_config] returns, in the words of the amended
    claim: no exception, only fields that are kept, dropped or
    replaced. *)

(** [d.get(k, default)] on the items of a dict. *)
Definition field (k : string) (d : list (string * json)) (default : json) : json :=
  match dict_lookup k d with Some v => v | None => default end.

(** The float of a field that is a number, and the fallback when it is
    not. *)
Definition float_or `{PyBuiltins} (fallback : Q) (v : json) : Q :=
  match py_float v with Ok q => q | Raise _ => fallback end.

(** The elements that a [for] loop goes through. *)
Definition elements (v : json) : list json :=
  match py_iter v with Ok l => l | Raise _ => [] end.

(** The items that a pass keeps, in their order. *)
Definition kept {A : Type} (f : json -> option A) (l : list json) : list A :=
  flat_map (fun x => match f x with Some y => [y] | None => [] end) l.

(** A curve point with a numeric temperature and a numeric speed is
    kept, as two floats with the speed clamped to [[0, 100]]; any other
    point is dropped. *)
Definition clamped_point `{PyBuiltins} (pt : json) : option json :=
  match pt with
  | JDict d =>
      match dict_lookup "temperature" d, dict_lookup "speed" d with
      | Some t0, Some s0 =>
          match py_float t0, py_float s0 with
          | Ok t, Ok s =>
              Some (curve_point (JFloat t) (JFloat (py_max 0.0 (py_min 100.0 s))))
          | _, _ => None
          end
      | _, _ => None
      end
  | _ => None
  end.

(** The curve of a profile: the kept points of the raw curve, or of
    the default curve when the raw one is missing or empty (or any other
    false value), sorted by temperature; the default curve as it is
    when no point is kept. *)
Definition normalized_curve `{PyBuiltins} (c : json) : list json :=
  let points := kept clamped_point (elements (if truthy c then c else DEFAULT_CURVE)) in
  sorted temperature_key
         match points with [] => json_items DEFAULT_CURVE | _ => points end.

(** A profile entry with numeric indices is kept, with integer
    indices, its normalized curve, and as hysteresis the float of its
    own hysteresis, of the snapshot's top-level one when it has none,
    and 2.0 when that is missing or no number; any other entry is
    dropped. *)
Definition normalized_entry `{PyBuiltins} (top : list (string * json)) (entry : json)
  : option json :=
  match entry with
  | JDict d =>
      match py_int (field "gpu_index" d (JInt 0)),
            py_int (field "fan_index" d (JInt 0)) with
      | Ok g, Ok f =>
          Some (profile_dict
                  (JInt g) (JInt f)
                  (JList (normalized_curve (field "curve" d JNull)))
                  (JFloat (float_or 2.0
                             (field "hysteresis" d
                                    (field "hysteresis" top (JFloat 2.0))))))
      | _, _ => None
      end
  | _ => None
  end.

(** The entries that are normalized: those of a non-empty profile list,
    and otherwise a single one made of the snapshot's top-level
    [gpu_index], [fan_index], [curve] and [hysteresis], with the
    defaults where a key is absent. *)
Definition profile_entries (top : list (string * json)) : list json :=
  match dict_lookup "profiles" top with
  | Some (JList ((_ :: _) as l)) => l
  | _ => [profile_dict (field "gpu_index" top (JInt 0))
                       (field "fan_index" top (JInt 0))
                       (field "curve" top DEFAULT_CURVE)
                       (field "hysteresis" top (JFloat 2.0))]
  end.

(** The snapshot: the poll interval is the float of the raw one, 2.0
    when that is missing or no number, and at least 0.5; the profiles
    are the kept entries, and the default profile alone when none is
    kept. *)
Definition normalized_snapshot `{PyBuiltins} (top : list (string * json)) : json :=
  config_dict
    (JFloat (py_max 0.5 (float_or 2.0 (field "poll_interval" top (JFloat 2.0)))))
    (JList match kept (normalized_entry top) (profile_entries top) with
           | [] => [DEFAULT_PROFILE]
           | profiles => profiles
           end).

(** Inputs on which no step of [normalize_config] meets an object of
    the wrong kind or an int that is too large for a float: the
    snapshot is a dict and its poll interval is no int beyond the range
    of a double; every entry that is normalized is a dict; and in an
    entry with numeric indices, which is the only kind whose curve and
    hysteresis are looked at, the curve can be iterated when it is not
    a false value, its points have no such int as temperature, nor as
    speed next to a numeric temperature, and the hysteresis is no such
    int. *)
Definition iterable (v : json) : Prop :=
  match v with
  | JList _ | JDict _ | JStr _ => True
  | _ => False
  end.

Definition in_float_range (v : json) : Prop :=
  match v with
  | JInt z => (Z.abs z < 2 ^ 1024 - 2 ^ 970)%Z
  | _ => True
  end.

Definition point_usable `{PyBuiltins} (pt : json) : Prop :=
  match pt with
  | JDict d =>
      in_float_range (field "temperature" d JNull) /\
      (forall t, py_float (field "temperature" d JNull) = Ok t ->
                 in_float_range (field "speed" d JNull))
  | _ => True
  end.

Definition curve_usable `{PyBuiltins} (c : json) : Prop :=
  truthy c = true -> iterable c /\ Forall point_usable (elements c).

Definition entry_usable `{PyBuiltins} (top : list (string * json)) (e : json) : Prop :=
  exists d,
    e = JDict d /\
    forall g f,
      py_int (field "gpu_index" d (JInt 0)) = Ok g ->
      py_int (field "fan_index" d (JInt 0)) = Ok f ->
      curve_usable (field "curve" d JNull) /\
      in_float_range (field "hysteresis" d (field "hysteresis" top (JFloat 2.0))).

Definition usable_snapshot `{PyBuiltins} (raw : json) : Prop :=
  exists top,
    raw = JDict top /\
    in_float_range (field "poll_interval" top (JFloat 2.0)) /\
    Forall (entry_usable top) (profile_entries top).

(** Equal as Python compares them, with equal sort keys. *)
Definition same_point (a b : json) : Prop :=
  json_eq a b = true /\ temperature_key a == temperature_key b.

(** What a cycle may do to a profile: nothing, or record a commanded
    speed, which lies in [[10, 100]], and a temperature ([pass_of] says
    which one). *)
Definition cycled (p' p : ManagedProfile.t) : Prop :=
  p' = p \/
  exists v temp, 10 <= v <= 100 /\ p' = ManagedProfile.set_last v temp p.

(** What a cycle may do to the driver: read a temperature, or command a
    speed in [[10, 100]]. *)
Definition cycle_event (e : Event) : Prop :=
  match e with
  | EvGetTemperature _ => True
  | EvSetFanSpeed _ v n => 10 <= v <= 100 /\ (10 <= n <= 100)%Z
  | _ => False
  end.

(** The sessions whose temperature a log reads, newest first. *)
Fixpoint temperature_reads (evs : list Event) : list nat :=
  match evs with
  | [] => []
  | EvGetTemperature d :: r => d :: temperature_reads r
  | _ :: r => temperature_reads r
  end.

(** The session of a profile. *)
Definition session_of (p : ManagedProfile.t) : nat :=
  NvmlController.device (ManagedProfile.controller p).




(** A curve with at least one point and every speed in [[0, 100]]. *)
Definition curve_in_range (c : FanCurve.t) : Prop :=
  FanCurve._points c <> [] /\
  Forall (fun p => 0 <= speed p <= 100) (FanCurve._points c).

(** The curve point that a normalized dict stands for. *)
Definition point_of (cp : CurvePoint) (pt : json) : Prop :=
  exists tv sv,
    pt = curve_point tv sv /\
    number_value tv = Some (temperature cp) /\
    number_value sv = Some (speed cp) /\
    0 <= speed cp <= 100.

(** A profile as [build_managed_profiles] hands it over: nothing
    applied yet. *)
Definition fresh_profile (p : ManagedProfile.t) : Prop :=
  ManagedProfile.last_speed p = None /\ ManagedProfile.last_temp p = None.

(** A driver that refuses every session. *)
Definition unplugged : Environment := {|
  nvml_init := fun _ => false;
  nvml_open := fun _ _ _ => false;
  nvml_temperature := fun _ _ => None;
  nvml_set_fan_speed := fun _ _ _ => false;
  nvml_restore_auto := fun _ _ => false;
  read_json := fun _ _ => None
|}.

(** A driver that starts, on a machine whose only GPU is number 0 and
    has one fan: any other device or fan is refused after
    [nvmlInit_v2] has succeeded.  The configuration file holds [raw]. *)
Definition one_gpu_with_file (raw : json) : Environment := {|
  nvml_init := fun _ => true;
  nvml_open := fun _ gpu fan => Z.eqb gpu 0 && Z.eqb fan 0;
  nvml_temperature := fun _ _ => Some 40%Z;
  nvml_set_fan_speed := fun _ _ _ => true;
  nvml_restore_auto := fun _ _ => true;
  read_json := fun _ _ => Some (Ok raw)
|}.

(** A snapshot with a poll interval that is no number, a top-level
    hysteresis, an entry without a usable index, and an entry whose
    curve is out of order, out of range and in part no curve point. *)
Definition untidy_config : json :=
  JDict [("poll_interval", JStr "fast");
         ("hysteresis", JInt 3);
         ("profiles",
          JList [JDict [("gpu_index", JNull)];
                 JDict [("gpu_index", JInt 1);
                        ("curve",
                         JList [curve_point (JInt 50) (JInt 120);
                                curve_point (JStr "hot") (JInt 3);
                                JInt 7;
                                curve_point (JFloat 30) (JInt (-5))])]])].

(** A configuration file that names GPU 0 and GPU 1. *)
Definition two_gpu_config : json :=
  JDict [("profiles", JList [JDict [("gpu_index", JInt 0)];
                             JDict [("gpu_index", JInt 1)]])].

(** A Python that reads the numerals of one small example, and a
    [strip] that finds nothing to strip. *)
Definition reads_small_numerals : PyBuiltins := {|
  float_of_str := fun s => if String.eqb s "40" then Some 40
                           else if String.eqb s "30" then Some 30 else None;
  int_of_str := fun s => if String.eqb s "0" then Some 0%Z
                         else if String.eqb s "1" then Some 1%Z else None
|}.

Definition no_stripping : PyStrings := {| str_strip := fun s => s |}.

(** * Properties *)

(** ** Comparisons and clamping *)

Lemma Qlt_bool_true (a b : Q) : Qlt_bool a b = true <-> a < b.
Proof.
  unfold Qlt_bool. rewrite negb_true_iff.
  destruct (Qle_bool b a) eqn:E; split; intro F; try discriminate; try reflexivity.
  - apply Qle_bool_iff in E. lra.
  - destruct (Qlt_le_dec a b) as [L | L]; [exact L |].
    apply Qle_bool_iff in L. congruence.
Qed.

Lemma Qlt_bool_false (a b : Q) : Qlt_bool a b = false <-> b <= a.
Proof.
  unfold Qlt_bool. rewrite negb_false_iff. apply Qle_bool_iff.
Qed.

Lemma Qle_bool_false (a b : Q) : Qle_bool a b = false -> b < a.
Proof.
  intro E. destruct (Qlt_le_dec b a) as [L | L]; [exact L |].
  apply Qle_bool_iff in L. congruence.
Qed.

Lemma py_max_spec (a b : Q) :
  (a < b /\ py_max a b = b) \/ (b <= a /\ py_max a b = a).
Proof.
  unfold py_max. destruct (Qlt_bool a b) eqn:E.
  - left. apply Qlt_bool_true in E. auto.
  - right. apply Qlt_bool_false in E. auto.
Qed.

Lemma py_min_spec (a b : Q) :
  (b < a /\ py_min a b = b) \/ (a <= b /\ py_min a b = a).
Proof.
  unfold py_min. destruct (Qlt_bool b a) eqn:E.
  - left. apply Qlt_bool_true in E. auto.
  - right. apply Qlt_bool_false in E. auto.
Qed.

(** [max(lo, min(hi, x))] lands in [[lo, hi]] and moves [x] only when it
    is outside. *)
Lemma clamp_bounds (lo hi x : Q) :
  lo <= hi ->
  lo <= py_max lo (py_min hi x) <= hi /\
  (lo <= x <= hi -> py_max lo (py_min hi x) == x).
Proof.
  intro L.
  destruct (py_min_spec hi x) as [[A ->] | [A ->]];
    destruct (py_max_spec lo x) as [[B E] | [B E]];
    destruct (py_max_spec lo hi) as [[C F] | [C F]];
    rewrite ?E, ?F; split; try lra; intros; lra.
Qed.

(** ** The stable sort *)

Section SortingFacts.
Context {A : Type} (key : A -> Q).

Lemma insert_sorted_perm (x : A) (l : list A) :
  Permutation (x :: l) (insert_sorted key x l).
Proof.
  induction l as [| y r IH]; simpl; [reflexivity |].
  destruct (Qle_bool (key x) (key y)); [reflexivity |].
  rewrite perm_swap. constructor. exact IH.
Qed.

Lemma sorted_perm (l : list A) : Permutation l (sorted key l).
Proof.
  induction l as [| x r IH]; simpl; [constructor |].
  rewrite <- insert_sorted_perm. constructor. exact IH.
Qed.

Lemma insert_sorted_HdRel (a x : A) (l : list A) :
  key a <= key x -> HdRel (key_le key) a l ->
  HdRel (key_le key) a (insert_sorted key x l).
Proof.
  intros Hax Hl. destruct l as [| y r]; simpl.
  - constructor. exact Hax.
  - destruct (Qle_bool (key x) (key y)); constructor.
    + exact Hax.
    + inversion Hl; assumption.
Qed.

Lemma insert_sorted_Sorted (x : A) (l : list A) :
  Sorted (key_le key) l -> Sorted (key_le key) (insert_sorted key x l).
Proof.
  induction 1 as [| y r Hr IH Hy]; simpl.
  - repeat constructor.
  - destruct (Qle_bool (key x) (key y)) eqn:E.
    + constructor; [constructor; assumption |].
      constructor. apply Qle_bool_iff. exact E.
    + constructor; [exact IH |].
      apply insert_sorted_HdRel; [| exact Hy].
      apply Qle_bool_false in E. lra.
Qed.

Lemma sorted_Sorted (l : list A) : Sorted (key_le key) (sorted key l).
Proof.
  induction l as [| x r IH]; simpl; [constructor |].
  apply insert_sorted_Sorted. exact IH.
Qed.

(** Sorting a sorted list changes nothing. *)
Lemma sorted_fixpoint (l : list A) :
  Sorted (key_le key) l -> sorted key l = l.
Proof.
  induction 1 as [| y r Hr IH Hy]; simpl; [reflexivity |].
  rewrite IH. destruct Hy as [| z r' Hz]; simpl; [reflexivity |].
  apply Qle_bool_iff in Hz. rewrite Hz. reflexivity.
Qed.

Lemma key_le_trans : Relations_1.Transitive (key_le key).
Proof. intros a b c. unfold key_le. lra. Qed.

Lemma sorted_StronglySorted (l : list A) :
  StronglySorted (key_le key) (sorted key l).
Proof.
  apply Sorted_StronglySorted; [apply key_le_trans | apply sorted_Sorted].
Qed.

Lemma sorted_nonempty (l : list A) : l <> [] -> sorted key l <> [].
Proof.
  intros Hl E. apply Hl. apply Permutation_nil.
  rewrite <- E. symmetry. apply sorted_perm.
Qed.
End SortingFacts.

Lemma last_error_In {A : Type} (l : list A) (x : A) :
  last_error l = Some x -> In x l.
Proof.
  induction l as [| y r IH]; simpl; [discriminate |].
  destruct r as [| z r']; intro E.
  - left. congruence.
  - right. apply IH. exact E.
Qed.

Lemma last_error_cons {A : Type} (x : A) (l : list A) :
  last_error (x :: l) = match last_error l with Some y => Some y | None => Some x end.
Proof.
  destruct l as [| y r]; [reflexivity |].
  change (last_error (x :: y :: r)) with (last_error (y :: r)).
  destruct (last_error (y :: r)) eqn:E; [reflexivity |].
  exfalso. clear x. revert y E. induction r as [| z r IH]; intros y E.
  - discriminate.
  - apply (IH z). exact E.
Qed.

(** ** The curve is a step function *)

Lemma value_loop_step (pts : list CurvePoint) (temp chosen : Q) :
  StronglySorted (key_le temperature) pts ->
  FanCurve.value_loop pts temp chosen =
  match last_error (filter (at_or_below temp) pts) with
  | Some p => speed p
  | None => chosen
  end.
Proof.
  intro S. revert chosen.
  induction S as [| p rest Hrest IH Hall]; intro chosen; simpl; [reflexivity |].
  unfold at_or_below at 1. destruct (Qle_bool (temperature p) temp) eqn:E.
  - rewrite IH, last_error_cons.
    destruct (last_error (filter (at_or_below temp) rest)); reflexivity.
  - apply Qle_bool_false in E.
    replace (filter (at_or_below temp) rest) with (@nil CurvePoint); [reflexivity |].
    symmetry. clear IH Hrest. induction Hall as [| q r Hq Hr IHr]; simpl; [reflexivity |].
    unfold at_or_below at 1. unfold key_le in Hq.
    destruct (Qle_bool (temperature q) temp) eqn:F; [| exact IHr].
    apply Qle_bool_iff in F. lra.
Qed.

Lemma last_error_none {A : Type} (l : list A) : last_error l = None -> l = [].
Proof.
  destruct l as [| x r]; [reflexivity |].
  rewrite last_error_cons. destruct (last_error r); discriminate.
Qed.

Lemma StronglySorted_last (pts : list CurvePoint) (hi p : CurvePoint) :
  StronglySorted (key_le temperature) pts ->
  last_error pts = Some hi -> In p pts -> temperature p <= temperature hi.
Proof.
  induction 1 as [| q rest Hrest IH Hall]; simpl; [discriminate |].
  rewrite Forall_forall in Hall. unfold key_le in Hall.
  destruct rest as [| r rest'].
  - intros [= <-] [-> | []]. lra.
  - intros E [-> | I].
    + exact (Hall hi (last_error_In _ _ E)).
    + apply IH; assumption.
Qed.

(** C1.  A curve built from a non-empty list holds the points sorted by
    temperature; [value] returns the speed of the last of them that is
    at or below the sample, and the speed of the first one when none is;
    below the lowest point that is the lowest point's speed, at or above
    the highest point it is the highest point's speed. *)
Theorem value_is_step_function (pts : list CurvePoint) (temp : Q) :
  pts <> [] ->
  exists c lo hi,
    FanCurve.init pts = Ok c /\
    Permutation pts (FanCurve._points c) /\
    hd_error (FanCurve._points c) = Some lo /\
    last_error (FanCurve._points c) = Some hi /\
    (forall p, In p pts -> temperature lo <= temperature p <= temperature hi) /\
    FanCurve.value c temp =
      Ok (match last_error (filter (at_or_below temp) (FanCurve._points c)) with
          | Some p => speed p
          | None => speed lo
          end) /\
    (temp < temperature lo -> FanCurve.value c temp = Ok (speed lo)) /\
    (temperature hi <= temp -> FanCurve.value c temp = Ok (speed hi)).
Proof.
  intro Hne.
  pose proof (sorted_StronglySorted temperature pts) as SS.
  pose proof (sorted_perm temperature pts) as P.
  pose proof (sorted_nonempty temperature pts Hne) as Hs.
  destruct (sorted temperature pts) as [| lo rest] eqn:Es; [congruence |].
  destruct (last_error (lo :: rest)) as [hi |] eqn:El;
    [| apply last_error_none in El; discriminate].
  exists (FanCurve.mk (lo :: rest)), lo, hi.
  assert (Hinit : FanCurve.init pts = Ok (FanCurve.mk (lo :: rest))).
  { unfold FanCurve.init. rewrite Es. destruct pts; [congruence | reflexivity]. }
  assert (Hval : FanCurve.value (FanCurve.mk (lo :: rest)) temp =
                 Ok (match last_error (filter (at_or_below temp) (lo :: rest)) with
                     | Some p => speed p
                     | None => speed lo
                     end)).
  { unfold FanCurve.value. cbn [FanCurve._points].
    rewrite (value_loop_step _ _ _ SS). reflexivity. }
  assert (Hbounds : forall p, In p (lo :: rest) ->
                              temperature lo <= temperature p <= temperature hi).
  { intros p I. split.
    - inversion SS as [| ? ? _ Hall]; subst. rewrite Forall_forall in Hall.
      destruct I as [-> | I]; [lra | apply Hall; exact I].
    - apply (StronglySorted_last _ _ _ SS El I). }
  repeat split; cbn [FanCurve._points]; try assumption; try reflexivity.
  - apply Hbounds. apply (Permutation_in _ P). assumption.
  - apply Hbounds. apply (Permutation_in _ P). assumption.
  - intro Hlt. unfold FanCurve.value. cbn [FanCurve._points FanCurve.value_loop].
    destruct (Qle_bool (temperature lo) temp) eqn:E; [| reflexivity].
    apply Qle_bool_iff in E. lra.
  - intro Hge. rewrite Hval.
    replace (filter (at_or_below temp) (lo :: rest)) with (lo :: rest);
      [rewrite El; reflexivity |].
    symmetry. apply forallb_filter_id. apply forallb_forall. intros p I.
    apply Qle_bool_iff. specialize (Hbounds p I). lra.
Qed.

Lemma value_is_step_function_witness :
  exists c,
    FanCurve.init [mkCurvePoint 50 45; mkCurvePoint 30 25; mkCurvePoint 70 75] = Ok c /\
    FanCurve.value c 45 = Ok 25.
Proof.
  destruct (value_is_step_function
              [mkCurvePoint 50 45; mkCurvePoint 30 25; mkCurvePoint 70 75] 45)
    as (c & lo & hi & Hinit & _ & _ & _ & _ & Hval & _); [discriminate |].
  exists c. split; [exact Hinit |].
  rewrite Hval. injection Hinit as <-. reflexivity.
Defined.

(** ** Monotonicity needs rising speeds *)

Lemma value_loop_choice (pts : list CurvePoint) (temp chosen : Q) :
  FanCurve.value_loop pts temp chosen = chosen \/
  exists p, In p pts /\ FanCurve.value_loop pts temp chosen = speed p.
Proof.
  revert chosen. induction pts as [| p rest IH]; intro chosen; simpl; [left; reflexivity |].
  destruct (Qle_bool (temperature p) temp); [| left; reflexivity].
  right. destruct (IH (speed p)) as [E | (q & I & E)].
  - exists p. auto.
  - exists q. auto.
Qed.

Lemma value_loop_monotone (pts : list CurvePoint) (t1 t2 chosen : Q) :
  t1 <= t2 ->
  StronglySorted (key_le speed) pts ->
  Forall (fun p => chosen <= speed p) pts ->
  FanCurve.value_loop pts t1 chosen <= FanCurve.value_loop pts t2 chosen.
Proof.
  intros Ht S. revert chosen.
  induction S as [| p rest Hrest IH Hall]; intros chosen Hc; simpl; [lra |].
  inversion Hc as [| ? ? Hp Hc']; subst.
  destruct (Qle_bool (temperature p) t1) eqn:E1.
  - apply Qle_bool_iff in E1.
    assert (E2 : Qle_bool (temperature p) t2 = true) by (apply Qle_bool_iff; lra).
    rewrite E2. apply IH. exact Hall.
  - destruct (Qle_bool (temperature p) t2); [| lra].
    destruct (value_loop_choice rest t2 (speed p)) as [-> | (q & I & ->)]; [exact Hp |].
    rewrite Forall_forall in Hall. specialize (Hall q I). unfold key_le in Hall. lra.
Qed.

(** C7, as the code has it.  When the speeds do not fall along the
    points taken in temperature order, [value] does not fall as the
    temperature rises. *)
Theorem value_monotone_when_speeds_rise
    (pts : list CurvePoint) (c : FanCurve.t) (t1 t2 : Q) :
  FanCurve.init pts = Ok c ->
  Sorted (key_le speed) (FanCurve._points c) ->
  t1 <= t2 ->
  exists v1 v2,
    FanCurve.value c t1 = Ok v1 /\ FanCurve.value c t2 = Ok v2 /\ v1 <= v2.
Proof.
  intros Hinit Hs Ht.
  assert (Hne : FanCurve._points c <> []).
  { unfold FanCurve.init in Hinit. destruct pts as [| p r]; [discriminate |].
    injection Hinit as <-. cbn [FanCurve._points].
    apply (sorted_nonempty temperature (p :: r)). discriminate. }
  unfold FanCurve.value.
  destruct (FanCurve._points c) as [| p0 rest] eqn:E; [congruence |].
  do 2 eexists. repeat split.
  apply Sorted_StronglySorted in Hs; [| apply key_le_trans].
  apply value_loop_monotone; [exact Ht | exact Hs |].
  inversion Hs as [| ? ? _ Hall]; subst. constructor; [lra |].
  exact Hall.
Qed.

Lemma value_monotone_when_speeds_rise_witness :
  exists v1 v2,
    FanCurve.value (FanCurve.mk [mkCurvePoint 30 25; mkCurvePoint 50 45]) 40 = Ok v1 /\
    FanCurve.value (FanCurve.mk [mkCurvePoint 30 25; mkCurvePoint 50 45]) 60 = Ok v2 /\
    v1 <= v2.
Proof.
  apply (value_monotone_when_speeds_rise [mkCurvePoint 50 45; mkCurvePoint 30 25]).
  - reflexivity.
  - repeat constructor; unfold key_le; simpl; lra.
  - lra.
Defined.

(** C7 as stated fails: a valid curve may lower the speed at a higher
    temperature, and [value] follows it. *)
Lemma value_not_monotone :
  ~ (forall (pts : list CurvePoint) (c : FanCurve.t) (t1 t2 v1 v2 : Q),
        FanCurve.init pts = Ok c -> t1 <= t2 ->
        FanCurve.value c t1 = Ok v1 -> FanCurve.value c t2 = Ok v2 -> v1 <= v2).
Proof.
  intro Hmono.
  specialize (Hmono [mkCurvePoint 30 80; mkCurvePoint 50 20] _ 30 50 80 20
                    eq_refl).
  assert (F : 80 <= 20); [| lra].
  apply Hmono; [lra | reflexivity | reflexivity].
Qed.

(** ** Rounding *)

Lemma py_round_bounds (lo hi : Z) (x : Q) :
  inject_Z lo <= x <= inject_Z hi -> (lo <= py_round x <= hi)%Z.
Proof.
  intros [Hlo Hhi]. unfold py_round.
  pose proof (Qfloor_le x) as Hf. pose proof (Qlt_floor x) as Hc.
  rewrite inject_Z_plus in Hc. change (inject_Z 1) with 1 in Hc.
  assert (Flo : (lo <= Qfloor x)%Z).
  { rewrite <- (Qfloor_Z lo). apply Qfloor_resp_le. exact Hlo. }
  assert (Fhi : (Qfloor x <= hi)%Z).
  { rewrite <- (Qfloor_Z hi). apply Qfloor_resp_le. exact Hhi. }
  destruct (Qlt_bool (x - inject_Z (Qfloor x)) (1 # 2)) eqn:E; [lia |].
  apply Qlt_bool_false in E.
  assert (Fhi' : (Qfloor x < hi)%Z) by (rewrite Zlt_Qlt; lra).
  destruct (Qlt_bool (1 # 2) (x - inject_Z (Qfloor x)));
    [| destruct (Z.even (Qfloor x))]; lia.
Qed.

(** ** Rounding to a double *)

Lemma pow2_pos (k : Z) : 0 < pow2 k.
Proof. apply Qpower_0_lt. reflexivity. Qed.

Lemma pow2_add (a b : Z) : pow2 (a + b) == pow2 a * pow2 b.
Proof. apply Qpower_plus. intro F. discriminate F. Qed.

Lemma pow2_le (a b : Z) : (a <= b)%Z -> pow2 a <= pow2 b.
Proof. intro L. apply Qpower_le_compat_l; [exact L | discriminate]. Qed.

Lemma pow2_lt_inv (a b : Z) : pow2 a < pow2 b -> (a < b)%Z.
Proof.
  intro L. destruct (Z_lt_le_dec a b) as [H | H]; [exact H |].
  apply pow2_le in H. lra.
Qed.

Lemma pow2_cancel (k : Z) : pow2 k * pow2 (- k) == 1.
Proof. rewrite <- pow2_add. replace (k + - k)%Z with 0%Z by lia. reflexivity. Qed.

Lemma pow2_nonneg_Z (n : Z) : (0 <= n)%Z -> pow2 n == inject_Z (2 ^ n).
Proof. intro Hn. unfold pow2. rewrite (Zpower_Qpower 2 n Hn). reflexivity. Qed.

Lemma pow2_succ (k : Z) : pow2 (k + 1) == 2 * pow2 k.
Proof. rewrite pow2_add. change (pow2 1) with 2. ring. Qed.

Lemma log2_pow2 (n : positive) :
  pow2 (Z.log2 (Zpos n)) <= inject_Z (Zpos n) /\
  inject_Z (Zpos n) < pow2 (Z.log2 (Zpos n) + 1).
Proof.
  pose proof (Z.log2_spec (Zpos n) (Pos2Z.is_pos n)) as [L U].
  pose proof (Z.log2_nonneg (Zpos n)) as Hn.
  rewrite !pow2_nonneg_Z by lia. split.
  - rewrite <- Zle_Qle. exact L.
  - rewrite <- Zlt_Qlt. replace (Z.log2 (Zpos n) + 1)%Z with (Z.succ (Z.log2 (Zpos n))) by lia.
    exact U.
Qed.

Lemma binade_spec (n d : positive) :
  pow2 (binade n d) <= (Zpos n # d) /\ (Zpos n # d) < pow2 (binade n d + 1).
Proof.
  unfold binade. cbv zeta.
  destruct (log2_pow2 n) as [Ln Un]. destruct (log2_pow2 d) as [Ld Ud].
  set (a := Z.log2 (Zpos n)) in *. set (b := Z.log2 (Zpos d)) in *.
  assert (HX : (Zpos n # d) * inject_Z (Zpos d) == inject_Z (Zpos n)).
  { unfold Qeq, Qmult, inject_Z. simpl. lia. }
  assert (HE : pow2 (a - b) * pow2 b == pow2 a).
  { rewrite <- pow2_add. replace (a - b + b)%Z with a by lia. reflexivity. }
  pose proof (pow2_pos (a - b)) as PE. pose proof (pow2_pos b) as PB.
  pose proof (pow2_pos a) as PA.
  rewrite pow2_succ in Un, Ud.
  assert (PD : 0 < inject_Z (Zpos d)) by (unfold Qlt; simpl; lia).
  set (X := Zpos n # d) in *. set (D := inject_Z (Zpos d)) in *.
  set (N := inject_Z (Zpos n)) in *.
  destruct (Qle_bool (pow2 (a - b)) X) eqn:E.
  - apply Qle_bool_iff in E. split; [exact E |].
    rewrite pow2_succ.
    destruct (Qlt_le_dec X (2 * pow2 (a - b))) as [H | H]; [exact H | exfalso].
    assert (C : 2 * pow2 (a - b) * pow2 b <= X * D).
    { apply Qle_trans with (2 * pow2 (a - b) * D).
      - apply Qmult_le_l; [nra | exact Ld].
      - apply Qmult_le_r; [exact PD | exact H]. }
    nra.
  - assert (E' : X < pow2 (a - b)).
    { destruct (Qlt_le_dec X (pow2 (a - b))) as [H | H]; [exact H |].
      apply Qle_bool_iff in H. congruence. }
    replace (a - b - 1 + 1)%Z with (a - b)%Z by lia. split; [| exact E'].
    assert (HE2 : pow2 (a - b - 1) * 2 == pow2 (a - b)).
    { replace (a - b)%Z with (a - b - 1 + 1)%Z at 2 by lia. rewrite pow2_succ. ring. }
    pose proof (pow2_pos (a - b - 1)) as PE1.
    destruct (Qlt_le_dec X (pow2 (a - b - 1))) as [H | H]; [exfalso | exact H].
    assert (C : X * D < pow2 (a - b - 1) * (2 * pow2 b)).
    { apply Qle_lt_trans with (pow2 (a - b - 1) * D).
      - apply Qmult_le_r; [exact PD | lra].
      - apply Qmult_lt_l; [exact PE1 | exact Ud]. }
    nra.
Qed.

Lemma scaled_back (m : Z) (k : Z) (t : Q) :
  inject_Z m * pow2 k == t -> inject_Z m == t * pow2 (- k).
Proof.
  intro E. rewrite <- E. rewrite <- Qmult_assoc, pow2_cancel. ring.
Qed.

Lemma py_round_ge (z : Z) (y : Q) : inject_Z z <= y -> (z <= py_round y)%Z.
Proof.
  intro L. apply (py_round_bounds z (Qceiling y) y). split; [exact L | apply Qle_ceiling].
Qed.

Lemma py_round_le (z : Z) (y : Q) : y <= inject_Z z -> (py_round y <= z)%Z.
Proof.
  intro L. apply (py_round_bounds (Qfloor y) z y). split; [apply Qfloor_le | exact L].
Qed.

(** The form of a positive double. *)
Lemma is_double_form (t : Q) :
  0 < t -> is_double t ->
  exists n m,
    Qnum t = Zpos n /\
    inject_Z m * pow2 (Z.max (binade n (Qden t) - 52) (-1074)) == t.
Proof.
  intros Ht Hd. unfold is_double, round_double in Hd.
  destruct t as [tn td]. cbn [Qnum Qden] in *.
  destruct tn as [| n | n].
  - exfalso. unfold Qlt in Ht. simpl in Ht. lia.
  - exists n. eexists. split; [reflexivity | exact Hd].
  - exfalso. unfold Qlt in Ht. simpl in Ht. lia.
Qed.

(** Rounding does not take a number below a double that it is not
    below. *)
Lemma round_double_ge (t x : Q) :
  0 < t -> is_double t -> t <= x -> t <= round_double x.
Proof.
  intros Ht Hd Htx.
  destruct (is_double_form t Ht Hd) as (nt & mt & Hnt & Hmt).
  destruct t as [tn td]. cbn [Qnum Qden] in *. subst tn.
  assert (Hx : 0 < x) by lra.
  destruct x as [xn xd]. unfold round_double. cbn [Qnum Qden].
  destruct xn as [| nx | nx]; try (exfalso; unfold Qlt in Hx; simpl in Hx; lia).
  cbv zeta.
  destruct (binade_spec nt td) as [Lt Ut]. destruct (binade_spec nx xd) as [Lx Ux].
  set (t := Zpos nt # td) in *. set (x := Zpos nx # xd) in *.
  set (et := binade nt td) in *. set (ex := binade nx xd) in *.
  assert (Hexp : (et <= ex)%Z).
  { assert (L : pow2 et < pow2 (ex + 1)) by lra. apply pow2_lt_inv in L. lia. }
  set (kt := Z.max (et - 52) (-1074)) in *. set (kx := Z.max (ex - 52) (-1074)).
  pose proof (pow2_pos kx) as Pkx. pose proof (pow2_pos (- kx)) as Pnkx.
  destruct (Z.eq_dec kt kx) as [Ek | Nk].
  - apply scaled_back in Hmt. rewrite Ek in Hmt.
    assert (Hm : (mt <= py_round (x * pow2 (- kx)))%Z).
    { apply py_round_ge. rewrite Hmt. apply Qmult_le_r; [exact Pnkx | exact Htx]. }
    assert (Ht' : t == inject_Z mt * pow2 kx).
    { rewrite Hmt. rewrite <- Qmult_assoc, (Qmult_comm (pow2 (- kx))), pow2_cancel. ring. }
    rewrite Ht'. apply Qmult_le_r; [exact Pkx |]. rewrite <- Zle_Qle. exact Hm.
  - assert (Hkx : kx = (ex - 52)%Z /\ (et + 1 <= ex)%Z) by (subst kt kx; lia).
    destruct Hkx as [Hkx Hlt].
    assert (H52 : pow2 ex * pow2 (- kx) == inject_Z (2 ^ 52)).
    { rewrite <- pow2_add, Hkx. replace (ex + - (ex - 52))%Z with 52%Z by lia.
      reflexivity. }
    assert (Hm : (2 ^ 52 <= py_round (x * pow2 (- kx)))%Z).
    { apply py_round_ge. rewrite <- H52. apply Qmult_le_r; [exact Pnkx | exact Lx]. }
    assert (Hex : pow2 ex == inject_Z (2 ^ 52) * pow2 kx).
    { rewrite <- H52. rewrite <- Qmult_assoc, (Qmult_comm (pow2 (- kx))), pow2_cancel.
      ring. }
    apply Qle_trans with (pow2 ex).
    + apply Qlt_le_weak. apply Qlt_le_trans with (pow2 (et + 1)); [exact Ut |].
      apply pow2_le. exact Hlt.
    + rewrite Hex. apply Qmult_le_r; [exact Pkx |]. rewrite <- Zle_Qle. exact Hm.
Qed.

(** The same on the negative side. *)
Lemma round_double_le_opp (t x : Q) :
  0 < t -> is_double t -> x <= - t -> round_double x <= - t.
Proof.
  intros Ht Hd Htx.
  destruct (is_double_form t Ht Hd) as (nt & mt & Hnt & Hmt).
  destruct t as [tn td]. cbn [Qnum Qden] in *. subst tn.
  assert (Hx : x < 0) by lra.
  destruct x as [xn xd]. unfold round_double. cbn [Qnum Qden].
  destruct xn as [| nx | nx]; try (exfalso; unfold Qlt in Hx; simpl in Hx; lia).
  cbv zeta.
  destruct (binade_spec nt td) as [Lt Ut]. destruct (binade_spec nx xd) as [Lx Ux].
  assert (Hneg : Zneg nx # xd == - (Zpos nx # xd)) by reflexivity.
  set (t := Zpos nt # td) in *. set (x := Zneg nx # xd) in *.
  set (ax := Zpos nx # xd) in *.
  set (et := binade nt td) in *. set (ex := binade nx xd) in *.
  assert (Hexp : (et <= ex)%Z).
  { assert (L : pow2 et < pow2 (ex + 1)) by lra. apply pow2_lt_inv in L. lia. }
  set (kt := Z.max (et - 52) (-1074)) in *. set (kx := Z.max (ex - 52) (-1074)).
  pose proof (pow2_pos kx) as Pkx. pose proof (pow2_pos (- kx)) as Pnkx.
  destruct (Z.eq_dec kt kx) as [Ek | Nk].
  - apply scaled_back in Hmt. rewrite Ek in Hmt.
    assert (Hm : (py_round (x * pow2 (- kx)) <= - mt)%Z).
    { apply py_round_le. rewrite inject_Z_opp, Hmt.
      setoid_replace (- (t * pow2 (- kx))) with ((- t) * pow2 (- kx)) by ring.
      apply Qmult_le_r; [exact Pnkx | exact Htx]. }
    assert (Ht' : - t == inject_Z (- mt) * pow2 kx).
    { rewrite inject_Z_opp, Hmt.
      setoid_replace (- (t * pow2 (- kx)) * pow2 kx)
        with (- t * (pow2 kx * pow2 (- kx))) by ring.
      rewrite pow2_cancel. ring. }
    rewrite Ht'. apply Qmult_le_r; [exact Pkx |]. rewrite <- Zle_Qle. exact Hm.
  - assert (Hkx : kx = (ex - 52)%Z /\ (et + 1 <= ex)%Z) by (subst kt kx; lia).
    destruct Hkx as [Hkx Hlt].
    assert (H52 : pow2 ex * pow2 (- kx) == inject_Z (2 ^ 52)).
    { rewrite <- pow2_add, Hkx. replace (ex + - (ex - 52))%Z with 52%Z by lia.
      reflexivity. }
    assert (Hm : (py_round (x * pow2 (- kx)) <= - 2 ^ 52)%Z).
    { apply py_round_le. rewrite inject_Z_opp, <- H52.
      setoid_replace (- (pow2 ex * pow2 (- kx))) with ((- pow2 ex) * pow2 (- kx)) by ring.
      apply Qmult_le_r; [exact Pnkx | lra]. }
    assert (Hex : - pow2 ex == inject_Z (- 2 ^ 52) * pow2 kx).
    { rewrite inject_Z_opp, <- H52.
      setoid_replace (- (pow2 ex * pow2 (- kx)) * pow2 kx)
        with (- pow2 ex * (pow2 kx * pow2 (- kx))) by ring.
      rewrite pow2_cancel. ring. }
    apply Qle_trans with (- pow2 ex).
    + rewrite Hex. apply Qmult_le_r; [exact Pkx |]. rewrite <- Zle_Qle. exact Hm.
    + assert (L : pow2 (et + 1) <= pow2 ex) by (apply pow2_le; exact Hlt). lra.
Qed.

(** Rounding a difference does not take it below a double threshold
    that it has reached. *)
Lemma round_double_keeps_threshold (t x : Q) :
  0 < t -> is_double t -> t <= Qabs x -> t <= Qabs (round_double x).
Proof.
  intros Ht Hd Hx.
  destruct (Qlt_le_dec x 0) as [Neg | Pos].
  - rewrite Qabs_neg in Hx by lra.
    assert (L : round_double x <= - t) by (apply round_double_le_opp; [| | lra]; assumption).
    rewrite Qabs_neg by lra. lra.
  - rewrite Qabs_pos in Hx by exact Pos.
    assert (L : t <= round_double x) by (apply round_double_ge; assumption).
    rewrite Qabs_pos by lra. exact L.
Qed.

(** ** The hysteresis gate *)

Lemma py_max_Qmax (a b : Q) : py_max a b == Qmax a b.
Proof.
  destruct (py_max_spec a b) as [[L ->] | [L ->]];
    destruct (Q.max_spec a b) as [[L' ->] | [L' ->]]; lra.
Qed.

Lemma should_apply_exact (profile : ManagedProfile.t) (target_speed last : Q) :
  ManagedProfile.last_speed profile = Some last ->
  is_double (target_speed - last) ->
  should_apply_float profile target_speed =
  FanManager.should_apply profile target_speed.
Proof.
  intros Hl Hd. unfold should_apply_float, FanManager.should_apply, float_sub.
  rewrite Hl. cbv zeta. unfold is_double in Hd.
  destruct (Qle_bool _ (Qabs (target_speed - last))) eqn:E.
  - apply Qle_bool_iff. apply Qle_bool_iff in E. rewrite Hd. exact E.
  - destruct (Qle_bool _ (Qabs (round_double _))) eqn:F; [| reflexivity].
    apply Qle_bool_iff in F. rewrite Hd in F. apply Qle_bool_iff in F. congruence.
Qed.

(** The gate is open when the target is at least the threshold away
    from the last speed: rounding the difference can only widen it. *)
Lemma should_apply_float_if (profile : ManagedProfile.t) (target_speed last : Q) :
  ManagedProfile.last_speed profile = Some last ->
  is_double (ManagedProfile.hysteresis profile) ->
  Qmax 0.5 (ManagedProfile.hysteresis profile) <= Qabs (target_speed - last) ->
  should_apply_float profile target_speed = true.
Proof.
  intros Hl Hh Hfar. unfold should_apply_float, float_sub. rewrite Hl. cbv zeta.
  apply Qle_bool_iff. rewrite <- py_max_Qmax in Hfar.
  apply round_double_keeps_threshold; [| | exact Hfar];
    destruct (py_max_spec 0.5 (ManagedProfile.hysteresis profile)) as [[L ->] | [L ->]];
    try lra; try exact Hh.
  vm_compute. reflexivity.
Qed.

(** C2, as the code has it.  Without a last speed the gate is open.
    With one, it is open exactly when the difference between the target
    and the last speed, as the float subtraction returns it, is at
    least [max(0.5, hysteresis)] in absolute value.  That difference is
    the exact one rounded to the nearest double: with a hysteresis that
    is a double, the gate is open whenever the target is at least
    [max(0.5, hysteresis)] away from the last speed, and, whenever the
    exact difference is a double, only then.  From 50 with hysteresis 2
    it is shut for 51.4 and open for 52. *)
Theorem should_apply_float_spec (profile : ManagedProfile.t) (target_speed : Q) :
  match ManagedProfile.last_speed profile with
  | None => should_apply_float profile target_speed = true
  | Some last =>
      (should_apply_float profile target_speed = true <->
       Qmax 0.5 (ManagedProfile.hysteresis profile)
       <= Qabs (round_double (target_speed - last))) /\
      (is_double (ManagedProfile.hysteresis profile) ->
       Qmax 0.5 (ManagedProfile.hysteresis profile) <= Qabs (target_speed - last) ->
       should_apply_float profile target_speed = true) /\
      (is_double (target_speed - last) ->
       should_apply_float profile target_speed =
       FanManager.should_apply profile target_speed /\
       (should_apply_float profile target_speed = true <->
        Qmax 0.5 (ManagedProfile.hysteresis profile) <= Qabs (target_speed - last)))
  end /\
  (forall gpu fan c ctl lt,
      let p := ManagedProfile.mk gpu fan c 2 ctl (Some 50) lt in
      should_apply_float p (round_double 51.4) = false /\
      should_apply_float p 52.0 = true).
Proof.
  split; [| intros; split; vm_compute; reflexivity].
  destruct (ManagedProfile.last_speed profile) as [last |] eqn:Hl.
  - assert (Hiff : should_apply_float profile target_speed = true <->
                   Qmax 0.5 (ManagedProfile.hysteresis profile)
                   <= Qabs (round_double (target_speed - last))).
    { unfold should_apply_float, float_sub. rewrite Hl. cbv zeta.
      rewrite Qle_bool_iff, py_max_Qmax. reflexivity. }
    split; [exact Hiff |].
    split; [intros Hh Hfar; apply (should_apply_float_if profile _ last); assumption |].
    intro Hd. split; [apply (should_apply_exact profile _ last); assumption |].
    rewrite Hiff. unfold is_double in Hd. rewrite Hd. reflexivity.
  - unfold should_apply_float. rewrite Hl. reflexivity.
Qed.

Lemma should_apply_float_spec_witness :
  let p := ManagedProfile.mk 0 0 (FanCurve.mk scenario_points) 2
                             (NvmlController.mk 0 0 0%nat) (Some 50) (Some 45) in
  should_apply_float p 52 = true <-> Qmax 0.5 2 <= Qabs (52 - 50).
Proof.
  intro p.
  destruct (should_apply_float_spec p 52) as [(_ & _ & Hexact) _].
  apply Hexact. vm_compute. reflexivity.
Defined.

(** C2 as stated fails: a difference below the threshold passes the
    gate when the subtraction rounds it up to the threshold.  With the
    doubles written 9.9, 10.0 and 0.1 for the hysteresis, the last
    speed and the target, the exact difference is below the threshold
    and the gate is open. *)
Lemma should_apply_admits_a_rounded_difference :
  ~ (forall (profile : ManagedProfile.t) (target_speed last : Q),
        ManagedProfile.last_speed profile = Some last ->
        (should_apply_float profile target_speed = true <->
         Qmax 0.5 (ManagedProfile.hysteresis profile) <= Qabs (target_speed - last))).
Proof.
  intro Hclaim.
  pose (p := ManagedProfile.mk 0 0 (FanCurve.mk scenario_points) (round_double 9.9)
                               (NvmlController.mk 0 0 0%nat) (Some 10.0) (Some 45)).
  destruct (Hclaim p (round_double 0.1) 10.0 eq_refl) as [Honly _].
  assert (Hopen : should_apply_float p (round_double 0.1) = true)
    by (vm_compute; reflexivity).
  specialize (Honly Hopen). apply Qle_bool_iff in Honly.
  vm_compute in Honly. discriminate Honly.
Qed.

(** ** Applying a speed *)

(** C3.  [apply_speed] sends the driver exactly one command, whose
    value is the target clamped to [[10, 100]] (the target itself when
    it is in range); the integer that goes out is in the same range;
    when the driver accepts it, the profile's [last_speed] is that
    value and its [last_temp] the temperature, with the rest of the
    profile as it was; when the driver refuses, the call raises
    [NvmlError] and the whole profile stays as it was. *)
Theorem apply_speed_clamps `{Environment}
    (profile : ManagedProfile.t) (target_speed temp : Q) (w : World) :
  exists v r p',
    10 <= v <= 100 /\
    (target_speed < 10 -> v == 10) /\
    (100 < target_speed -> v == 100) /\
    (10 <= target_speed <= 100 -> v == target_speed) /\
    (10 <= c_uint (py_round v) <= 100)%Z /\
    FanManager.apply_speed target_speed temp (profile, w) =
      (r, (p', EvSetFanSpeed (NvmlController.device (ManagedProfile.controller profile))
                             v (c_uint (py_round v)) :: w)) /\
    match r with
    | Ok _ =>
        ManagedProfile.last_speed p' = Some v /\
        ManagedProfile.last_temp p' = Some temp /\
        ManagedProfile.gpu_index p' = ManagedProfile.gpu_index profile /\
        ManagedProfile.fan_index p' = ManagedProfile.fan_index profile /\
        ManagedProfile.curve p' = ManagedProfile.curve profile /\
        ManagedProfile.hysteresis p' = ManagedProfile.hysteresis profile /\
        ManagedProfile.controller p' = ManagedProfile.controller profile
    | Raise e => e = NvmlError /\ p' = profile
    end.
Proof.
  set (v := py_max 10.0 (py_min 100.0 target_speed)).
  assert (Hv : 10 <= v <= 100).
  { destruct (clamp_bounds 10.0 100.0 target_speed) as [B _]; [lra |].
    fold v in B. lra. }
  assert (Hr : (10 <= c_uint (py_round v) <= 100)%Z).
  { pose proof (py_round_bounds 10 100 v Hv).
    unfold c_uint. rewrite Z.mod_small; lia. }
  assert (Hcases : (target_speed < 10 -> v == 10) /\
                   (100 < target_speed -> v == 100) /\
                   (10 <= target_speed <= 100 -> v == target_speed)).
  { subst v.
    destruct (py_min_spec 100.0 target_speed) as [[A E1] | [A E1]]; rewrite E1;
      match goal with |- context [py_max ?a ?b] =>
        destruct (py_max_spec a b) as [[B E2] | [B E2]]; rewrite E2 end;
      repeat split; intros; lra. }
  destruct Hcases as (H1 & H2 & H3).
  exists v.
  unfold FanManager.apply_speed, sbind, get_obj, in_world, modify_obj,
    NvmlController.set_fan_speed. cbn [fst snd]. fold v.
  destruct (nvml_set_fan_speed w _ _).
  - exists (Ok tt), (ManagedProfile.set_last v temp profile).
    repeat split; auto; try lra; lia.
  - exists (Raise NvmlError), profile.
    repeat split; auto; try lra; lia.
Qed.

Lemma apply_speed_clamps_witness :
  exists v p',
    10 <= v <= 100 /\ (3 < 10 -> v == 10) /\
    @FanManager.apply_speed obliging 3 41
      (ManagedProfile.mk 0 0 (FanCurve.mk [mkCurvePoint 30 3]) 2
                         (NvmlController.mk 0 0 0%nat) None None, []) =
    (Ok tt, (p', [EvSetFanSpeed 0 v (c_uint (py_round v))])) /\
    ManagedProfile.last_speed p' = Some v /\
    ManagedProfile.last_temp p' = Some 41.
Proof.
  destruct (@apply_speed_clamps obliging
              (ManagedProfile.mk 0 0 (FanCurve.mk [mkCurvePoint 30 3]) 2
                                 (NvmlController.mk 0 0 0%nat) None None)
              3 41 []) as (v & r & p' & Hb & Hlow & _ & _ & _ & E & Hr).
  assert (Er : r = Ok tt).
  { change (@FanManager.apply_speed obliging 3 41
              (ManagedProfile.mk 0 0 (FanCurve.mk [mkCurvePoint 30 3]) 2
                                 (NvmlController.mk 0 0 0%nat) None None, []))
      with (@Ok unit tt,
            (ManagedProfile.mk 0 0 (FanCurve.mk [mkCurvePoint 30 3]) 2
                               (NvmlController.mk 0 0 0%nat) (Some 10.0) (Some 41),
             [EvSetFanSpeed 0 10.0 10])) in E.
    injection E as <- _ _. reflexivity. }
  subst r. destruct Hr as (Hs & Ht & _).
  exists v, p'. repeat split; try assumption; apply Hb.
Defined.

(** ** The gate looks at the unclamped target *)

Lemma clamp_below_floor (t : Q) : t < 10 -> py_max 10.0 (py_min 100.0 t) = 10.0.
Proof.
  intro Ht. unfold py_min.
  assert (E : Qlt_bool t 100.0 = true) by (apply Qlt_bool_true; lra).
  rewrite E. unfold py_max.
  assert (F : Qlt_bool 10.0 t = false) by (apply Qlt_bool_false; lra).
  rewrite F. reflexivity.
Qed.

Lemma should_apply_at_floor (p : ManagedProfile.t) (t : Q) :
  t < 10 ->
  Qmax 0.5 (ManagedProfile.hysteresis p) <= 10 - t ->
  ManagedProfile.last_speed p = Some 10.0 ->
  FanManager.should_apply p t = true.
Proof.
  intros Ht Hh Hl. unfold FanManager.should_apply. rewrite Hl.
  apply Qle_bool_iff. rewrite py_max_Qmax.
  rewrite Qabs_neg by lra. lra.
Qed.

Lemma cycle_at_floor `{Environment} (p q : ManagedProfile.t) (t temp : Q) (w : World) :
  t < 10 ->
  Qmax 0.5 (ManagedProfile.hysteresis p) <= 10 - t ->
  FanCurve.value (ManagedProfile.curve p) temp = Ok t ->
  at_floor p q ->
  exists q',
    s_try_except (FanManager.regulate temp) (exn_eqb NvmlError) (sret tt) (q, w) =
      (Ok tt, (q', EvSetFanSpeed (NvmlController.device (ManagedProfile.controller p))
                                 10.0 10 :: w)) /\
    at_floor p q'.
Proof.
  intros Ht Hh Hv (Hl & Hc & Hy & Hk).
  assert (Hgate : FanManager.should_apply q t = true).
  { apply should_apply_at_floor; [exact Ht | rewrite Hy; exact Hh | exact Hl]. }
  unfold s_try_except, FanManager.regulate, sbind, get_obj, lift_result.
  cbn [fst snd]. rewrite Hc, Hv, Hgate.
  unfold FanManager.apply_speed, sbind, get_obj, in_world, modify_obj,
    NvmlController.set_fan_speed. cbn [fst snd].
  rewrite (clamp_below_floor t Ht), Hk.
  change (c_uint (py_round 10.0)) with 10%Z.
  destruct (nvml_set_fan_speed w _ 10).
  - eexists. split; [reflexivity |]. repeat split; assumption.
  - cbn [exn_eqb]. unfold sret. eexists. split; [reflexivity |].
    repeat split; assumption.
Qed.

(** C10.  With a curve target [t] below 10, the first apply leaves
    [last_speed] at 10; from then on, whenever
    [10 - t >= max(0.5, hysteresis)], the gate stays open for [t] and
    each further cycle with that target commands 10 again. *)
Theorem floor_is_rewritten_every_cycle `{Environment}
    (p p1 : ManagedProfile.t) (t temp0 : Q) (temps : list Q) (w w1 : World) :
  t < 10 ->
  Qmax 0.5 (ManagedProfile.hysteresis p) <= 10 - t ->
  FanManager.apply_speed t temp0 (p, w) = (Ok tt, (p1, w1)) ->
  Forall (fun temp => FanCurve.value (ManagedProfile.curve p) temp = Ok t) temps ->
  ManagedProfile.last_speed p1 = Some 10.0 /\
  FanManager.should_apply p1 t = true /\
  exists pn,
    run_cycles temps (p1, w1) =
      (Ok tt, (pn, repeat (EvSetFanSpeed
                             (NvmlController.device (ManagedProfile.controller p))
                             10.0 10) (List.length temps) ++ w1)%list) /\
    ManagedProfile.last_speed pn = Some 10.0 /\
    FanManager.should_apply pn t = true.
Proof.
  intros Ht Hh Happly Htemps.
  assert (H1 : at_floor p p1).
  { revert Happly.
    unfold FanManager.apply_speed, sbind, get_obj, in_world, modify_obj,
      NvmlController.set_fan_speed. cbn [fst snd].
    rewrite (clamp_below_floor t Ht).
    destruct (nvml_set_fan_speed w _ _); [| discriminate].
    intros [= <- <-]. repeat split. }
  assert (Hgate : forall q, at_floor p q ->
                        ManagedProfile.last_speed q = Some 10.0 /\
                        FanManager.should_apply q t = true).
  { intros q (Hl & _ & Hy & _). split; [exact Hl |].
    apply should_apply_at_floor; [exact Ht | rewrite Hy; exact Hh | exact Hl]. }
  split; [apply (Hgate p1 H1) |].
  split; [apply (Hgate p1 H1) |].
  clear Happly. revert p1 w1 H1.
  induction Htemps as [| temp rest Hv Hrest IH]; intros p1 w1 H1.
  - exists p1. split; [reflexivity | apply (Hgate p1 H1)].
  - destruct (cycle_at_floor p p1 t temp w1 Ht Hh Hv H1) as (q & Hq & Hfloor).
    destruct (IH q (EvSetFanSpeed
                      (NvmlController.device (ManagedProfile.controller p))
                      10.0 10 :: w1) Hfloor) as (pn & Hrun & Hn).
    exists pn. split; [| exact Hn].
    cbn [run_cycles]. unfold sbind at 1. rewrite Hq. cbv beta iota.
    etransitivity; [exact Hrun |].
    do 2 f_equal. cbn [List.length repeat].
    rewrite repeat_cons, <- app_assoc. reflexivity.
Qed.

Lemma floor_is_rewritten_every_cycle_witness :
  let p0 := ManagedProfile.mk 0 0 (FanCurve.mk [mkCurvePoint 30 3]) 2
                              (NvmlController.mk 0 0 0%nat) None None in
  exists pn,
    @run_cycles obliging [42; 43]
      (ManagedProfile.set_last 10.0 41 p0, [EvSetFanSpeed 0 10.0 10]) =
    (Ok tt, (pn, [EvSetFanSpeed 0 10.0 10; EvSetFanSpeed 0 10.0 10;
                  EvSetFanSpeed 0 10.0 10])).
Proof.
  intro p0.
  destruct (@floor_is_rewritten_every_cycle obliging p0
              (ManagedProfile.set_last 10.0 41 p0) 3 41 [42; 43] []
              [EvSetFanSpeed 0 10.0 10])
    as (_ & _ & pn & Hrun & _).
  - reflexivity.
  - vm_compute. discriminate.
  - reflexivity.
  - repeat constructor.
  - exists pn. exact Hrun.
Defined.

(** ** The scenario of the step curve *)

(** A pass of the loop of [loop_once] is a reading followed by one such
    cycle; a failed reading is reported and ends the pass. *)
Lemma loop_body_reads_then_cycles `{Environment} (p : ManagedProfile.t) (w : World) :
  FanManager.loop_body (p, w) =
  let d := NvmlController.device (ManagedProfile.controller p) in
  match nvml_temperature w d with
  | Some v => run_cycles [inject_Z v] (p, EvGetTemperature d :: w)
  | None => (Ok tt, (p, EvGetTemperature d :: w))
  end.
Proof.
  unfold FanManager.loop_body, run_cycles, s_try_except, sbind, get_obj, in_world,
    sret, NvmlController.get_temperature.
  cbv beta iota zeta delta [fst snd].
  destruct (nvml_temperature w _) as [v |]; [| reflexivity].
  destruct (FanManager.regulate _ _) as [[[] | e] s']; [reflexivity |].
  destruct (exn_eqb NvmlError e); reflexivity.
Qed.

(** One cycle under a driver that accepts every command. *)
Lemma regulate_run `{Environment} :
  (forall w' d n, nvml_set_fan_speed w' d n = true) ->
  forall (temp : Q) (p : ManagedProfile.t) (w : World),
    FanManager.regulate temp (p, w) =
    match FanCurve.value (ManagedProfile.curve p) temp with
    | Raise e => (Raise e, (p, w))
    | Ok target =>
        if FanManager.should_apply p target
        then let v := py_max 10.0 (py_min 100.0 target) in
             (Ok tt, (ManagedProfile.set_last v temp p,
                      EvSetFanSpeed (NvmlController.device (ManagedProfile.controller p))
                                    v (c_uint (py_round v)) :: w))
        else (Ok tt, (p, w))
    end.
Proof.
  intros Hset temp p w.
  unfold FanManager.regulate, sbind, get_obj, lift_result, sret. cbn [fst snd].
  destruct (FanCurve.value (ManagedProfile.curve p) temp) as [target | e];
    [| reflexivity].
  destruct (FanManager.should_apply p target); [| reflexivity].
  unfold FanManager.apply_speed, sbind, get_obj, in_world, modify_obj,
    NvmlController.set_fan_speed. cbn [fst snd]. rewrite Hset. reflexivity.
Qed.

Lemma run_cycles_cons `{Environment} (temp : Q) (rest : list Q)
    (s : ManagedProfile.t * World) :
  run_cycles (temp :: rest) s =
  match run_cycles [temp] s with
  | (Ok _, s') => run_cycles rest s'
  | (Raise e, s') => (Raise e, s')
  end.
Proof.
  cbn [run_cycles]. unfold sbind, sret.
  destruct (s_try_except _ _ _ s) as [[u | e] s']; reflexivity.
Qed.

(** C6, as the code has it.  With the curve [(30,25),(50,45),(70,75)],
    hysteresis 2 and no speed applied yet, the readings 45, 45.5 and 60
    give: 25 applied in the first cycle, nothing applied in the second,
    45 applied in the third (45 and 45.5 lie on the step that starts at
    30, and 60 on the step that starts at 50). *)
Theorem scenario_follows_the_steps `{Environment} (c : FanCurve.t) (w : World) :
  (forall w' d n, nvml_set_fan_speed w' d n = true) ->
  FanCurve.init scenario_points = Ok c ->
  let p0 := scenario_profile c in
  let p1 := ManagedProfile.set_last 25 45 p0 in
  let p3 := ManagedProfile.set_last 45 60 p0 in
  run_cycles [45] (p0, w) = (Ok tt, (p1, EvSetFanSpeed 0 25 25 :: w)) /\
  run_cycles [45.5] (p1, EvSetFanSpeed 0 25 25 :: w) =
    (Ok tt, (p1, EvSetFanSpeed 0 25 25 :: w)) /\
  run_cycles [60] (p1, EvSetFanSpeed 0 25 25 :: w) =
    (Ok tt, (p3, EvSetFanSpeed 0 45 45 :: EvSetFanSpeed 0 25 25 :: w)) /\
  run_cycles [45; 45.5; 60] (p0, w) =
    (Ok tt, (p3, EvSetFanSpeed 0 45 45 :: EvSetFanSpeed 0 25 25 :: w)).
Proof.
  intros Hset Hinit. injection Hinit as <-.
  cbv zeta.
  match goal with |- context [scenario_profile ?x] => set (c := x) end.
  assert (E1 : run_cycles [45] (scenario_profile c, w) =
               (Ok tt, (ManagedProfile.set_last 25 45 (scenario_profile c),
                        EvSetFanSpeed 0 25 25 :: w))).
  { unfold run_cycles, sbind, s_try_except, sret.
    rewrite (regulate_run Hset). reflexivity. }
  assert (E2 : run_cycles [45.5]
                 (ManagedProfile.set_last 25 45 (scenario_profile c),
                  EvSetFanSpeed 0 25 25 :: w) =
               (Ok tt, (ManagedProfile.set_last 25 45 (scenario_profile c),
                        EvSetFanSpeed 0 25 25 :: w))).
  { unfold run_cycles, sbind, s_try_except, sret.
    rewrite (regulate_run Hset). reflexivity. }
  assert (E3 : run_cycles [60]
                 (ManagedProfile.set_last 25 45 (scenario_profile c),
                  EvSetFanSpeed 0 25 25 :: w) =
               (Ok tt, (ManagedProfile.set_last 45 60 (scenario_profile c),
                        EvSetFanSpeed 0 45 45 :: EvSetFanSpeed 0 25 25 :: w))).
  { unfold run_cycles, sbind, s_try_except, sret.
    rewrite (regulate_run Hset). reflexivity. }
  repeat split; try assumption.
  rewrite run_cycles_cons, E1. cbv beta iota.
  rewrite run_cycles_cons, E2. cbv beta iota.
  exact E3.
Qed.

Lemma scenario_follows_the_steps_witness :
  exists c p3,
    FanCurve.init scenario_points = Ok c /\
    @run_cycles obliging [45; 45.5; 60] (scenario_profile c, []) =
      (Ok tt, (p3, [EvSetFanSpeed 0 45 45; EvSetFanSpeed 0 25 25])).
Proof.
  exists (FanCurve.mk (sorted temperature scenario_points)).
  destruct (@scenario_follows_the_steps obliging
              (FanCurve.mk (sorted temperature scenario_points)) [])
    as (_ & _ & _ & E); [reflexivity | reflexivity |].
  eexists. split; [reflexivity | exact E].
Defined.

(** C6 as stated fails: the first cycle does not apply 45 and the third
    does not apply 75. *)
Lemma scenario_as_stated_fails :
  ~ (forall c : FanCurve.t,
        FanCurve.init scenario_points = Ok c ->
        exists p3,
          @run_cycles obliging [45; 45.5; 60] (scenario_profile c, []) =
            (Ok tt, (p3, [EvSetFanSpeed 0 75 75; EvSetFanSpeed 0 45 45]))).
Proof.
  intro Hclaim. destruct (Hclaim _ eq_refl) as [p3 E].
  vm_compute in E. discriminate.
Qed.

(** ** Closing sessions *)

Section Closing.
Context `{Environment}.

Lemma close_run (restore : bool) (p : ManagedProfile.t) (w : World) :
  ManagedProfile.close restore (p, w) =
  (Ok tt, (p, close_events restore (ManagedProfile.controller p) ++ w)).
Proof.
  unfold ManagedProfile.close, sbind, get_obj, s_try_except, in_world, sret,
    NvmlController.restore_auto, NvmlController.shutdown, close_events.
  destruct restore; cbv beta iota delta [fst snd]; [| reflexivity].
  destruct (nvml_restore_auto w
              (NvmlController.device (ManagedProfile.controller p)));
    reflexivity.
Qed.

Lemma for_each_close (restore : bool) (ps : list ManagedProfile.t) (w : World) :
  for_each (ManagedProfile.close restore) ps w =
  (Ok tt, (ps, closing_world restore (map ManagedProfile.controller ps) w)).
Proof.
  revert w. induction ps as [| p rest IH]; intro w; [reflexivity |].
  cbn [for_each]. rewrite close_run, IH. reflexivity.
Qed.

Lemma close_profiles_run (restore : bool) (ps : list ManagedProfile.t) (w : World) :
  FanManager._close_profiles ps restore w =
  (Ok tt, closing_world restore (map ManagedProfile.controller ps) w).
Proof.
  unfold FanManager._close_profiles. rewrite for_each_close. reflexivity.
Qed.

Lemma set_profiles_run `{PyBuiltins} (new_profiles : list ManagedProfile.t)
    (m : FanManager.t) (w : World) :
  FanManager.set_profiles new_profiles (m, w) =
  (Ok tt, (FanManager.with_profiles new_profiles m,
           closing_world (FanManager.restore_on_exit m)
                         (map ManagedProfile.controller (FanManager.profiles m)) w)).
Proof.
  unfold FanManager.set_profiles, sbind, get_obj, in_world, modify_obj.
  cbv beta iota delta [fst snd]. rewrite close_profiles_run. reflexivity.
Qed.

(** A loop whose body leaves some attribute alone leaves it alone in
    every object, whether it finishes or raises. *)
Lemma for_each_keeps {X Y : Type} (f : X -> Y) (body : M (X * World) unit) :
  (forall x w, f (fst (snd (body (x, w)))) = f x) ->
  forall xs w, map f (fst (snd (for_each body xs w))) = map f xs.
Proof.
  intros Hbody xs. induction xs as [| x rest IH]; intro w; [reflexivity |].
  cbn [for_each]. specialize (Hbody x w).
  destruct (body (x, w)) as [[u | e] [x' w']]; cbn [fst snd] in Hbody.
  - specialize (IH w'). destruct (for_each body rest w') as [r [rest' w'']].
    cbn [fst snd map] in *. congruence.
  - cbn [fst snd map]. congruence.
Qed.

Lemma regulate_keeps_controller (temp : Q) (p : ManagedProfile.t) (w : World) :
  ManagedProfile.controller (fst (snd (FanManager.regulate temp (p, w)))) =
  ManagedProfile.controller p.
Proof.
  unfold FanManager.regulate, sbind, get_obj, lift_result, sret.
  cbv beta iota delta [fst snd].
  destruct (FanCurve.value (ManagedProfile.curve p) temp) as [target | e];
    [| reflexivity].
  destruct (FanManager.should_apply p target); [| reflexivity].
  unfold FanManager.apply_speed, sbind, get_obj, in_world, modify_obj,
    NvmlController.set_fan_speed.
  cbv beta iota delta [fst snd].
  destruct (nvml_set_fan_speed w _ _); reflexivity.
Qed.

Lemma loop_body_keeps_controller (p : ManagedProfile.t) (w : World) :
  ManagedProfile.controller (fst (snd (FanManager.loop_body (p, w)))) =
  ManagedProfile.controller p.
Proof.
  unfold FanManager.loop_body, s_try_except, sbind, get_obj, in_world, sret,
    NvmlController.get_temperature.
  cbv beta iota delta [fst snd].
  destruct (nvml_temperature w _) as [v |]; [| reflexivity].
  pose proof (regulate_keeps_controller (inject_Z v) p
                (EvGetTemperature
                   (NvmlController.device (ManagedProfile.controller p)) :: w)) as K.
  destruct (FanManager.regulate _ _) as [[u | e] [p' w']];
    cbv beta iota delta [fst snd] in *; [exact K |].
  destruct (exn_eqb NvmlError e); exact K.
Qed.
End Closing.

(** ** One-shot mode *)

(** C9, as the code has it.  Once the profiles are built and the manager
    is set up, [--once] runs [loop_once] one time and then closes every
    profile, restoring automatic control first unless
    [--no-restore-on-exit] was given; what [loop_once] raised, if
    anything, is raised after the closing. *)
Theorem once_is_one_cycle_then_close `{PyBuiltins} `{Environment}
    (config : json) (path : string) (no_restore_on_exit : bool)
    (w w1 : World) (ps : list ManagedProfile.t) (m : FanManager.t) :
  build_managed_profiles config w = (Ok ps, w1) ->
  rbind (py_get config "poll_interval" DEFAULT_poll_interval)
        (fun p0 => FanManager.init ps p0 (negb no_restore_on_exit) path) = Ok m ->
  exists r m' w2,
    FanManager.loop_once (m, w1) = (r, (m', w2)) /\
    map ManagedProfile.controller (FanManager.profiles m') =
      map ManagedProfile.controller ps /\
    main_once config path no_restore_on_exit w =
      (r, closing_world (negb no_restore_on_exit)
                        (map ManagedProfile.controller ps) w2).
Proof.
  intros Hbuild Hinit.
  assert (Hm : FanManager.profiles m = ps /\
               FanManager.restore_on_exit m = negb no_restore_on_exit).
  { destruct (py_get config "poll_interval" DEFAULT_poll_interval) as [p0 |];
      [| discriminate].
    cbn [rbind] in Hinit. unfold FanManager.init in Hinit.
    destruct (py_float p0); [| discriminate].
    cbn [rbind] in Hinit. injection Hinit as <-. split; reflexivity. }
  destruct Hm as [Hps Hre].
  destruct (FanManager.loop_once (m, w1)) as [r [m' w2]] eqn:Hloop.
  assert (Hm' : map ManagedProfile.controller (FanManager.profiles m') =
                map ManagedProfile.controller ps /\
                FanManager.restore_on_exit m' = negb no_restore_on_exit).
  { revert Hloop. unfold FanManager.loop_once. cbn [fst snd]. rewrite Hps.
    destruct ps as [| p rest].
    - intros [= <- <- <-]. rewrite Hps. auto.
    - pose proof (for_each_keeps ManagedProfile.controller FanManager.loop_body
                    loop_body_keeps_controller (p :: rest) w1) as K.
      destruct (for_each FanManager.loop_body (p :: rest) w1) as [r' [ps' w']].
      intros [= <- <- <-]. cbn [fst snd] in K. auto. }
  destruct Hm' as [Hctl Hre'].
  exists r, m', w2. split; [reflexivity |]. split; [exact Hctl |].
  unfold main_once. rewrite Hbuild, Hinit.
  unfold try_finally. rewrite Hloop.
  unfold FanManager.set_profiles, sbind, get_obj, in_world, modify_obj.
  cbn [fst snd]. rewrite close_profiles_run, Hctl, Hre'. reflexivity.
Qed.

Lemma once_is_one_cycle_then_close_witness :
  exists r w2,
    @main_once no_numeric_strings obliging DEFAULT_CONFIG
               "/etc/nvidia-fan-manager/config.json" true [] =
    (r, EvShutdown 0 :: w2).
Proof.
  destruct (@once_is_one_cycle_then_close no_numeric_strings obliging
              DEFAULT_CONFIG "/etc/nvidia-fan-manager/config.json" true [] _ _ _
              eq_refl eq_refl) as (r & m' & w2 & _ & _ & E).
  exists r, w2. exact E.
Defined.

(** C9 as stated fails: without [--no-restore-on-exit], the shutdown
    that follows the single cycle restores automatic control. *)
Lemma once_restores_by_default :
  ~ (forall (no_restore_on_exit : bool) (d : nat),
        ~ In (EvRestoreAuto d)
             (snd (@main_once no_numeric_strings obliging DEFAULT_CONFIG
                              "/etc/nvidia-fan-manager/config.json"
                              no_restore_on_exit []))).
Proof.
  intro Hclaim. apply (Hclaim false 0%nat). vm_compute. auto.
Qed.

(** ** Reload *)

Lemma increasing_from_ge (n : nat) (ds : list nat) :
  increasing_from n ds -> Forall (fun d => (n <= d)%nat) ds.
Proof.
  revert n. induction ds as [| d r IH]; intros n; simpl; [constructor |].
  intros [Hd Hr]. constructor; [exact Hd |].
  apply IH in Hr. eapply Forall_impl; [| exact Hr].
  simpl. intros. lia.
Qed.

Lemma remove_first_middle (d : nat) (l1 l2 : list nat) :
  ~ In d l1 -> remove_first d (l1 ++ d :: l2) = l1 ++ l2.
Proof.
  induction l1 as [| x r IH]; simpl; intro Hn.
  - rewrite Nat.eqb_refl. reflexivity.
  - destruct (Nat.eqb d x) eqn:E.
    + apply Nat.eqb_eq in E. exfalso. apply Hn. left. congruence.
    + rewrite IH; [reflexivity |]. intro I. apply Hn. right. exact I.
Qed.

(** Shutting down, oldest first, the sessions that were opened last
    but for the newest ones leaves open what was open before them, and
    those newest ones. *)
Lemma shutdowns_cancel_opens_under (n : nat) (ds top before : list nat) :
  increasing_from n (ds ++ top) ->
  fold_left (fun l d => remove_first d l) ds (top ++ rev ds ++ before) = top ++ before.
Proof.
  revert n. induction ds as [| d r IH]; intros n; simpl; [reflexivity |].
  intros [_ Hr]. rewrite <- app_assoc. cbn [app].
  rewrite app_assoc, remove_first_middle; [rewrite <- app_assoc; exact (IH _ Hr) |].
  intro I. pose proof (increasing_from_ge _ _ Hr) as G. rewrite Forall_forall in G.
  assert (I' : In d (r ++ top)).
  { apply in_or_app. apply in_app_or in I. destruct I as [I | I]; [right; exact I |].
    left. apply in_rev. exact I. }
  specialize (G d I'). lia.
Qed.

Lemma shutdowns_cancel_opens (n : nat) (ds : list nat) (before : list nat) :
  increasing_from n ds ->
  fold_left (fun l d => remove_first d l) ds (rev ds ++ before) = before.
Proof.
  intro Hinc. apply (shutdowns_cancel_opens_under n ds [] before).
  rewrite app_nil_r. exact Hinc.
Qed.

Lemma open_sessions_closing (ctls : list NvmlController.t) (w : World) :
  open_sessions (closing_world false ctls w) =
  fold_left (fun l d => remove_first d l) (map NvmlController.device ctls)
            (open_sessions w).
Proof.
  revert w. induction ctls as [| c r IH]; intro w; [reflexivity |].
  unfold closing_world in *. cbn [fold_left map]. rewrite IH. reflexivity.
Qed.

Lemma sbind_lift_result {S A B : Type} (r : result A) (k : A -> M S B) (s : S) :
  sbind (lift_result r) k s =
  match r with Ok a => k a s | Raise e => (Raise e, s) end.
Proof. destruct r; reflexivity. Qed.

Section Reload.
Context `{PyBuiltins} `{Environment}.

(** A profile is built by opening one session, named by the length of
    the log.  A failed attempt has touched nothing, or has found no
    driver, or has initialised the driver, logged as a session of that
    name, and left it so. *)
Lemma build_profile_world (entry : json) (w : World) :
  (exists p gpu fan,
      build_profile entry w = (Ok p, EvOpen (List.length w) gpu fan :: w) /\
      NvmlController.device (ManagedProfile.controller p) = List.length w /\
      ManagedProfile.last_speed p = None /\ ManagedProfile.last_temp p = None) \/
  (exists e w', build_profile entry w = (Raise e, w') /\
                (open_sessions w' = open_sessions w \/
                 (e = NvmlError /\
                  open_sessions w' = List.length w :: open_sessions w))).
Proof.
  unfold build_profile.
  repeat (rewrite sbind_lift_result;
          match goal with
          | |- context [match ?c with Ok _ => _ | Raise _ => _ end] =>
              destruct c; [| right; do 2 eexists; split; [reflexivity | left; reflexivity]]
          end).
  unfold sbind, sret, NvmlController.init.
  destruct (nvml_init w).
  - cbv zeta. destruct (nvml_open _ _ _).
    + left. do 3 eexists. repeat split.
    + right. do 2 eexists. split; [reflexivity |]. right. split; reflexivity.
  - right. do 2 eexists. split; [reflexivity | left; reflexivity].
Qed.

Lemma build_loop_world (entries : list json) :
  forall (acc : list ManagedProfile.t) (w : World) r ps w',
    build_loop entries acc w = (r, (ps, w')) ->
    exists new top,
      ps = acc ++ new /\
      open_sessions w' =
        top ++
        rev (map (fun p => NvmlController.device (ManagedProfile.controller p)) new)
        ++ open_sessions w /\
      increasing_from (List.length w)
        (map (fun p => NvmlController.device (ManagedProfile.controller p)) new ++ top) /\
      (List.length top <= 1)%nat /\
      match r with
      | Ok _ => top = []
      | Raise e => top = [] \/ e = NvmlError
      end.
Proof.
  induction entries as [| entry rest IH]; intros acc w r ps w'; cbn [build_loop].
  - intros [= <- <- <-]. exists [], []. rewrite app_nil_r. repeat split. auto.
  - destruct (build_profile_world entry w)
      as [(p & gpu & fan & -> & Hd & _) | (e & w1 & -> & Ho)].
    + intro Hrest. apply IH in Hrest.
      destruct Hrest as (new & top & -> & Hopen & Hinc & Htop & Hr).
      exists (p :: new), top. rewrite <- app_assoc. split; [reflexivity |].
      cbn [map rev open_sessions List.length app] in *. rewrite <- !app_assoc.
      cbn [app]. rewrite Hd. split; [exact Hopen |].
      split; [split; [lia | exact Hinc] |]. split; [exact Htop | exact Hr].
    + intros [= <- <- <-]. destruct Ho as [Ho | [-> Ho]].
      * exists [], []. rewrite app_nil_r. repeat split; auto.
      * exists [], [List.length w]. rewrite app_nil_r. cbn [map rev app List.length].
        split; [reflexivity |]. split; [exact Ho |].
        split; [split; [lia | exact I] |]. split; [lia | right; reflexivity].
Qed.

(** A failed build has shut down every profile it had built, and has
    closed no other session; what may stay open is the driver
    initialisation of the constructor that failed. *)
Lemma failed_build_sessions (cfg : json) (w w' : World) (e : exn) :
  build_managed_profiles cfg w = (Raise e, w') ->
  open_sessions w' = open_sessions w \/
  (e = NvmlError /\
   exists d, (List.length w <= d)%nat /\ open_sessions w' = d :: open_sessions w).
Proof.
  unfold build_managed_profiles.
  destruct (rbind _ _) as [entries | e0]; [| intros [= <- <-]; left; reflexivity].
  destruct (build_loop entries [] w) as [r [ps w1]] eqn:Hloop.
  apply build_loop_world in Hloop.
  destruct Hloop as (new & top & -> & Hopen & Hinc & Htop & Hr).
  destruct r as [u | e1]; [discriminate |].
  rewrite for_each_close. intros [= <- <-]. cbn [app].
  rewrite open_sessions_closing, Hopen, map_map.
  rewrite (shutdowns_cancel_opens_under _ _ _ _ Hinc).
  destruct top as [| d [| d' top']]; cbn [List.length] in Htop; try lia.
  - left. reflexivity.
  - right. destruct Hr as [F | ->]; [discriminate |]. split; [reflexivity |].
    exists d. split; [| reflexivity].
    pose proof (increasing_from_ge _ _ Hinc) as G. rewrite Forall_forall in G.
    apply G. apply in_or_app. right. left. reflexivity.
Qed.
End Reload.

(** Whatever [normalize_config] returns is a dict with a float poll
    interval, floored to 0.5, and a list of profiles. *)
Lemma normalize_config_shape `{PyBuiltins} (raw cfg : json) :
  normalize_config raw = Ok cfg ->
  exists p ps, cfg = config_dict (JFloat (py_max 0.5 p)) (JList ps).
Proof.
  unfold normalize_config. intro E.
  repeat match type of E with
         | rbind ?c ?k = Ok _ =>
             destruct c; [cbn [rbind] in E | discriminate E]
         end.
  injection E as <-. eauto.
Qed.

Lemma load_config_shape `{PyBuiltins} `{Environment}
    (path : string) (w w1 : World) (cfg : json) :
  load_config path w = (Ok cfg, w1) ->
  exists p ps, cfg = config_dict (JFloat p) (JList ps).
Proof.
  unfold load_config. intros [= E _].
  destruct (read_json w path) as [[raw | e] |].
  - apply normalize_config_shape in E. destruct E as (p & ps & ->). eauto.
  - discriminate.
  - injection E as <-. unfold deep_copy_config, DEFAULT_CONFIG. eauto.
Qed.

(** C4.  A reload that fails does not close every session that the
    attempt has opened.  The daemon runs one profile, on session 0, on a
    machine with one GPU, and the configuration file names GPU 0 and
    GPU 1.  The reload builds the profile of GPU 0 (session 2), and the
    constructor for GPU 1 initialises the driver (session 3) and then
    fails to find the device.  The reload returns with the manager as
    it was, and has shut down session 2, but session 3 stays open next
    to the daemon's own. *)
Theorem failed_reload_leaves_a_driver_init_open :
  let m := FanManager.mk [scenario_profile (FanCurve.mk scenario_points)] 2 true
                         "config.json" true false in
  exists w2,
    @FanManager.reload_config no_numeric_strings (one_gpu_with_file two_gpu_config)
      (m, [EvOpen 0 0 0]) = (Ok tt, (m, w2)) /\
    In (EvShutdown 2) w2 /\
    open_sessions [EvOpen 0 0 0] = [0%nat] /\
    open_sessions w2 = [3%nat; 0%nat].
Proof.
  intro m. eexists. split; [vm_compute; reflexivity |].
  split; [left; reflexivity |]. split; reflexivity.
Qed.

(** ** What a normalized snapshot looks like *)

Lemma number_value_cases (v : json) (x : Q) :
  number_value v = Some x ->
  (exists z, v = JInt z /\ (Z.abs z <= 2 ^ 53)%Z /\ x = inject_Z z) \/ v = JFloat x.
Proof.
  destruct v; cbn [number_value]; try discriminate.
  - destruct (Z.abs z <=? 2 ^ 53)%Z eqn:E; [| discriminate].
    intros [= <-]. left. exists z. apply Z.leb_le in E. auto.
  - intros [= <-]. right. reflexivity.
Qed.

Lemma float_of_int_small (z : Z) :
  (Z.abs z <= 2 ^ 53)%Z -> float_of_int z = Ok (inject_Z z).
Proof.
  intro Hz. unfold float_of_int.
  destruct (2 ^ 1024 - 2 ^ 970 <=? Z.abs z)%Z eqn:E.
  - apply Z.leb_le in E. exfalso.
    assert (B : (2 ^ 53 < 2 ^ 1024 - 2 ^ 970)%Z) by reflexivity. lia.
  - apply Z.leb_le in Hz. rewrite Hz. reflexivity.
Qed.

Lemma json_eq_number (v : json) (x x' : Q) :
  number_value v = Some x -> x' == x -> json_eq (JFloat x') v = true.
Proof.
  intros Hv E.
  destruct (number_value_cases v x Hv) as [(z & -> & _ & ->) | ->];
    cbn [json_eq num_value]; apply Qeq_bool_iff; exact E.
Qed.

Lemma json_eq_curve_point (a b a' b' : json) :
  json_eq (curve_point a b) (curve_point a' b') = json_eq a a' && json_eq b b'.
Proof.
  cbn. rewrite andb_true_r. reflexivity.
Qed.

Lemma json_eq_profile_dict (a b c d a' b' c' d' : json) :
  json_eq (profile_dict a b c d) (profile_dict a' b' c' d') =
  json_eq a a' && (json_eq b b' && (json_eq c c' && json_eq d d')).
Proof.
  cbn. rewrite andb_true_r. reflexivity.
Qed.

Lemma json_eq_config_dict (a b a' b' : json) :
  json_eq (config_dict a b) (config_dict a' b') = json_eq a a' && json_eq b b'.
Proof.
  cbn. rewrite andb_true_r. reflexivity.
Qed.

Lemma json_eq_list_cons (x y : json) (xs ys : list json) :
  json_eq (JList (x :: xs)) (JList (y :: ys)) =
  json_eq x y && json_eq (JList xs) (JList ys).
Proof. reflexivity. Qed.

(** [float] fails with [TypeError] or [ValueError], which the code
    catches, or, on an int out of range, with [OverflowError], which it
    does not. *)
Lemma py_float_raises `{PyBuiltins} (v : json) (e : exn) :
  py_float v = Raise e ->
  e = TypeError \/ e = ValueError \/
  (e = OverflowError /\ exists z, v = JInt z /\ (2 ^ 1024 - 2 ^ 970 <= Z.abs z)%Z).
Proof.
  destruct v; cbn [py_float]; try discriminate; try (intros [= <-]; auto).
  - unfold float_of_int.
    destruct (2 ^ 1024 - 2 ^ 970 <=? Z.abs z)%Z eqn:E.
    + intros [= <-]. right. right. split; [reflexivity |].
      exists z. apply Z.leb_le in E. auto.
    + destruct (Z.abs z <=? 2 ^ 53)%Z; discriminate.
  - destruct (float_of_str s); [discriminate | intros [= <-]; auto].
Qed.

Lemma py_int_raises `{PyBuiltins} (v : json) (e : exn) :
  py_int v = Raise e -> e = TypeError \/ e = ValueError.
Proof.
  destruct v; simpl; try discriminate; try (intros [= <-]; auto).
  destruct (int_of_str s); [discriminate | intros [= <-]; auto].
Qed.

Section NormalizeFacts.
Context `{PyBuiltins}.

Lemma py_float_in_range (v : json) (e : exn) :
  in_float_range v -> py_float v = Raise e -> e = TypeError \/ e = ValueError.
Proof.
  intros Hv E. apply py_float_raises in E.
  destruct E as [-> | [-> | (_ & z & -> & Hz)]]; auto.
  cbn [in_float_range] in Hv. lia.
Qed.

(** One pass of the inner loop: the point is kept or dropped as
    [clamped_point] says, unless [float] overflows. *)
Lemma normalize_point_spec (pt : json) :
  normalize_point pt = Ok (clamped_point pt) \/
  normalize_point pt = Raise OverflowError.
Proof.
  unfold normalize_point, clamped_point.
  destruct pt as [| b | z | q | s | l | d]; try (left; reflexivity).
  cbn [py_getitem].
  destruct (dict_lookup "temperature" d) as [t0 |]; [| left; reflexivity].
  cbn [rbind].
  destruct (py_float t0) as [t | e] eqn:E2; cbn [rbind].
  2: { apply py_float_raises in E2.
       destruct E2 as [-> | [-> | [-> _]]]; [left | left | right];
         try reflexivity; destruct (dict_lookup "speed" d); reflexivity. }
  destruct (dict_lookup "speed" d) as [s0 |]; [| left; reflexivity].
  cbn [rbind].
  destruct (py_float s0) as [s | e] eqn:E4; cbn [rbind].
  2: { apply py_float_raises in E4.
       destruct E4 as [-> | [-> | [-> _]]]; [left | left | right]; reflexivity. }
  left. reflexivity.
Qed.

Lemma normalize_point_usable (pt : json) :
  point_usable pt -> normalize_point pt = Ok (clamped_point pt).
Proof.
  intro Hpt. unfold normalize_point, clamped_point.
  destruct pt as [| b | z | q | s | l | d]; try reflexivity.
  cbn [py_getitem]. destruct Hpt as [Ht Hs]. unfold field in Ht, Hs.
  destruct (dict_lookup "temperature" d) as [t0 |]; [| reflexivity].
  cbn [rbind].
  destruct (py_float t0) as [t | e] eqn:E2; cbn [rbind].
  2: { destruct (py_float_in_range t0 e Ht E2) as [-> | ->];
         destruct (dict_lookup "speed" d); reflexivity. }
  specialize (Hs t eq_refl).
  destruct (dict_lookup "speed" d) as [s0 |]; [| reflexivity].
  cbn [rbind].
  destruct (py_float s0) as [s | e] eqn:E4; cbn [rbind]; [reflexivity |].
  destruct (py_float_in_range s0 e Hs E4) as [-> | ->]; reflexivity.
Qed.

Lemma clamped_point_normalized (pt pt' : json) :
  clamped_point pt = Some pt' -> normalized_point pt'.
Proof.
  unfold clamped_point. destruct pt; try discriminate.
  destruct (dict_lookup "temperature" d) as [t0 |]; [| discriminate].
  destruct (dict_lookup "speed" d) as [s0 |]; [| discriminate].
  destruct (py_float t0) as [t |]; [| discriminate].
  destruct (py_float s0) as [s |]; [| discriminate].
  intros [= <-]. exists (JFloat t), (JFloat (py_max 0.0 (py_min 100.0 s))), t,
    (py_max 0.0 (py_min 100.0 s)).
  repeat split; try reflexivity;
    destruct (clamp_bounds 0.0 100.0 s) as [B _]; lra.
Qed.

Lemma normalize_point_normalized (pt pt' : json) :
  normalize_point pt = Ok (Some pt') -> normalized_point pt'.
Proof.
  destruct (normalize_point_spec pt) as [-> | ->]; [| discriminate].
  intros [= E]. apply (clamped_point_normalized pt). exact E.
Qed.

(** A loop whose passes keep or drop as [f] says collects [kept f]. *)
Lemma collect_kept {A : Type} (body : json -> result (option A))
    (f : json -> option A) (Q : json -> Prop) :
  (forall x, Q x -> body x = Ok (f x)) ->
  forall l, Forall Q l -> collect body l = Ok (kept f l).
Proof.
  intros Hbody l Hl. induction Hl as [| x rest Hx Hrest IH]; [reflexivity |].
  cbn [collect]. rewrite (Hbody x Hx), IH. cbn [rbind].
  unfold kept. cbn [flat_map]. destruct (f x); reflexivity.
Qed.

Lemma collect_Forall {A : Type} (body : json -> result (option A)) (P : A -> Prop) :
  (forall x y, body x = Ok (Some y) -> P y) ->
  forall l rs, collect body l = Ok rs -> Forall P rs.
Proof.
  intros Hbody l. induction l as [| x rest IH]; intros rs; cbn [collect].
  - intros [= <-]. constructor.
  - destruct (body x) as [r |] eqn:Ex; [| discriminate]. cbn [rbind].
    destruct (collect body rest) as [rs' |]; [| discriminate]. cbn [rbind].
    intros [= <-]. specialize (IH rs' eq_refl).
    destruct r as [y |]; [constructor; eauto | exact IH].
Qed.

Lemma default_curve_normalized :
  Forall normalized_point (json_items (deep_copy_config DEFAULT_CURVE)) /\
  Sorted (key_le temperature_key) (json_items (deep_copy_config DEFAULT_CURVE)).
Proof.
  split.
  - unfold json_items, deep_copy_config, DEFAULT_CURVE.
    repeat (apply Forall_cons;
            [do 4 eexists; split; [reflexivity |];
             split; [reflexivity |]; split; [reflexivity |];
             unfold inject_Z; lra |]).
    apply Forall_nil.
  - unfold json_items, deep_copy_config, DEFAULT_CURVE.
    repeat (apply Sorted_cons;
            [| first [apply HdRel_nil
                       | apply HdRel_cons; unfold key_le; cbn; unfold inject_Z; lra]]).
    apply Sorted_nil.
Qed.

Lemma Forall_sorted {A : Type} (key : A -> Q) (P : A -> Prop) (l : list A) :
  Forall P l -> Forall P (sorted key l).
Proof.
  rewrite !Forall_forall. intros Hl x I. apply Hl.
  apply (Permutation_in _ (Permutation_sym (sorted_perm key l))). exact I.
Qed.
End NormalizeFacts.

Ltac rbind_cases E :=
  repeat (cbv zeta in E;
          match type of E with
          | rbind ?c ?k = Ok _ =>
              let r := fresh "r" in
              let Er := fresh "Er" in
              destruct c as [r |] eqn:Er; [cbn [rbind] in E | discriminate E]
          end).

Section NormalizeShape.
Context `{PyBuiltins}.

Lemma default_profile_normalized : normalized_profile (deep_copy_config DEFAULT_PROFILE).
Proof.
  exists 0%Z, 0%Z, (json_items (deep_copy_config DEFAULT_CURVE)), 2.0.
  split; [reflexivity |]. split; [discriminate |]. apply default_curve_normalized.
Qed.

(** Every profile that the loop over [profiles_input] appends is
    normalized. *)
Lemma normalize_entry_normalized (cfg entry e : json) :
  normalize_entry cfg entry = Ok (Some e) -> normalized_profile e.
Proof.
  unfold normalize_entry. intro E.
  destruct (entry_indices entry) as [[[g f] |] |]; cbn [rbind] in E;
    try discriminate E.
  rbind_cases E.
  injection E as <-.
  match goal with
  | |- normalized_profile (profile_dict _ _ (JList (sorted _ ?c)) (JFloat ?h)) =>
      exists g, f, (sorted temperature_key c), h;
      assert (Hc : c <> [] /\ Forall normalized_point c)
  end.
  { match goal with Ec : collect normalize_point _ = Ok ?l |- _ =>
      pose proof (collect_Forall normalize_point normalized_point
                    normalize_point_normalized _ _ Ec) as Hl;
      destruct l as [| pt l']
    end.
    - split; [discriminate | apply default_curve_normalized].
    - split; [discriminate | exact Hl]. }
  destruct Hc as [Hne Hall].
  split; [reflexivity |].
  split; [apply sorted_nonempty; exact Hne |].
  split; [apply Forall_sorted; exact Hall | apply sorted_Sorted].
Qed.

Lemma normalize_config_normalized (raw cfg : json) :
  normalize_config raw = Ok cfg -> normalized_config cfg.
Proof.
  unfold normalize_config. intro E. rbind_cases E. injection E as <-.
  match goal with
  | |- normalized_config (config_dict (JFloat (py_max 0.5 ?q)) (JList ?l)) =>
      exists (py_max 0.5 q), l
  end.
  split; [reflexivity |].
  split; [destruct (py_max_spec 0.5 r0) as [[L ->] | [L ->]]; lra |].
  match goal with Ec : collect (normalize_entry _) _ = Ok ?l |- _ =>
    pose proof (collect_Forall _ normalized_profile
                  (normalize_entry_normalized _) _ _ Ec) as Hl;
    destruct l as [| e l']
  end.
  - split; [discriminate |]. constructor; [| constructor].
    apply default_profile_normalized.
  - split; [discriminate | exact Hl].
Qed.
End NormalizeShape.

Section NormalizeRuns.
Context `{PyBuiltins}.

Lemma entry_indices_run (d : list (string * json)) :
  entry_indices (JDict d) =
  Ok match py_int (field "gpu_index" d (JInt 0)),
           py_int (field "fan_index" d (JInt 0)) with
     | Ok g, Ok f => Some (g, f)
     | _, _ => None
     end.
Proof.
  unfold entry_indices, field, DEFAULT_gpu_index, DEFAULT_fan_index.
  cbn [py_get rbind].
  destruct (py_int match dict_lookup "gpu_index" d with
                   | Some v => v
                   | None => JInt 0
                   end) as [g | e] eqn:Eg; cbn [rbind].
  2: { apply py_int_raises in Eg. destruct Eg as [-> | ->]; reflexivity. }
  destruct (py_int match dict_lookup "fan_index" d with
                   | Some v => v
                   | None => JInt 0
                   end) as [f | e] eqn:Ef; cbn [rbind].
  2: { apply py_int_raises in Ef. destruct Ef as [-> | ->]; reflexivity. }
  reflexivity.
Qed.

Lemma py_iter_elements (v : json) : iterable v -> py_iter v = Ok (elements v).
Proof.
  unfold elements. destruct v; cbn [iterable py_iter]; intro I;
    try contradiction; reflexivity.
Qed.

Lemma float_or_run (v : json) :
  in_float_range v ->
  try_except (py_float v) [TypeError; ValueError] (Ok 2.0) = Ok (float_or 2.0 v).
Proof.
  intro Hv. unfold float_or.
  destruct (py_float v) as [q | e] eqn:E; [reflexivity |].
  destruct (py_float_in_range v e Hv E) as [-> | ->]; reflexivity.
Qed.

Lemma default_curve_usable : Forall point_usable (elements DEFAULT_CURVE).
Proof.
  unfold elements, DEFAULT_CURVE. cbn [py_iter].
  repeat (apply Forall_cons; [split; [reflexivity | intros; reflexivity] |]).
  apply Forall_nil.
Qed.

(** On a usable entry, a pass of the outer loop keeps or drops the
    entry as [normalized_entry] says. *)
Lemma normalize_entry_run (top : list (string * json)) (entry : json) :
  entry_usable top entry ->
  normalize_entry (JDict top) entry = Ok (normalized_entry top entry).
Proof.
  intros (d & -> & Hd). unfold normalize_entry, normalized_entry.
  rewrite entry_indices_run. cbn [rbind].
  destruct (py_int (field "gpu_index" d (JInt 0))) as [g | eg]; [| reflexivity].
  destruct (py_int (field "fan_index" d (JInt 0))) as [f | ef]; [| reflexivity].
  destruct (Hd g f eq_refl eq_refl) as [Hcurve Hhyst].
  change (py_get (JDict d) "curve" JNull) with (Ok (field "curve" d JNull)).
  cbn [rbind]. cbv zeta.
  set (c0 := field "curve" d JNull) in *.
  assert (Hraw : iterable (if truthy c0 then c0 else DEFAULT_CURVE) /\
                 Forall point_usable (elements (if truthy c0 then c0 else DEFAULT_CURVE))).
  { unfold curve_usable in Hcurve. destruct (truthy c0).
    - apply Hcurve. reflexivity.
    - split; [exact I | apply default_curve_usable]. }
  destruct Hraw as [Hiter Hpoints].
  rewrite (py_iter_elements _ Hiter). cbn [rbind].
  rewrite (collect_kept normalize_point clamped_point point_usable
             normalize_point_usable _ Hpoints).
  cbn [rbind].
  change (py_get (JDict top) "hysteresis" DEFAULT_hysteresis)
    with (Ok (field "hysteresis" top (JFloat 2.0))).
  cbn [rbind].
  change (py_get (JDict d) "hysteresis" (field "hysteresis" top (JFloat 2.0)))
    with (Ok (field "hysteresis" d (field "hysteresis" top (JFloat 2.0)))).
  cbn [rbind]. rewrite (float_or_run _ Hhyst). cbn [rbind].
  unfold normalized_curve, deep_copy_config. fold c0. reflexivity.
Qed.

(** On a usable snapshot [normalize_config] returns, and what it
    returns is [normalized_snapshot]. *)
Lemma normalize_config_run (top : list (string * json)) :
  usable_snapshot (JDict top) ->
  normalize_config (JDict top) = Ok (normalized_snapshot top).
Proof.
  intros (top' & [= <-] & Hpoll & Hentries).
  unfold normalize_config, normalized_snapshot, deep_copy_config. cbv zeta.
  change (py_get (JDict top) "poll_interval" DEFAULT_poll_interval)
    with (Ok (field "poll_interval" top (JFloat 2.0))).
  cbn [rbind]. rewrite (float_or_run _ Hpoll). cbn [rbind].
  change (py_get (JDict top) "profiles" JNull) with (Ok (field "profiles" top JNull)).
  cbn [rbind].
  assert (Hinput :
            match field "profiles" top JNull with
            | JList ((_ :: _) as l) => Ok l
            | _ =>
                rbind (py_get (JDict top) "gpu_index" DEFAULT_gpu_index) (fun g =>
                rbind (py_get (JDict top) "fan_index" DEFAULT_fan_index) (fun f =>
                rbind (py_get (JDict top) "curve" DEFAULT_CURVE) (fun c =>
                rbind (py_get (JDict top) "hysteresis" DEFAULT_hysteresis) (fun h =>
                Ok [profile_dict g f c h]))))
            end = Ok (profile_entries top)).
  { unfold profile_entries, field.
    destruct (dict_lookup "profiles" top) as [[| | | | | [| e l] |] |]; reflexivity. }
  rewrite Hinput. cbn [rbind].
  rewrite (collect_kept (normalize_entry (JDict top)) (normalized_entry top)
             (entry_usable top) (normalize_entry_run top) _ Hentries).
  cbn [rbind].
  destruct (kept (normalized_entry top) (profile_entries top)); reflexivity.
Qed.

(** Conversely, where [normalize_config] returns, the input was
    usable. *)
Lemma collect_returns {A : Type} (body : json -> result (option A)) (l : list json)
    (rs : list A) :
  collect body l = Ok rs -> Forall (fun x => exists r, body x = Ok r) l.
Proof.
  revert rs. induction l as [| x rest IH]; intros rs; cbn [collect]; [constructor |].
  destruct (body x) as [r | e] eqn:Ex; [| discriminate]. cbn [rbind].
  destruct (collect body rest) as [rs' | e]; [| discriminate]. cbn [rbind].
  intros _. constructor; [eauto | apply (IH rs'); reflexivity].
Qed.

Lemma py_float_out_of_range (v : json) :
  ~ in_float_range v -> py_float v = Raise OverflowError.
Proof.
  destruct v; cbn [in_float_range]; intro Hv; try (exfalso; apply Hv; exact I).
  cbn [py_float]. unfold float_of_int.
  destruct (2 ^ 1024 - 2 ^ 970 <=? Z.abs z)%Z eqn:E; [reflexivity |].
  apply Z.leb_gt in E. contradiction.
Qed.

Lemma in_float_range_dec (v : json) : in_float_range v \/ ~ in_float_range v.
Proof.
  destruct v; cbn [in_float_range]; auto.
  destruct (Z_lt_ge_dec (Z.abs z) (2 ^ 1024 - 2 ^ 970)); [left | right]; lia.
Qed.

Lemma try_float_returns (v : json) (q : Q) :
  try_except (py_float v) [TypeError; ValueError] (Ok 2.0) = Ok q -> in_float_range v.
Proof.
  intro E. destruct (in_float_range_dec v) as [Hv | Hv]; [exact Hv |].
  rewrite (py_float_out_of_range v Hv) in E. discriminate E.
Qed.

Lemma normalize_point_returns (pt : json) (r : option json) :
  normalize_point pt = Ok r -> point_usable pt.
Proof.
  unfold normalize_point, point_usable, field.
  destruct pt as [| b | z | q | s | l | d]; try (intros; exact I).
  cbn [py_getitem].
  destruct (dict_lookup "temperature" d) as [t0 |];
    [| intros _; split; [exact I | discriminate]].
  cbn [rbind].
  destruct (in_float_range_dec t0) as [Ht | Ht];
    [| rewrite (py_float_out_of_range t0 Ht); discriminate].
  destruct (py_float t0) as [t | e]; [| intros _; split; [exact Ht | discriminate]].
  cbn [rbind].
  destruct (dict_lookup "speed" d) as [s0 |];
    [| intros _; split; [exact Ht | intros; exact I]].
  cbn [rbind].
  destruct (in_float_range_dec s0) as [Hs | Hs];
    [| rewrite (py_float_out_of_range s0 Hs); discriminate].
  intros _. split; [exact Ht | intros; exact Hs].
Qed.

Lemma py_iter_returns (v : json) (l : list json) :
  py_iter v = Ok l -> iterable v /\ elements v = l.
Proof.
  unfold elements. intro E. rewrite E. split; [| reflexivity].
  destruct v; cbn [py_iter] in E; try discriminate; exact I.
Qed.

Lemma normalize_entry_returns (top : list (string * json)) (entry : json)
    (r : option json) :
  normalize_entry (JDict top) entry = Ok r -> entry_usable top entry.
Proof.
  unfold normalize_entry. intro E.
  destruct entry as [| b | z | q | s | l | d]; try discriminate E.
  exists d. split; [reflexivity |]. intros g f Hg Hf.
  rewrite entry_indices_run, Hg, Hf in E. cbn [rbind] in E.
  change (py_get (JDict d) "curve" JNull) with (Ok (field "curve" d JNull)) in E.
  cbn [rbind] in E. cbv zeta in E.
  set (c0 := field "curve" d JNull) in *.
  destruct (py_iter (if truthy c0 then c0 else DEFAULT_CURVE)) as [points |] eqn:Ei;
    [| discriminate E].
  cbn [rbind] in E.
  destruct (collect normalize_point points) as [curve |] eqn:Ec; [| discriminate E].
  cbn [rbind] in E.
  change (py_get (JDict top) "hysteresis" DEFAULT_hysteresis)
    with (Ok (field "hysteresis" top (JFloat 2.0))) in E.
  cbn [rbind] in E.
  change (py_get (JDict d) "hysteresis" (field "hysteresis" top (JFloat 2.0)))
    with (Ok (field "hysteresis" d (field "hysteresis" top (JFloat 2.0)))) in E.
  cbn [rbind] in E.
  destruct (try_except _ _ _) as [h |] eqn:Eh; [| discriminate E].
  split; [| apply (try_float_returns _ h Eh)].
  intro Ht. rewrite Ht in Ei. destruct (py_iter_returns _ _ Ei) as [Hiter ->].
  split; [exact Hiter |].
  apply collect_returns in Ec. eapply Forall_impl; [| exact Ec].
  intros pt [r' Hr']. apply (normalize_point_returns pt r' Hr').
Qed.

Lemma normalize_config_returns (raw cfg : json) :
  normalize_config raw = Ok cfg -> usable_snapshot raw.
Proof.
  unfold normalize_config, deep_copy_config. cbv zeta. intro E.
  destruct raw as [| b | z | q | s | l | top]; try discriminate E.
  exists top. split; [reflexivity |].
  change (py_get (JDict top) "poll_interval" DEFAULT_poll_interval)
    with (Ok (field "poll_interval" top (JFloat 2.0))) in E.
  cbn [rbind] in E.
  destruct (try_except _ _ _) as [p |] eqn:Ep; [| discriminate E].
  cbn [rbind] in E. split; [apply (try_float_returns _ p Ep) |].
  change (py_get (JDict top) "profiles" JNull)
    with (Ok (field "profiles" top JNull)) in E.
  cbn [rbind] in E.
  assert (Hinput :
            match field "profiles" top JNull with
            | JList ((_ :: _) as l) => Ok l
            | _ =>
                rbind (py_get (JDict top) "gpu_index" DEFAULT_gpu_index) (fun g =>
                rbind (py_get (JDict top) "fan_index" DEFAULT_fan_index) (fun f =>
                rbind (py_get (JDict top) "curve" DEFAULT_CURVE) (fun c =>
                rbind (py_get (JDict top) "hysteresis" DEFAULT_hysteresis) (fun h =>
                Ok [profile_dict g f c h]))))
            end = Ok (profile_entries top)).
  { unfold profile_entries, field.
    destruct (dict_lookup "profiles" top) as [[| | | | | [| e l] |] |]; reflexivity. }
  rewrite Hinput in E. cbn [rbind] in E.
  destruct (collect (normalize_entry (JDict top)) (profile_entries top))
    as [ps |] eqn:Ec; [| discriminate E].
  apply collect_returns in Ec. eapply Forall_impl; [| exact Ec].
  intros e [r Hr]. apply (normalize_entry_returns top e r Hr).
Qed.
End NormalizeRuns.

(** C8, as the code has it.  On a snapshot dict whose entries are
    dicts, whose curves can be iterated and whose poll interval,
    hysteresis, temperatures and speeds are no ints beyond the range of
    a double (curves and numbers that are looked at: those of the
    entries with numeric indices), [normalize_config] returns without
    raising, and it returns [normalized_snapshot]: the poll interval and a hysteresis
    that are missing or no number fall back to 2.0; an entry whose
    [gpu_index] or [fan_index] is no number and a curve point whose
    temperature or speed is no number are dropped; the curves are
    sorted by temperature with the speeds clamped to [[0, 100]], and
    are the default curve when no point is kept; a missing, non-list or
    empty profile list is replaced by one entry read from the top-level
    keys; the default profile stands in when every entry is dropped;
    and the poll interval is at least 0.5.  On no other input does
    [normalize_config] return. *)
Theorem normalize_config_returns_on_usable_snapshots `{PyBuiltins} (raw : json) :
  (usable_snapshot raw ->
   exists top,
     raw = JDict top /\
     normalize_config raw = Ok (normalized_snapshot top) /\
     normalized_config (normalized_snapshot top)) /\
  (forall cfg, normalize_config raw = Ok cfg -> usable_snapshot raw).
Proof.
  split; [| intros cfg; apply normalize_config_returns].
  intro Hraw. destruct Hraw as (top & -> & Hrest).
  assert (Hrun : normalize_config (JDict top) = Ok (normalized_snapshot top)).
  { apply normalize_config_run. exists top. split; [reflexivity | exact Hrest]. }
  exists top. split; [reflexivity |]. split; [exact Hrun |].
  apply (normalize_config_normalized (JDict top)). exact Hrun.
Qed.

Lemma normalize_config_returns_on_usable_snapshots_witness :
  @normalize_config no_numeric_strings
    untidy_config =
  Ok (config_dict
        (JFloat 2.0)
        (JList [profile_dict (JInt 1) (JInt 0)
                  (JList [curve_point (JFloat 30) (JFloat 0.0);
                          curve_point (JFloat 50) (JFloat 100.0)])
                  (JFloat 3)])).
Proof.
  destruct (@normalize_config_returns_on_usable_snapshots no_numeric_strings
              untidy_config) as [Hreturns _].
  destruct Hreturns as (top & Htop & Hrun & _).
  - eexists. split; [reflexivity |]. split; [exact I |].
    cbn [profile_entries dict_lookup String.eqb Ascii.eqb Bool.eqb].
    constructor; [| constructor; [| constructor]].
    + eexists. split; [reflexivity |]. intros g f Hg. discriminate Hg.
    + eexists. split; [reflexivity |]. intros g f _ _. split; [| reflexivity].
      intros _. split; [exact I |].
      unfold elements. cbn [field dict_lookup String.eqb Ascii.eqb Bool.eqb py_iter].
      repeat (apply Forall_cons;
              [first [exact I
                     | split; [first [exact I | reflexivity]
                              | intros; first [exact I | reflexivity]]] |]).
      apply Forall_nil.
  - rewrite Hrun. injection Htop as <-. reflexivity.
Defined.

(** C8 as stated fails: an empty profile list is not replaced by the
    default profile but by one profile read from the top-level keys of
    the snapshot. *)
Lemma empty_profile_list_reads_top_level_keys :
  ~ (forall d : list (string * json),
        dict_lookup "profiles" d = Some (JList []) ->
        exists cfg ps,
          @normalize_config no_numeric_strings (JDict d) = Ok cfg /\
          py_getitem cfg "profiles" = Ok ps /\
          json_eq ps (JList [DEFAULT_PROFILE]) = true).
Proof.
  intro Hclaim.
  destruct (Hclaim [("profiles", JList []); ("gpu_index", JInt 3)] eq_refl)
    as (cfg & ps & Hcfg & Hps & Heq).
  vm_compute in Hcfg. injection Hcfg as <-.
  vm_compute in Hps. injection Hps as <-.
  vm_compute in Heq. discriminate.
Qed.

(** The same call raises on a profile entry that is no dict, on a
    curve that is a number, and on a poll interval that is an int too
    large for a float: [AttributeError], the [TypeError] of the loop
    header and [OverflowError] are not among the exceptions the code
    catches. *)
Example normalize_config_raises_on_non_dict_entry :
  @normalize_config no_numeric_strings (JDict [("profiles", JList [JInt 1])]) =
    Raise AttributeError /\
  @normalize_config no_numeric_strings (JDict [("curve", JInt 5)]) =
    Raise TypeError /\
  @normalize_config no_numeric_strings (JDict [("poll_interval", JInt (10 ^ 400))]) =
    Raise OverflowError.
Proof. repeat split; vm_compute; reflexivity. Qed.

(** ** Normalizing twice *)

Lemma number_value_num_value (v : json) (x : Q) :
  number_value v = Some x -> num_value v = Some x.
Proof.
  intro Hv. destruct (number_value_cases v x Hv) as [(z & -> & _ & ->) | ->];
    reflexivity.
Qed.

Lemma py_float_number `{PyBuiltins} (v : json) (x : Q) :
  number_value v = Some x -> py_float v = Ok x.
Proof.
  intro Hv. destruct (number_value_cases v x Hv) as [(z & -> & Hz & ->) | ->];
    [apply float_of_int_small; exact Hz | reflexivity].
Qed.

Lemma temperature_key_curve_point (tv sv : json) :
  temperature_key (curve_point tv sv) =
  match num_value tv with Some q => q | None => 0 end.
Proof. reflexivity. Qed.

Lemma collect_map {A : Type} (body : json -> result (option A))
    (R : A -> json -> Prop) (l : list json) :
  Forall (fun x => exists y, body x = Ok (Some y) /\ R y x) l ->
  exists ys, collect body l = Ok ys /\ Forall2 R ys l.
Proof.
  induction 1 as [| x rest (y & Hy & Hr) Hrest (ys & Hys & Hall)].
  - exists []. split; [reflexivity | constructor].
  - exists (y :: ys). cbn [collect]. rewrite Hy, Hys. cbn [rbind].
    split; [reflexivity | constructor; assumption].
Qed.

Lemma Forall2_same_point_Sorted (l' l : list json) :
  Forall2 same_point l' l ->
  Sorted (key_le temperature_key) l -> Sorted (key_le temperature_key) l'.
Proof.
  induction 1 as [| a' a r' r Ha Hr IH]; intro S; [constructor |].
  inversion S as [| ? ? Sr Hd]; subst. constructor; [apply IH; exact Sr |].
  destruct Hr as [| b' b r2' r2 Hb Hr2]; [constructor |].
  inversion Hd as [| ? ? Hab]; subst. constructor.
  unfold key_le in *. destruct Ha as [_ Ka]. destruct Hb as [_ Kb].
  rewrite Ka, Kb. exact Hab.
Qed.

Lemma Forall2_json_eq_list (R : json -> json -> Prop) (l' l : list json) :
  (forall a b, R a b -> json_eq a b = true) ->
  Forall2 R l' l -> json_eq (JList l') (JList l) = true.
Proof.
  intro HR. induction 1 as [| a' a r' r Ha Hr IH]; [reflexivity |].
  rewrite json_eq_list_cons, (HR _ _ Ha), IH. reflexivity.
Qed.

Section NormalizeTwice.
Context `{PyBuiltins}.

Lemma normalize_point_again (pt : json) :
  normalized_point pt ->
  exists pt', normalize_point pt = Ok (Some pt') /\ same_point pt' pt.
Proof.
  intros (tv & sv & t & s & -> & Ht & Hs & Hrange).
  exists (curve_point (JFloat t) (JFloat (py_max 0.0 (py_min 100.0 s)))).
  split.
  - unfold normalize_point.
    change (py_getitem (curve_point tv sv) "temperature") with (Ok tv).
    change (py_getitem (curve_point tv sv) "speed") with (Ok sv).
    cbn [rbind]. rewrite (py_float_number tv t Ht), (py_float_number sv s Hs).
    reflexivity.
  - split.
    + rewrite json_eq_curve_point.
      rewrite (json_eq_number tv t t Ht) by reflexivity.
      rewrite (json_eq_number sv s _ Hs); [reflexivity |].
      apply (clamp_bounds 0.0 100.0 s); lra.
    + rewrite !temperature_key_curve_point.
      rewrite (number_value_num_value tv t Ht). reflexivity.
Qed.

Lemma profile_dict_indices (g f : Z) (c h : json) :
  entry_indices (profile_dict (JInt g) (JInt f) c h) = Ok (Some (g, f)).
Proof. reflexivity. Qed.

Lemma normalize_entry_again (dc : list (string * json)) (e : json) :
  normalized_profile e ->
  exists e', normalize_entry (JDict dc) e = Ok (Some e') /\ json_eq e' e = true.
Proof.
  intros (g & f & pts & h & -> & Hne & Hpts & Hsorted).
  destruct (collect_map normalize_point same_point pts) as (pts' & Hcollect & Hsame).
  { eapply Forall_impl; [| exact Hpts]. apply normalize_point_again. }
  assert (Hne' : pts' <> []).
  { intros ->. inversion Hsame; subst. congruence. }
  exists (profile_dict (JInt g) (JInt f) (JList pts') (JFloat h)).
  split.
  - unfold normalize_entry. rewrite profile_dict_indices. cbn [rbind].
    change (py_get (profile_dict (JInt g) (JInt f) (JList pts) (JFloat h))
                   "curve" JNull) with (Ok (JList pts)).
    cbn [rbind]. cbv zeta.
    assert (Ht : truthy (JList pts) = true) by (destruct pts; [congruence | reflexivity]).
    rewrite Ht. cbn [py_iter rbind]. rewrite Hcollect. cbn [rbind py_get].
    replace (match pts' with
             | [] => json_items (deep_copy_config DEFAULT_CURVE)
             | _ :: _ => pts'
             end) with pts' by (destruct pts'; [congruence | reflexivity]).
    rewrite (sorted_fixpoint temperature_key pts')
      by (apply (Forall2_same_point_Sorted pts' pts); assumption).
    match goal with
    | |- context [py_get (profile_dict ?a ?b ?c ?d) "hysteresis" ?x] =>
        change (py_get (profile_dict a b c d) "hysteresis" x) with (Ok d)
    end.
    reflexivity.
  - rewrite json_eq_profile_dict.
    rewrite (Forall2_json_eq_list same_point pts' pts) by (auto; intros a b [E _]; exact E).
    cbn. rewrite !Qeq_bool_refl. reflexivity.
Qed.

Lemma normalize_config_again (cfg : json) :
  normalized_config cfg ->
  exists cfg', normalize_config cfg = Ok cfg' /\ json_eq cfg' cfg = true.
Proof.
  intros (p & ps & -> & Hp & Hne & Hps).
  destruct (collect_map (normalize_entry (config_dict (JFloat p) (JList ps)))
              (fun a b => json_eq a b = true) ps) as (ps' & Hcollect & Hsame).
  { eapply Forall_impl; [| exact Hps].
    intros e He. apply (normalize_entry_again _ e He). }
  assert (Hne' : ps' <> []).
  { intros ->. inversion Hsame; subst. congruence. }
  exists (config_dict (JFloat (py_max 0.5 p)) (JList ps')).
  split.
  - unfold normalize_config, deep_copy_config. cbv zeta.
    change (py_get (config_dict (JFloat p) (JList ps)) "poll_interval"
                   DEFAULT_poll_interval) with (Ok (JFloat p)).
    change (py_get (config_dict (JFloat p) (JList ps)) "profiles" JNull)
      with (Ok (JList ps)).
    cbn [rbind py_float try_except].
    destruct ps as [| e l]; [congruence |]. cbn [rbind].
    rewrite Hcollect. cbn [rbind].
    destruct ps' as [| e' l']; [congruence | reflexivity].
  - rewrite json_eq_config_dict.
    rewrite (Forall2_json_eq_list _ ps' ps (fun a b E => E) Hsame).
    rewrite andb_true_r. cbn. apply Qeq_bool_iff.
    destruct (py_max_spec 0.5 p) as [[L ->] | [L ->]]; lra.
Qed.
End NormalizeTwice.

(** C5.  Whenever [normalize_config] returns a snapshot, normalizing
    that snapshot returns one that Python's [==] finds equal to it. *)
Theorem normalize_config_idempotent `{PyBuiltins} (raw cfg : json) :
  normalize_config raw = Ok cfg ->
  exists cfg', normalize_config cfg = Ok cfg' /\ json_eq cfg' cfg = true.
Proof.
  intro E. apply normalize_config_again.
  apply (normalize_config_normalized raw). exact E.
Qed.

Lemma normalize_config_idempotent_witness :
  exists cfg cfg',
    @normalize_config no_numeric_strings
      (JDict [("profiles", JList []); ("hysteresis", JFloat (-3))]) = Ok cfg /\
    py_getitem cfg "profiles" =
      Ok (JList [profile_dict (JInt 0) (JInt 0)
                   (JList [curve_point (JFloat 30) (JFloat 25);
                           curve_point (JFloat 40) (JFloat 35);
                           curve_point (JFloat 50) (JFloat 45);
                           curve_point (JFloat 60) (JFloat 60);
                           curve_point (JFloat 70) (JFloat 75);
                           curve_point (JFloat 80) (JFloat 90)])
                   (JFloat (-3))]) /\
    @normalize_config no_numeric_strings cfg = Ok cfg' /\
    json_eq cfg' cfg = true.
Proof.
  eexists.
  destruct (@normalize_config_idempotent no_numeric_strings
              (JDict [("profiles", JList []); ("hysteresis", JFloat (-3))]) _ eq_refl)
    as (cfg' & Hagain & Heq).
  exists cfg'. repeat split; [exact Hagain | exact Heq].
Defined.

(** * Further properties of the code *)

(** ** The cycle: isolation and what it may touch *)

Lemma apply_speed_run `{Environment}
    (profile : ManagedProfile.t) (target_speed temp : Q) (w : World) :
  let v := py_max 10.0 (py_min 100.0 target_speed) in
  10 <= v <= 100 /\
  (10 <= c_uint (py_round v) <= 100)%Z /\
  FanManager.apply_speed target_speed temp (profile, w) =
    (if nvml_set_fan_speed w (session_of profile) (c_uint (py_round v))
     then (Ok tt, (ManagedProfile.set_last v temp profile,
                   EvSetFanSpeed (session_of profile) v (c_uint (py_round v)) :: w))
     else (Raise NvmlError,
           (profile, EvSetFanSpeed (session_of profile) v (c_uint (py_round v)) :: w))).
Proof.
  intro v.
  assert (Hv : 10 <= v <= 100).
  { destruct (clamp_bounds 10.0 100.0 target_speed) as [B _]; [lra |].
    fold v in B. lra. }
  split; [exact Hv |]. split.
  - pose proof (py_round_bounds 10 100 v Hv). unfold c_uint.
    rewrite Z.mod_small; lia.
  - unfold FanManager.apply_speed, sbind, get_obj, in_world, modify_obj,
      NvmlController.set_fan_speed, session_of.
    cbv beta iota delta [fst snd]. fold v.
    destruct (nvml_set_fan_speed w _ _); reflexivity.
Qed.

Lemma value_total (c : FanCurve.t) (temp : Q) :
  FanCurve._points c <> [] ->
  exists p, In p (FanCurve._points c) /\ FanCurve.value c temp = Ok (speed p).
Proof.
  intro Hne. unfold FanCurve.value.
  destruct (FanCurve._points c) as [| p0 rest] eqn:E; [congruence |].
  destruct (value_loop_choice (p0 :: rest) temp (speed p0)) as [-> | (q & I & ->)].
  - exists p0. split; [left; reflexivity | reflexivity].
  - exists q. split; [exact I | reflexivity].
Qed.

Lemma temperature_reads_app (a b : list Event) :
  temperature_reads (a ++ b) = temperature_reads a ++ temperature_reads b.
Proof.
  induction a as [| e r IH]; [reflexivity |].
  destruct e; cbn [app temperature_reads]; rewrite IH; reflexivity.
Qed.

Lemma open_sessions_cycle_events (evs : list Event) (w : World) :
  Forall cycle_event evs -> open_sessions (evs ++ w) = open_sessions w.
Proof.
  induction 1 as [| e r He Hr IH]; [reflexivity |].
  destruct e; cbn [cycle_event] in He; try contradiction; exact IH.
Qed.

Section Cycle.
Context `{Environment}.

(** One pass of the loop: what it returns, what it logs, what it does
    to the profile. *)
Lemma loop_body_run (p : ManagedProfile.t) (w : World) :
  exists r p' evs,
    FanManager.loop_body (p, w) = (r, (p', evs ++ w)) /\
    cycled p' p /\
    Forall cycle_event evs /\
    temperature_reads evs = [session_of p] /\
    (nvml_temperature w (session_of p) = None -> p' = p) /\
    (FanCurve._points (ManagedProfile.curve p) <> [] -> r = Ok tt).
Proof.
  assert (Hread : Forall cycle_event [EvGetTemperature (session_of p)])
    by (constructor; [exact I | constructor]).
  unfold FanManager.loop_body, s_try_except, sbind, get_obj, in_world, sret,
    NvmlController.get_temperature.
  cbv beta iota delta [fst snd]. fold (session_of p).
  destruct (nvml_temperature w (session_of p)) as [v |].
  2: { exists (Ok tt), p, [EvGetTemperature (session_of p)].
       split; [reflexivity |]. split; [left; reflexivity |].
       split; [exact Hread |]. split; [reflexivity |]. split; auto. }
  unfold FanManager.regulate, sbind, get_obj, lift_result, sret.
  cbv beta iota delta [fst snd].
  destruct (FanCurve.value (ManagedProfile.curve p) (inject_Z v))
    as [target | e] eqn:Ev.
  2: { exists (if exn_eqb NvmlError e then Ok tt else Raise e), p,
         [EvGetTemperature (session_of p)].
       split; [destruct (exn_eqb NvmlError e); reflexivity |].
       split; [left; reflexivity |]. split; [exact Hread |].
       split; [reflexivity |]. split; [discriminate |].
       intro Hne. destruct (value_total _ (inject_Z v) Hne) as (q & _ & E).
       congruence. }
  destruct (FanManager.should_apply p target).
  2: { exists (Ok tt), p, [EvGetTemperature (session_of p)].
       split; [reflexivity |]. split; [left; reflexivity |].
       split; [exact Hread |]. split; [reflexivity |]. split; [discriminate | auto]. }
  destruct (apply_speed_run p target (inject_Z v)
              (EvGetTemperature (session_of p) :: w)) as (Hv & Hn & ->).
  set (c := py_max 10.0 (py_min 100.0 target)) in *.
  assert (Hset : Forall cycle_event
                   [EvSetFanSpeed (session_of p) c (c_uint (py_round c));
                    EvGetTemperature (session_of p)]).
  { constructor; [split; assumption | exact Hread]. }
  destruct (nvml_set_fan_speed _ _ _).
  - exists (Ok tt), (ManagedProfile.set_last c (inject_Z v) p),
      [EvSetFanSpeed (session_of p) c (c_uint (py_round c));
       EvGetTemperature (session_of p)].
    split; [reflexivity |].
    split; [right; exists c, (inject_Z v); split; [exact Hv | reflexivity] |].
    split; [exact Hset |]. split; [reflexivity |]. split; [discriminate | auto].
  - cbn [exn_eqb].
    exists (Ok tt), p,
      [EvSetFanSpeed (session_of p) c (c_uint (py_round c));
       EvGetTemperature (session_of p)].
    split; [reflexivity |]. split; [left; reflexivity |].
    split; [exact Hset |]. split; [reflexivity |]. split; [discriminate | auto].
Qed.

Lemma for_each_loop_body_run (ps : list ManagedProfile.t) (w : World) :
  exists r ps' evs,
    for_each FanManager.loop_body ps w = (r, (ps', evs ++ w)) /\
    Forall2 cycled ps' ps /\
    Forall cycle_event evs /\
    (Forall (fun p => FanCurve._points (ManagedProfile.curve p) <> []) ps ->
     r = Ok tt /\ temperature_reads evs = rev (map session_of ps)).
Proof.
  revert w. induction ps as [| p rest IH]; intro w.
  - exists (Ok tt), [], []. repeat split; constructor.
  - cbn [for_each].
    destruct (loop_body_run p w) as (r & p' & evs & -> & Hc & He & Hreads & _ & Hok).
    destruct r as [u | e].
    + destruct (IH (evs ++ w)) as (r2 & rest' & evs2 & -> & Hc2 & He2 & Hall).
      exists r2, (p' :: rest'), (evs2 ++ evs). rewrite <- app_assoc.
      split; [reflexivity |]. split; [constructor; assumption |].
      split; [apply Forall_app; split; assumption |].
      intro Hne. inversion Hne as [| ? ? Hp Hrest]; subst.
      destruct (Hall Hrest) as [-> Hr2]. split; [reflexivity |].
      rewrite temperature_reads_app, Hreads, Hr2. reflexivity.
    + exists (Raise e), (p' :: rest), evs.
      split; [reflexivity |]. split.
      * constructor; [exact Hc |].
        clear. induction rest; constructor; [left; reflexivity | assumption].
      * split; [exact He |]. intro Hne. inversion Hne as [| ? ? Hp Hrest]; subst.
        specialize (Hok Hp). discriminate.
Qed.
End Cycle.

Section Passes.
Context `{Environment}.


End Passes.



(** X2.  Whatever the profiles and the driver, [loop_once] only reads
    temperatures and commands speeds, and every speed it commands, and
    the integer sent for it, lies in [[10, 100]]; it opens no session,
    closes none and never restores automatic control. *)
Theorem loop_once_commands_stay_in_range `{Environment} (m : FanManager.t) (w : World) :
  exists evs,
    snd (snd (FanManager.loop_once (m, w))) = evs ++ w /\
    Forall cycle_event evs /\
    open_sessions (evs ++ w) = open_sessions w.
Proof.
  unfold FanManager.loop_once. cbv beta iota zeta delta [fst snd].
  destruct (FanManager.profiles m) as [| p rest] eqn:Eps.
  - exists []. repeat split. constructor.
  - destruct (for_each_loop_body_run (p :: rest) w)
      as (r & ps' & evs & -> & _ & He & _).
    exists evs. split; [reflexivity |]. split; [exact He |].
    apply open_sessions_cycle_events. exact He.
Qed.

(** ** Building profiles *)

Lemma increasing_from_NoDup (n : nat) (ds : list nat) :
  increasing_from n ds -> NoDup ds.
Proof.
  revert n. induction ds as [| d r IH]; intros n; simpl; [constructor |].
  intros [_ Hr]. constructor; [| exact (IH _ Hr)].
  intro I. pose proof (increasing_from_ge _ _ Hr) as G.
  rewrite Forall_forall in G. specialize (G d I). lia.
Qed.

Section BuildFacts.
Context `{PyBuiltins} `{Environment}.

Lemma build_loop_ok (entries : list json) :
  forall (acc : list ManagedProfile.t) (w : World) u ps w',
    build_loop entries acc w = (Ok u, (ps, w')) ->
    exists new,
      ps = acc ++ new /\
      List.length new = List.length entries /\
      Forall fresh_profile new /\
      open_sessions w' = rev (map session_of new) ++ open_sessions w /\
      increasing_from (List.length w) (map session_of new).
Proof.
  induction entries as [| entry rest IH]; intros acc w u ps w'; cbn [build_loop].
  - intros [= <- <- <-]. exists []. rewrite app_nil_r.
    split; [reflexivity |]. split; [reflexivity |]. split; [constructor |].
    split; [reflexivity | exact I].
  - destruct (build_profile_world entry w)
      as [(p & gpu & fan & -> & Hd & Hl & Ht) | (e & w1 & -> & Ho)];
      [| discriminate].
    intro Hrest. apply IH in Hrest.
    destruct Hrest as (new & -> & Hlen & Hfresh & Hopen & Hinc).
    exists (p :: new). rewrite <- app_assoc. split; [reflexivity |].
    split; [cbn [List.length]; congruence |].
    split; [constructor; [split; assumption | exact Hfresh] |].
    assert (Hs : session_of p = List.length w) by exact Hd.
    cbn [map rev open_sessions List.length increasing_from] in *.
    rewrite <- app_assoc. cbn [app]. rewrite Hs.
    split; [exact Hopen |]. split; [lia | exact Hinc].
Qed.

Lemma point_from_dict_normalized (pt : json) :
  normalized_point pt ->
  exists cp, point_from_dict pt = Ok (Some cp) /\ point_of cp pt.
Proof.
  intros (tv & sv & t & s & -> & Ht & Hs & Hrange).
  exists (mkCurvePoint t s). split.
  - unfold point_from_dict.
    change (py_getitem (curve_point tv sv) "temperature") with (Ok tv).
    change (py_getitem (curve_point tv sv) "speed") with (Ok sv).
    cbn [rbind]. rewrite (py_float_number tv t Ht), (py_float_number sv s Hs).
    reflexivity.
  - exists tv, sv. cbn [temperature speed].
    split; [reflexivity |]. split; [exact Ht |]. split; [exact Hs | exact Hrange].
Qed.

(** The curve of a normalized profile is accepted by
    [FanCurve.from_dicts], and its speeds stay in [[0, 100]]. *)
Lemma from_dicts_normalized (pts : list json) :
  pts <> [] -> Forall normalized_point pts ->
  exists c, FanCurve_from_dicts (JList pts) = Ok c /\ curve_in_range c.
Proof.
  intros Hne Hpts.
  destruct (collect_map point_from_dict point_of pts) as (cps & Hcollect & Hrel).
  { eapply Forall_impl; [| exact Hpts]. apply point_from_dict_normalized. }
  assert (Hcps : cps <> [] /\ Forall (fun p => 0 <= speed p <= 100) cps).
  { split.
    - intros ->. inversion Hrel; subst. congruence.
    - clear Hcollect Hne Hpts. induction Hrel as [| cp pt r r' Hp Hr IH];
        constructor; [| exact IH].
      destruct Hp as (? & ? & _ & _ & _ & Hs). exact Hs. }
  destruct Hcps as [Hcne Hrange].
  exists (FanCurve.mk (sorted temperature cps)). split.
  - unfold FanCurve_from_dicts. cbn [py_iter rbind]. rewrite Hcollect. cbn [rbind].
    unfold FanCurve.init. destruct cps; [congruence | reflexivity].
  - split; cbn [FanCurve._points].
    + apply sorted_nonempty. exact Hcne.
    + apply Forall_sorted. exact Hrange.
Qed.

Lemma build_profile_normalized (entry : json) (w : World) :
  normalized_profile entry ->
  (exists p gpu fan,
      build_profile entry w = (Ok p, EvOpen (List.length w) gpu fan :: w) /\
      curve_in_range (ManagedProfile.curve p)) \/
  (exists w', build_profile entry w = (Raise NvmlError, w')).
Proof.
  intros (g & f & pts & h & -> & Hne & Hpts & _).
  destruct (from_dicts_normalized pts Hne Hpts) as (c & Hc & Hrange).
  unfold build_profile.
  change (py_get (profile_dict (JInt g) (JInt f) (JList pts) (JFloat h))
                 "gpu_index" DEFAULT_gpu_index) with (Ok (JInt g)).
  change (py_get (profile_dict (JInt g) (JInt f) (JList pts) (JFloat h))
                 "fan_index" DEFAULT_fan_index) with (Ok (JInt f)).
  change (py_get (profile_dict (JInt g) (JInt f) (JList pts) (JFloat h))
                 "curve" DEFAULT_CURVE) with (Ok (JList pts)).
  change (py_get (profile_dict (JInt g) (JInt f) (JList pts) (JFloat h))
                 "hysteresis" DEFAULT_hysteresis) with (Ok (JFloat h)).
  repeat (rewrite sbind_lift_result; cbn [py_int py_float]; rewrite ?Hc;
          cbv beta iota).
  unfold sbind, sret, NvmlController.init.
  destruct (nvml_init w); [cbv zeta; destruct (nvml_open _ g f) |].
  - left. do 3 eexists. split; [reflexivity | exact Hrange].
  - right. eexists. reflexivity.
  - right. eexists. reflexivity.
Qed.

Lemma build_loop_normalized (entries : list json) :
  Forall normalized_profile entries ->
  forall (acc : list ManagedProfile.t) (w : World) r ps w',
    build_loop entries acc w = (r, (ps, w')) ->
    match r with Raise e => e = NvmlError | Ok _ => True end /\
    exists new,
      ps = acc ++ new /\
      Forall (fun p => curve_in_range (ManagedProfile.curve p)) new.
Proof.
  induction 1 as [| entry rest He Hrest IH]; intros acc w r ps w'; cbn [build_loop].
  - intros [= <- <- <-]. split; [exact I |]. exists []. rewrite app_nil_r. auto.
  - destruct (build_profile_normalized entry w He)
      as [(p & gpu & fan & -> & Hc) | (w1 & ->)].
    + intro E. apply IH in E. destruct E as (Hr & new & -> & Hnew).
      split; [exact Hr |]. exists (p :: new). rewrite <- app_assoc.
      split; [reflexivity | constructor; assumption].
    + intros [= <- <- <-]. split; [reflexivity |]. exists []. rewrite app_nil_r. auto.
Qed.

Lemma load_config_normalized (path : string) (w w1 : World) (cfg : json) :
  load_config path w = (Ok cfg, w1) -> normalized_config cfg.
Proof.
  unfold load_config. intros [= E _].
  destruct (read_json w path) as [[raw | e] |].
  - apply (normalize_config_normalized raw). exact E.
  - discriminate.
  - injection E as <-. exists 2.0, [DEFAULT_PROFILE].
    split; [reflexivity |]. split; [lra |]. split; [discriminate |].
    constructor; [apply default_profile_normalized | constructor].
Qed.

Lemma build_normalized (cfg : json) (w : World) :
  normalized_config cfg ->
  match build_managed_profiles cfg w with
  | (Raise e, _) => e = NvmlError
  | (Ok ps, _) => Forall (fun p => curve_in_range (ManagedProfile.curve p)) ps
  end.
Proof.
  intros (p & entries & -> & _ & _ & Hentries).
  unfold build_managed_profiles.
  change (py_get (config_dict (JFloat p) (JList entries)) "profiles" (JList []))
    with (Ok (JList entries)).
  cbn [rbind py_iter].
  destruct (build_loop entries [] w) as [r [ps w']] eqn:Hloop.
  destruct (build_loop_normalized entries Hentries _ _ _ _ _ Hloop)
    as (Hr & new & -> & Hnew).
  destruct r as [u | e]; [exact Hnew |].
  rewrite for_each_close. exact Hr.
Qed.
Lemma build_sessions (cfg : json) (w w1 : World) (ps : list ManagedProfile.t) :
  build_managed_profiles cfg w = (Ok ps, w1) ->
  open_sessions w1 = rev (map session_of ps) ++ open_sessions w /\
  increasing_from (List.length w) (map session_of ps).
Proof.
  unfold build_managed_profiles.
  destruct (rbind _ _) as [entries | e0]; [| discriminate].
  destruct (build_loop entries [] w) as [[u | e] [ps0 w0]] eqn:Hloop.
  - intros [= <- <-]. apply build_loop_ok in Hloop.
    destruct Hloop as (new & -> & _ & _ & Hopen & Hinc). cbn [app]. auto.
  - destruct (for_each _ _ _) as [[u | e'] [ps1 w2]]; discriminate.
Qed.
End BuildFacts.

(** X3.  When [build_managed_profiles] succeeds it has built one
    profile per entry of the snapshot's profile list, each with nothing
    applied yet, so that its first cycle passes the gate for any target;
    each profile has a session of its own, and these sessions are
    exactly what the call has added to the open ones. *)
Theorem build_opens_one_session_per_entry `{PyBuiltins} `{Environment}
    (cfg : json) (w w' : World) (ps : list ManagedProfile.t) :
  build_managed_profiles cfg w = (Ok ps, w') ->
  exists entries,
    rbind (py_get cfg "profiles" (JList [])) py_iter = Ok entries /\
    List.length ps = List.length entries /\
    Forall fresh_profile ps /\
    (forall p target, In p ps -> FanManager.should_apply p target = true) /\
    NoDup (map session_of ps) /\
    open_sessions w' = rev (map session_of ps) ++ open_sessions w.
Proof.
  unfold build_managed_profiles.
  destruct (rbind _ _) as [entries | e0]; [| discriminate].
  destruct (build_loop entries [] w) as [[u | e] [ps0 w0]] eqn:Hloop.
  - intros [= <- <-]. apply build_loop_ok in Hloop.
    destruct Hloop as (new & -> & Hlen & Hfresh & Hopen & Hinc). cbn [app].
    exists entries. split; [reflexivity |]. split; [exact Hlen |].
    split; [exact Hfresh |]. split.
    + intros p target I. rewrite Forall_forall in Hfresh.
      destruct (Hfresh p I) as [Hl _].
      unfold FanManager.should_apply. rewrite Hl. reflexivity.
    + split; [exact (increasing_from_NoDup _ _ Hinc) | exact Hopen].
  - destruct (for_each _ _ _) as [[u | e'] [ps1 w1]]; discriminate.
Qed.

Lemma build_opens_one_session_per_entry_witness :
  exists ps w',
    @build_managed_profiles no_numeric_strings obliging DEFAULT_CONFIG [] =
      (Ok ps, w') /\
    List.length ps = 1%nat /\ open_sessions w' = [0%nat].
Proof.
  destruct (@build_opens_one_session_per_entry no_numeric_strings obliging
              DEFAULT_CONFIG [] _ _ eq_refl)
    as (entries & He & Hlen & _ & _ & _ & Hopen).
  do 2 eexists. split; [reflexivity |]. split.
  - rewrite Hlen. injection He as <-. reflexivity.
  - exact Hopen.
Defined.

(** X4.  On a snapshot that [load_config] has returned,
    [build_managed_profiles] can only fail with [NvmlError]: nothing in
    the snapshot itself makes the build raise. *)
Theorem loaded_snapshot_fails_only_on_the_driver `{PyBuiltins} `{Environment}
    (path : string) (w w1 w2 : World) (cfg : json) (e : exn) :
  load_config path w = (Ok cfg, w1) ->
  build_managed_profiles cfg w1 = (Raise e, w2) ->
  e = NvmlError.
Proof.
  intros Hload Hbuild. apply load_config_normalized in Hload.
  pose proof (build_normalized cfg w1 Hload) as Hb.
  rewrite Hbuild in Hb. exact Hb.
Qed.

Lemma loaded_snapshot_fails_only_on_the_driver_witness :
  exists w2,
    @build_managed_profiles no_numeric_strings unplugged DEFAULT_CONFIG
      [EvReadConfig "config.json"] = (Raise NvmlError, w2).
Proof.
  destruct (@build_managed_profiles no_numeric_strings unplugged DEFAULT_CONFIG
              [EvReadConfig "config.json"]) as [[ps | e] w2] eqn:E.
  - vm_compute in E. discriminate E.
  - exists w2.
    rewrite (@loaded_snapshot_fails_only_on_the_driver no_numeric_strings unplugged
               "config.json" [] _ w2 DEFAULT_CONFIG e eq_refl E).
    reflexivity.
Defined.

(** X5.  Every profile built from a snapshot that [load_config] has
    returned has a curve on which [value] is defined at every
    temperature, with a result in [[0, 100]]. *)
Theorem built_profiles_evaluate_in_range `{PyBuiltins} `{Environment}
    (path : string) (w w1 w2 : World) (cfg : json) (ps : list ManagedProfile.t) :
  load_config path w = (Ok cfg, w1) ->
  build_managed_profiles cfg w1 = (Ok ps, w2) ->
  Forall (fun p => forall temp, exists v,
              FanCurve.value (ManagedProfile.curve p) temp = Ok v /\ 0 <= v <= 100) ps.
Proof.
  intros Hload Hbuild. apply load_config_normalized in Hload.
  pose proof (build_normalized cfg w1 Hload) as Hb.
  rewrite Hbuild in Hb. eapply Forall_impl; [| exact Hb].
  intros p [Hne Hrange] temp.
  destruct (value_total _ temp Hne) as (q & I & ->).
  exists (speed q). split; [reflexivity |].
  rewrite Forall_forall in Hrange. exact (Hrange q I).
Qed.

Lemma built_profiles_evaluate_in_range_witness :
  exists ps w2,
    @build_managed_profiles no_numeric_strings obliging DEFAULT_CONFIG
      [EvReadConfig "config.json"] = (Ok ps, w2) /\
    Forall (fun p => forall temp, exists v,
                FanCurve.value (ManagedProfile.curve p) temp = Ok v /\ 0 <= v <= 100) ps.
Proof.
  destruct (@build_managed_profiles no_numeric_strings obliging DEFAULT_CONFIG
              [EvReadConfig "config.json"]) as [[ps | e] w2] eqn:E.
  - exists ps, w2. split; [reflexivity |].
    exact (@built_profiles_evaluate_in_range no_numeric_strings obliging
             "config.json" [] _ w2 DEFAULT_CONFIG ps eq_refl E).
  - vm_compute in E. discriminate E.
Defined.

(** ** Reload keeps the manager or installs the new profiles *)

(** X19.  [reload_config] never raises and keeps the restore policy,
    the configuration path and the two flags.  When the snapshot cannot
    be loaded, or building the new profiles fails, the manager is
    exactly what it was (same profiles with their last state, same poll
    interval); a failed build has shut down every profile it had
    built, so that the sessions open afterwards are those open before
    it and at most the driver initialisation of the constructor that
    failed.  When the build succeeds, the old profiles are closed under
    the manager's restore policy, the manager's profiles are the new
    ones and its poll interval is the snapshot's, at least 0.5. *)
Theorem reload_keeps_or_installs `{PyBuiltins} `{Environment}
    (m : FanManager.t) (w : World) :
  exists m' w',
    FanManager.reload_config (m, w) = (Ok tt, (m', w')) /\
    FanManager.restore_on_exit m' = FanManager.restore_on_exit m /\
    FanManager.config_path m' = FanManager.config_path m /\
    FanManager._running m' = FanManager._running m /\
    FanManager._reload_requested m' = FanManager._reload_requested m /\
    match load_config (FanManager.config_path m) w with
    | (Raise _, w1) => m' = m /\ w' = w1
    | (Ok cfg, w1) =>
        match build_managed_profiles cfg w1 with
        | (Raise e, w2) =>
            m' = m /\ w' = w2 /\
            (open_sessions w2 = open_sessions w1 \/
             (e = NvmlError /\
              exists d, (List.length w1 <= d)%nat /\
                        open_sessions w2 = d :: open_sessions w1))
        | (Ok new_profiles, w2) =>
            exists p,
              py_getitem cfg "poll_interval" = Ok (JFloat p) /\
              0.5 <= p /\
              FanManager.profiles m' = new_profiles /\
              FanManager.poll_interval m' = py_max 0.5 p /\
              FanManager.poll_interval m' == p /\
              w' = closing_world (FanManager.restore_on_exit m)
                     (map ManagedProfile.controller (FanManager.profiles m)) w2
        end
    end.
Proof.
  unfold FanManager.reload_config. cbn [fst snd].
  destruct (load_config (FanManager.config_path m) w) as [[cfg | e] w1] eqn:Hload.
  2: { exists m, w1. repeat split. }
  destruct (build_managed_profiles cfg w1) as [[new_profiles | e] w2] eqn:Hbuild.
  2: { exists m, w2. repeat split.
       apply (failed_build_sessions _ _ _ _ Hbuild). }
  apply load_config_normalized in Hload. destruct Hload as (p & ps & -> & Hp & _).
  unfold sbind at 1 2 3. unfold lift_result, modify_obj.
  cbn [py_get py_float config_dict dict_lookup String.eqb Ascii.eqb Bool.eqb fst snd].
  rewrite set_profiles_run.
  assert (Hmax : py_max 0.5 p == p).
  { destruct (py_max_spec 0.5 p) as [[L ->] | [L ->]]; lra. }
  do 2 eexists. split; [reflexivity |].
  cbn [FanManager.restore_on_exit FanManager.config_path FanManager._running
       FanManager._reload_requested FanManager.profiles FanManager.poll_interval
       FanManager.with_profiles FanManager.with_poll_interval].
  repeat split. exists p. repeat split; [exact Hp | exact Hmax].
Qed.

(** ** The manager's poll interval *)

Lemma reload_config_state `{PyBuiltins} `{Environment} (m : FanManager.t) (w : World) :
  fst (snd (FanManager.reload_config (m, w))) = m \/
  exists new_profiles p,
    fst (snd (FanManager.reload_config (m, w))) =
    FanManager.with_profiles new_profiles
      (FanManager.with_poll_interval (py_max 0.5 p) m).
Proof.
  unfold FanManager.reload_config. cbn [fst snd].
  destruct (load_config (FanManager.config_path m) w) as [[cfg | e] w1] eqn:Hload;
    [| left; reflexivity].
  destruct (build_managed_profiles cfg w1) as [[new_profiles | e] w2] eqn:Hbuild;
    [| left; reflexivity].
  right. apply load_config_shape in Hload. destruct Hload as (p & ps & ->).
  exists new_profiles, p.
  unfold sbind at 1 2 3. unfold lift_result, modify_obj.
  cbn [py_get py_float config_dict dict_lookup String.eqb Ascii.eqb Bool.eqb fst snd].
  rewrite set_profiles_run. reflexivity.
Qed.

(** X6.  The poll interval of a manager is never below 0.5 seconds:
    [__init__] sets it so, and [reload_config] and [loop_once] keep it
    so, whether the reload succeeds or not. *)
Theorem poll_interval_stays_at_least_half `{PyBuiltins} `{Environment}
    (profiles : list ManagedProfile.t) (poll_interval : json) (restore : bool)
    (path : string) (m : FanManager.t) (w : World) :
  FanManager.init profiles poll_interval restore path = Ok m ->
  0.5 <= FanManager.poll_interval m /\
  0.5 <= FanManager.poll_interval (fst (snd (FanManager.reload_config (m, w)))) /\
  0.5 <= FanManager.poll_interval (fst (snd (FanManager.loop_once (m, w)))).
Proof.
  intro Hinit.
  assert (Hm : 0.5 <= FanManager.poll_interval m).
  { unfold FanManager.init in Hinit.
    destruct (py_float poll_interval) as [p |]; [| discriminate].
    cbn [rbind] in Hinit. injection Hinit as <-. cbn [FanManager.poll_interval].
    destruct (py_max_spec 0.5 p) as [[L ->] | [L ->]]; lra. }
  split; [exact Hm |]. split.
  - destruct (reload_config_state m w) as [-> | (new & p & ->)]; [exact Hm |].
    cbn [FanManager.poll_interval FanManager.with_profiles
         FanManager.with_poll_interval].
    destruct (py_max_spec 0.5 p) as [[L ->] | [L ->]]; lra.
  - unfold FanManager.loop_once. cbv beta iota zeta delta [fst snd].
    destruct (FanManager.profiles m) as [| p rest]; [exact Hm |].
    destruct (for_each _ _ _) as [r [ps' w']]. exact Hm.
Qed.

Lemma poll_interval_stays_at_least_half_witness :
  exists m,
    @FanManager.init no_numeric_strings [] (JFloat 0.1) true "config.json" = Ok m /\
    0.5 <= FanManager.poll_interval m /\
    0.5 <= FanManager.poll_interval
             (fst (snd (@FanManager.reload_config no_numeric_strings obliging (m, [])))).
Proof.
  eexists. split; [reflexivity |].
  destruct (@poll_interval_stays_at_least_half no_numeric_strings obliging
              [] (JFloat 0.1) true "config.json" _ [] eq_refl) as (A & B & _).
  split; [exact A | exact B].
Defined.

(** ** A steady target is written once *)

(** X7.  After a speed within [[10, 100]] has been applied, a cycle
    whose curve target is that same speed changes nothing: no command
    goes to the driver and the profile keeps its last state. *)
Theorem steady_target_is_not_rewritten `{Environment}
    (p p' : ManagedProfile.t) (t temp temp2 : Q) (w w' : World) :
  10 <= t <= 100 ->
  FanManager.apply_speed t temp (p, w) = (Ok tt, (p', w')) ->
  FanCurve.value (ManagedProfile.curve p) temp2 = Ok t ->
  FanManager.regulate temp2 (p', w') = (Ok tt, (p', w')).
Proof.
  intros Ht Happly Hvalue.
  destruct (apply_speed_run p t temp w) as (_ & _ & E). rewrite E in Happly.
  destruct (nvml_set_fan_speed w _ _); [| discriminate].
  injection Happly as <- <-.
  unfold FanManager.regulate, sbind, get_obj, lift_result, sret.
  cbv beta iota delta [fst snd].
  cbn [ManagedProfile.curve ManagedProfile.set_last]. rewrite Hvalue.
  assert (Hgate : FanManager.should_apply
                    (ManagedProfile.set_last (py_max 10.0 (py_min 100.0 t)) temp p) t
                  = false).
  { unfold FanManager.should_apply.
    cbn [ManagedProfile.last_speed ManagedProfile.hysteresis ManagedProfile.set_last].
    destruct (Qle_bool _ _) eqn:G; [| reflexivity].
    apply Qle_bool_iff in G. exfalso.
    destruct (clamp_bounds 10.0 100.0 t) as [_ Hc]; [lra |].
    assert (Hv : py_max 10.0 (py_min 100.0 t) == t) by (apply Hc; lra).
    rewrite Hv in G.
    assert (Hz : Qabs (t - t) == 0).
    { rewrite Qabs_pos by lra. lra. }
    rewrite Hz in G.
    destruct (py_max_spec 0.5 (ManagedProfile.hysteresis p)) as [[L Em] | [L Em]];
      rewrite Em in G; lra. }
  rewrite Hgate. reflexivity.
Qed.

Lemma steady_target_is_not_rewritten_witness :
  let p := scenario_profile (FanCurve.mk scenario_points) in
  @FanManager.regulate obliging 52
    (ManagedProfile.set_last 45 50 p, [EvSetFanSpeed 0 45 45]) =
  (Ok tt, (ManagedProfile.set_last 45 50 p, [EvSetFanSpeed 0 45 45])).
Proof.
  intro p.
  apply (@steady_target_is_not_rewritten obliging p _ 45 50 52 []).
  - split; [unfold Qle; simpl; lia | unfold Qle; simpl; lia].
  - reflexivity.
  - reflexivity.
Defined.

(** ** Curves and their dicts *)

(** X8.  [from_dicts] undoes [to_dicts]: the dicts of a curve that was
    built from a non-empty list of points give the same curve back. *)
Theorem from_dicts_to_dicts `{PyBuiltins} (pts : list CurvePoint) (c : FanCurve.t) :
  FanCurve.init pts = Ok c ->
  FanCurve_from_dicts (FanCurve_to_dicts c) = Ok c.
Proof.
  intro Hinit.
  assert (Hc : c = FanCurve.mk (sorted temperature pts) /\ pts <> []).
  { unfold FanCurve.init in Hinit. destruct pts; [discriminate |].
    injection Hinit as <-. split; [reflexivity | discriminate]. }
  destruct Hc as [-> Hne].
  unfold FanCurve_from_dicts, FanCurve_to_dicts. cbn [FanCurve._points py_iter rbind].
  assert (Hcollect : forall l,
             collect point_from_dict
               (map (fun p => curve_point (JFloat (temperature p)) (JFloat (speed p))) l)
             = Ok l).
  { induction l as [| [t s] r IH]; [reflexivity |].
    cbn [map collect]. rewrite IH. reflexivity. }
  rewrite Hcollect. cbn [rbind]. unfold FanCurve.init.
  pose proof (sorted_nonempty temperature pts Hne) as Hs.
  destruct (sorted temperature pts) as [| p0 r] eqn:Es; [congruence |].
  rewrite <- Es.
  rewrite (sorted_fixpoint temperature (sorted temperature pts))
    by apply sorted_Sorted.
  reflexivity.
Qed.

Lemma from_dicts_to_dicts_witness :
  @FanCurve_from_dicts no_numeric_strings
    (FanCurve_to_dicts (FanCurve.mk (sorted temperature scenario_points))) =
  Ok (FanCurve.mk (sorted temperature scenario_points)).
Proof.
  apply (@from_dicts_to_dicts no_numeric_strings scenario_points). reflexivity.
Defined.

(** ** Shutting down *)

Lemma closing_world_events (restore : bool) (ctls : list NvmlController.t) (w : World) :
  exists evs,
    closing_world restore ctls w = evs ++ w /\
    (forall c, In c ctls -> In (EvShutdown (NvmlController.device c)) evs) /\
    (forall e, In e evs ->
       exists c, In c ctls /\
                 (e = EvShutdown (NvmlController.device c) \/
                  (restore = true /\ e = EvRestoreAuto (NvmlController.device c)))).
Proof.
  revert w. induction ctls as [| c rest IH]; intro w.
  - exists []. split; [reflexivity |]. split; intros ? [].
  - unfold closing_world in *. cbn [fold_left].
    destruct (IH (close_events restore c ++ w)) as (evs & -> & Hall & Honly).
    exists (evs ++ close_events restore c). rewrite <- app_assoc.
    split; [reflexivity |]. split.
    + intros c' [<- | I]; apply in_or_app.
      * right. left. reflexivity.
      * left. apply Hall. exact I.
    + intros e I. apply in_app_or in I. destruct I as [I | I].
      * destruct (Honly e I) as (c' & Hc' & He). exists c'. split; [right; exact Hc' | exact He].
      * exists c. split; [left; reflexivity |].
        unfold close_events in I. destruct I as [<- | I]; [left; reflexivity |].
        destruct restore; [| destruct I].
        destruct I as [<- | []]. right. split; reflexivity.
Qed.

Lemma open_sessions_closing_any (restore : bool) (ctls : list NvmlController.t)
    (w : World) :
  open_sessions (closing_world restore ctls w) =
  fold_left (fun l d => remove_first d l) (map NvmlController.device ctls)
            (open_sessions w).
Proof.
  revert w. induction ctls as [| c r IH]; intro w; [reflexivity |].
  unfold closing_world in *. cbn [fold_left map]. rewrite IH.
  destruct restore; reflexivity.
Qed.

(** X9.  The shutdown sequence never raises and shuts every session of
    the list down, whether or not restoring automatic control succeeds
    on it; it touches no other session, and restores only when asked
    to. *)
Theorem close_profiles_shuts_every_session `{Environment}
    (ps : list ManagedProfile.t) (restore : bool) (w : World) :
  exists evs,
    FanManager._close_profiles ps restore w = (Ok tt, evs ++ w) /\
    (forall p, In p ps -> In (EvShutdown (session_of p)) evs) /\
    (forall e, In e evs ->
       exists p, In p ps /\
                 (e = EvShutdown (session_of p) \/
                  (restore = true /\ e = EvRestoreAuto (session_of p)))).
Proof.
  rewrite close_profiles_run.
  destruct (closing_world_events restore (map ManagedProfile.controller ps) w)
    as (evs & -> & Hall & Honly).
  exists evs. split; [reflexivity |]. split.
  - intros p I. apply Hall. apply in_map. exact I.
  - intros e I. destruct (Honly e I) as (c & Hc & He).
    apply in_map_iff in Hc. destruct Hc as (p & <- & Hp).
    exists p. split; [exact Hp | exact He].
Qed.


(** X10.  Building the profiles and then running the shutdown sequence
    on them, with or without restore, leaves open exactly the sessions
    that were open before the build. *)
Theorem build_then_close_leaves_no_session `{PyBuiltins} `{Environment}
    (cfg : json) (restore : bool) (w w1 : World) (ps : list ManagedProfile.t) :
  build_managed_profiles cfg w = (Ok ps, w1) ->
  exists w2,
    FanManager._close_profiles ps restore w1 = (Ok tt, w2) /\
    open_sessions w2 = open_sessions w.
Proof.
  intro Hbuild. destruct (build_sessions _ _ _ _ Hbuild) as [Hopen Hinc].
  rewrite close_profiles_run. eexists. split; [reflexivity |].
  rewrite open_sessions_closing_any, Hopen, map_map.
  apply (shutdowns_cancel_opens _ _ _ Hinc).
Qed.

Lemma build_then_close_leaves_no_session_witness :
  exists ps w1 w2,
    @build_managed_profiles no_numeric_strings obliging DEFAULT_CONFIG [] =
      (Ok ps, w1) /\
    @FanManager._close_profiles obliging ps true w1 = (Ok tt, w2) /\
    open_sessions w2 = [].
Proof.
  destruct (@build_then_close_leaves_no_session no_numeric_strings obliging
              DEFAULT_CONFIG true [] _ _ eq_refl) as (w2 & Hclose & Hopen).
  do 3 eexists. split; [reflexivity |]. split; [exact Hclose | exact Hopen].
Defined.



(** ** The profile list of a snapshot *)

Lemma find_profile_Some (profiles : list json) (g f : Z) (p : json) :
  find_profile profiles g f = Ok (Some p) ->
  In p profiles /\ profile_matches p g f = Ok true.
Proof.
  induction profiles as [| q rest IH]; cbn [find_profile]; [discriminate |].
  destruct (profile_matches q g f) as [[|] | e] eqn:Eq; cbn [rbind];
    try discriminate.
  - intros [= <-]. split; [left; reflexivity | exact Eq].
  - intro E. destruct (IH E) as [I M]. split; [right; exact I | exact M].
Qed.

Lemma find_profile_app (l1 l2 : list json) (g f : Z) :
  find_profile l1 g f = Ok None ->
  find_profile (l1 ++ l2) g f = find_profile l2 g f.
Proof.
  induction l1 as [| q rest IH]; cbn [find_profile app]; [reflexivity |].
  destruct (profile_matches q g f) as [[|] | e]; cbn [rbind]; try discriminate.
  exact IH.
Qed.

Lemma new_profile_matches (g f : Z) (c h : json) :
  profile_matches (profile_dict (JInt g) (JInt f) c h) g f = Ok true.
Proof.
  unfold profile_matches.
  change (py_get (profile_dict (JInt g) (JInt f) c h) "gpu_index" JNull)
    with (Ok (JInt g)).
  change (py_get (profile_dict (JInt g) (JInt f) c h) "fan_index" JNull)
    with (Ok (JInt f)).
  cbn [rbind json_eq num_value]. rewrite !Qeq_bool_refl. reflexivity.
Qed.

(** X12.  When [ensure_profile] is asked to create, it returns a
    profile that matches the two indices and that [find_profile] finds
    in the list afterwards: the first match that was there, with the
    list untouched, or else a new profile appended at the end.  Asking
    again changes nothing. *)
Theorem ensure_profile_is_found (profiles profiles' : list json) (g f : Z)
    (r : option json) :
  ensure_profile profiles g f true = Ok (profiles', r) ->
  exists p,
    r = Some p /\
    profile_matches p g f = Ok true /\
    find_profile profiles' g f = Ok (Some p) /\
    (profiles' = profiles \/
     (find_profile profiles g f = Ok None /\ profiles' = profiles ++ [p])) /\
    ensure_profile profiles' g f true = Ok (profiles', Some p).
Proof.
  unfold ensure_profile.
  destruct (find_profile profiles g f) as [[p |] | e] eqn:Efind; cbn [rbind];
    try discriminate.
  - intros [= <- <-]. exists p.
    destruct (find_profile_Some _ _ _ _ Efind) as [_ M].
    rewrite Efind. cbn [rbind]. repeat split; auto.
  - intros [= <- <-]. eexists. split; [reflexivity |].
    split; [apply new_profile_matches |].
    assert (Hfound : find_profile
                       (profiles ++
                        [profile_dict (JInt g) (JInt f) (deep_copy_config DEFAULT_CURVE)
                                      DEFAULT_hysteresis]) g f =
                     Ok (Some (profile_dict (JInt g) (JInt f)
                                 (deep_copy_config DEFAULT_CURVE) DEFAULT_hysteresis))).
    { rewrite (find_profile_app _ _ _ _ Efind). cbn [find_profile].
      rewrite new_profile_matches. reflexivity. }
    split; [exact Hfound |]. split; [right; split; reflexivity |].
    rewrite Hfound. reflexivity.
Qed.

Lemma ensure_profile_is_found_witness :
  exists p,
    ensure_profile [DEFAULT_PROFILE] 1 0 true = Ok ([DEFAULT_PROFILE; p], Some p) /\
    find_profile [DEFAULT_PROFILE; p] 1 0 = Ok (Some p).
Proof.
  destruct (ensure_profile_is_found [DEFAULT_PROFILE] _ 1 0 _ eq_refl)
    as (p & Hr & _ & Hfind & _).
  injection Hr as <-. eexists. split; [reflexivity | exact Hfind].
Defined.

(** X13.  [remove_profile] takes out the first profile that matches the
    two indices, the one [find_profile] returns, and nothing else; it
    returns [False], with the list as it was, exactly when
    [find_profile] finds none. *)
Theorem remove_profile_takes_first_match (profiles profiles' : list json)
    (g f : Z) (removed : bool) :
  remove_profile profiles g f = Ok (profiles', removed) ->
  if removed
  then exists l1 p l2,
         profiles = l1 ++ p :: l2 /\ profiles' = l1 ++ l2 /\
         find_profile l1 g f = Ok None /\
         find_profile profiles g f = Ok (Some p)
  else profiles' = profiles /\ find_profile profiles g f = Ok None.
Proof.
  revert profiles' removed.
  induction profiles as [| q rest IH]; intros profiles' removed;
    cbn [remove_profile find_profile].
  - intros [= <- <-]. split; reflexivity.
  - destruct (profile_matches q g f) as [[|] | e] eqn:Eq; cbn [rbind];
      try discriminate.
    + intros [= <- <-]. exists [], q, rest. repeat split.
    + destruct (remove_profile rest g f) as [[rest' b] | e] eqn:Er; cbn [rbind];
        [| discriminate].
      intros [= <- <-]. cbn [fst snd]. specialize (IH rest' b eq_refl).
      destruct b.
      * destruct IH as (l1 & p & l2 & -> & -> & Hnone & Hfind).
        exists (q :: l1), p, l2. repeat split.
        -- cbn [find_profile]. rewrite Eq. cbn [rbind]. exact Hnone.
        -- exact Hfind.
      * destruct IH as [-> Hnone]. split; [reflexivity | exact Hnone].
Qed.

Lemma remove_profile_takes_first_match_witness :
  remove_profile [DEFAULT_PROFILE] 0 0 = Ok ([], true) /\
  exists l1 p l2,
    [DEFAULT_PROFILE] = l1 ++ p :: l2 /\ @nil json = l1 ++ l2 /\
    find_profile l1 0 0 = Ok None /\
    find_profile [DEFAULT_PROFILE] 0 0 = Ok (Some p).
Proof.
  split; [reflexivity |].
  exact (remove_profile_takes_first_match [DEFAULT_PROFILE] [] 0 0 true eq_refl).
Defined.

(** ** Command line values *)

Lemma split_once_Some (sep : Ascii.ascii) (s a b : string) :
  split_once sep s = Some (a, b) -> s = (a ++ String sep b)%string.
Proof.
  revert a. induction s as [| c r IH]; intro a; cbn [split_once]; [discriminate |].
  destruct (Ascii.eqb c sep) eqn:Ec.
  - intros [= <- <-]. apply Ascii.eqb_eq in Ec. subst. reflexivity.
  - destruct (split_once sep r) as [[a' b'] |]; [| discriminate].
    intros [= <- <-]. cbn [String.append]. f_equal. apply IH. reflexivity.
Qed.

Lemma parse_profile_token_bounds `{PyBuiltins} (token : option string) (g f : Z) :
  parse_profile_token token = Ok (g, f) -> (0 <= g)%Z /\ (0 <= f)%Z.
Proof.
  unfold parse_profile_token.
  destruct token as [token |]; [| discriminate].
  destruct (split_once ":" token) as [[a b] |]; [| discriminate].
  destruct (int_of_str a) as [g' |]; [| discriminate].
  destruct (int_of_str b) as [f' |]; [| discriminate].
  destruct ((g' <? 0)%Z || (f' <? 0)%Z) eqn:En; [discriminate |].
  intros [= <- <-]. apply orb_false_iff in En. destruct En as [Eg Ef].
  apply Z.ltb_ge in Eg. apply Z.ltb_ge in Ef. auto.
Qed.

(** X14.  [parse_profile_token] fails with [ValueError] and nothing
    else; when it returns, the token is [gpu:fan] around its first
    colon, both parts are integers for [int], and neither is negative. *)
Theorem parse_profile_token_spec `{PyBuiltins} (token : option string) :
  match parse_profile_token token with
  | Ok (gpu_idx, fan_idx) =>
      (0 <= gpu_idx)%Z /\ (0 <= fan_idx)%Z /\
      exists a b,
        token = Some (a ++ String ":" b)%string /\
        int_of_str a = Some gpu_idx /\ int_of_str b = Some fan_idx
  | Raise e => e = ValueError
  end.
Proof.
  unfold parse_profile_token.
  destruct token as [token |]; [| reflexivity].
  destruct (split_once ":" token) as [[a b] |] eqn:Es; [| reflexivity].
  destruct (int_of_str a) as [g |] eqn:Ea; [| reflexivity].
  destruct (int_of_str b) as [f |] eqn:Eb; [| reflexivity].
  destruct ((g <? 0)%Z || (f <? 0)%Z) eqn:En; [reflexivity |].
  apply orb_false_iff in En. destruct En as [Eg Ef].
  apply Z.ltb_ge in Eg. apply Z.ltb_ge in Ef.
  split; [exact Eg |]. split; [exact Ef |].
  exists a, b. rewrite (split_once_Some _ _ _ _ Es). auto.
Qed.

Section CurveString.
Context `{PyBuiltins} `{PyStrings}.

Lemma parse_curve_entry_spec (entry : string) :
  match parse_curve_entry entry with
  | Ok None => True
  | Ok (Some pt) =>
      exists t s, pt = curve_point (JFloat t) (JFloat s) /\ 0 <= t /\ 0 <= s <= 100
  | Raise e => e = ValueError
  end.
Proof.
  unfold parse_curve_entry. cbv zeta.
  destruct (String.eqb (str_strip entry) ""); [exact I |].
  destruct (split_once ":" (str_strip entry)) as [[a b] |]; [| reflexivity].
  destruct (float_of_str a) as [t |]; [| reflexivity].
  destruct (float_of_str b) as [s |]; [| reflexivity].
  destruct (Qlt_bool t 0) eqn:Et; [reflexivity |].
  destruct (Qle_bool 0 s && Qle_bool s 100) eqn:Es; cbn [negb]; [| reflexivity].
  apply Qlt_bool_false in Et. apply andb_true_iff in Es. destruct Es as [E1 E2].
  apply Qle_bool_iff in E1. apply Qle_bool_iff in E2.
  exists t, s. repeat split; assumption.
Qed.

Lemma parse_curve_entries_spec (entries : list string) :
  match parse_curve_entries entries with
  | Ok pts =>
      Forall (fun pt => exists t s,
                  pt = curve_point (JFloat t) (JFloat s) /\ 0 <= t /\ 0 <= s <= 100) pts
  | Raise e => e = ValueError
  end.
Proof.
  induction entries as [| entry rest IH]; cbn [parse_curve_entries]; [constructor |].
  pose proof (parse_curve_entry_spec entry) as He.
  destruct (parse_curve_entry entry) as [r | e]; cbn [rbind]; [| exact He].
  destruct (parse_curve_entries rest) as [rs | e]; cbn [rbind]; [| exact IH].
  destruct r as [pt |]; [constructor; assumption | exact IH].
Qed.
Lemma parse_curve_string_points (curve_str : string) (pts : list json) :
  parse_curve_string curve_str = Ok pts ->
  pts <> [] /\
  Sorted (key_le temperature_key) pts /\
  Forall (fun pt => exists t s,
              pt = curve_point (JFloat t) (JFloat s) /\ 0 <= t /\ 0 <= s <= 100) pts.
Proof.
  unfold parse_curve_string.
  destruct (String.eqb curve_str ""); [discriminate |].
  pose proof (parse_curve_entries_spec (split_on "," curve_str)) as Hs.
  destruct (parse_curve_entries (split_on "," curve_str)) as [l | e];
    cbn [rbind]; [| discriminate].
  destruct l as [| pt rest]; [discriminate |].
  intro E. injection E as E. rewrite <- E.
  split; [apply (sorted_nonempty temperature_key (pt :: rest)); discriminate |].
  split; [apply (sorted_Sorted temperature_key (pt :: rest)) |].
  apply (Forall_sorted temperature_key _ (pt :: rest)). exact Hs.
Qed.
End CurveString.

(** X15.  On a string whose numbers [float] reads as finite numbers or
    refuses, [parse_curve_string] fails with [ValueError] and nothing
    else; when it returns, the curve has at least one point, is sorted
    by temperature, and every point has a temperature that is not
    negative and a speed in [[0, 100]]. *)
Theorem parse_curve_string_spec `{PyBuiltins} `{PyStrings} (curve_str : string) :
  match parse_curve_string curve_str with
  | Ok pts =>
      pts <> [] /\
      Sorted (key_le temperature_key) pts /\
      Forall (fun pt => exists t s,
                  pt = curve_point (JFloat t) (JFloat s) /\ 0 <= t /\ 0 <= s <= 100) pts
  | Raise e => e = ValueError
  end.
Proof.
  unfold parse_curve_string.
  destruct (String.eqb curve_str ""); [reflexivity |].
  pose proof (parse_curve_entries_spec (split_on "," curve_str)) as Hs.
  destruct (parse_curve_entries (split_on "," curve_str)) as [pts | e];
    cbn [rbind]; [| exact Hs].
  destruct pts as [| pt rest]; [reflexivity |].
  split; [apply sorted_nonempty; discriminate |].
  split; [apply sorted_Sorted | apply Forall_sorted; exact Hs].
Qed.

(** X16.  A curve of finite numbers that [parse_curve_string] has
    returned goes through normalization unchanged: a profile that
    carries it, with integer indices and a float hysteresis, is kept by
    the loop of [normalize_config] and comes out equal under Python's
    [==]; and [FanCurve.from_dicts] accepts it. *)
Theorem parsed_curve_survives_normalization `{PyBuiltins} `{PyStrings}
    (curve_str : string) (pts : list json) (dc : list (string * json))
    (g f : Z) (h : Q) :
  parse_curve_string curve_str = Ok pts ->
  (exists e',
      normalize_entry (JDict dc)
        (profile_dict (JInt g) (JInt f) (JList pts) (JFloat h)) = Ok (Some e') /\
      json_eq e' (profile_dict (JInt g) (JInt f) (JList pts) (JFloat h)) = true) /\
  (exists c, FanCurve_from_dicts (JList pts) = Ok c /\ curve_in_range c).
Proof.
  intro Hparse.
  destruct (parse_curve_string_points curve_str pts Hparse) as (Hne & Hsorted & Hpts).
  assert (Hnorm : Forall normalized_point pts).
  { eapply Forall_impl; [| exact Hpts].
    intros pt (t & s & -> & _ & Hrange).
    exists (JFloat t), (JFloat s), t, s. repeat split; try reflexivity; apply Hrange. }
  split.
  - apply normalize_entry_again. exists g, f, pts, h. repeat split; assumption.
  - apply from_dicts_normalized; assumption.
Qed.

Lemma parsed_curve_survives_normalization_witness :
  @parse_curve_string reads_small_numerals no_stripping "40:30,30:40" =
    Ok [curve_point (JFloat 30) (JFloat 40); curve_point (JFloat 40) (JFloat 30)] /\
  (exists e',
      @normalize_entry reads_small_numerals (JDict [])
        (profile_dict (JInt 0) (JInt 0)
           (JList [curve_point (JFloat 30) (JFloat 40);
                   curve_point (JFloat 40) (JFloat 30)]) (JFloat 2)) = Ok (Some e') /\
      json_eq e'
        (profile_dict (JInt 0) (JInt 0)
           (JList [curve_point (JFloat 30) (JFloat 40);
                   curve_point (JFloat 40) (JFloat 30)]) (JFloat 2)) = true) /\
  exists c,
    @FanCurve_from_dicts reads_small_numerals
      (JList [curve_point (JFloat 30) (JFloat 40);
              curve_point (JFloat 40) (JFloat 30)]) = Ok c /\
    curve_in_range c.
Proof.
  split; [reflexivity |].
  exact (@parsed_curve_survives_normalization reads_small_numerals no_stripping
           "40:30,30:40" _ [] 0 0 2 eq_refl).
Defined.

(** X17.  [resolve_profile_tuple] returns only pairs of indices that
    are not negative.  With [--profile] it returns what
    [parse_profile_token] makes of it and looks at nothing else;
    without it, an index given on the command line is returned as it
    is. *)
Theorem resolve_profile_tuple_spec `{PyBuiltins} (args : Args) (config : json)
    (gpu fan : Z) :
  resolve_profile_tuple args config = Ok (gpu, fan) ->
  (0 <= gpu)%Z /\ (0 <= fan)%Z /\
  match args_profile args with
  | Some (String c r) => parse_profile_token (Some (String c r)) = Ok (gpu, fan)
  | _ =>
      (forall g, args_gpu_index args = Some g -> gpu = g) /\
      (forall f, args_fan_index args = Some f -> fan = f)
  end.
Proof.
  unfold resolve_profile_tuple.
  destruct (args_profile args) as [[| c r] |].
  2: { intro E. pose proof (parse_profile_token_bounds _ _ _ E) as [Hg Hf]. auto. }
  all: intro E; rbind_cases E;
    match type of E with
    | (if ?c then _ else _) = _ => destruct c eqn:En; [discriminate E |]
    end;
    injection E as <- <-;
    apply orb_false_iff in En; destruct En as [Eg Ef];
    apply Z.ltb_ge in Eg; apply Z.ltb_ge in Ef;
    (split; [exact Eg |]); (split; [exact Ef |]);
    (split; [intros g Hg; rewrite Hg in *; congruence
            | intros f Hf; rewrite Hf in *; congruence]).
Qed.

Lemma resolve_profile_tuple_spec_witness :
  @resolve_profile_tuple no_numeric_strings (mkArgs None (Some 2%Z) None)
                         DEFAULT_CONFIG = Ok (2%Z, 0%Z) /\
  (0 <= 2)%Z /\ (0 <= 0)%Z.
Proof.
  split; [reflexivity |].
  destruct (@resolve_profile_tuple_spec no_numeric_strings
              (mkArgs None (Some 2%Z) None) DEFAULT_CONFIG 2 0 eq_refl)
    as (Hg & Hf & _).
  split; [exact Hg | exact Hf].
Defined.

Lemma close_profiles_shuts_every_session_witness :
  exists evs,
    @FanManager._close_profiles unplugged
      [scenario_profile (FanCurve.mk scenario_points)] true [] = (Ok tt, evs ++ []) /\
    In (EvShutdown 0) evs.
Proof.
  destruct (@close_profiles_shuts_every_session unplugged
              [scenario_profile (FanCurve.mk scenario_points)] true [])
    as (evs & E & Hall & _).
  exists evs. split; [exact E |].
  apply (Hall (scenario_profile (FanCurve.mk scenario_points))). left. reflexivity.
Defined.

(** ** What [load_config] hands over *)

(** X18.  For a file of finite numbers, and also when there is no
    file, a snapshot that [load_config] returns has a float poll
    interval of at least 0.5 and at least one profile, and every
    profile has integer indices, a float hysteresis and a non-empty
    curve sorted by temperature with speeds in [[0, 100]]. *)
Theorem load_config_returns_normalized `{PyBuiltins} `{Environment}
    (path : string) (w w1 : World) (cfg : json) :
  load_config path w = (Ok cfg, w1) ->
  exists p first rest,
    cfg = config_dict (JFloat p) (JList (first :: rest)) /\
    0.5 <= p /\
    Forall normalized_profile (first :: rest) /\
    w1 = EvReadConfig path :: w.
Proof.
  intro Hload.
  assert (Hw : w1 = EvReadConfig path :: w).
  { unfold load_config in Hload. injection Hload as _ <-. reflexivity. }
  apply load_config_normalized in Hload.
  destruct Hload as (p & ps & -> & Hp & Hne & Hps).
  destruct ps as [| first rest]; [congruence |].
  exists p, first, rest. repeat split; assumption.
Qed.

Lemma load_config_returns_normalized_witness :
  exists p first rest,
    @load_config no_numeric_strings (one_gpu_with_file untidy_config) "config.json" [] =
      (Ok (config_dict (JFloat p) (JList (first :: rest))), [EvReadConfig "config.json"]) /\
    0.5 <= p /\ Forall normalized_profile (first :: rest).
Proof.
  destruct (@load_config no_numeric_strings (one_gpu_with_file untidy_config)
              "config.json" []) as [[cfg | e] w1] eqn:Hload;
    [| vm_compute in Hload; discriminate Hload].
  destruct (@load_config_returns_normalized no_numeric_strings
              (one_gpu_with_file untidy_config) "config.json" [] w1 cfg Hload)
    as (p & first & rest & -> & Hp & Hps & ->).
  exists p, first, rest. repeat split; assumption.
Defined.
